(** * Dual-barrier trading bot: risk sizing, trade orchestration, protocol client

    A shallow embedding of [src/lib/trading-engine.ts] (the classes
    [TradingEngine], [DerivAPI] and [RiskCalculator]) and of the records of
    [src/types/trading.ts], with the properties the specification states
    about them and further properties of the code.

    Numbers.  A JavaScript [number] is modelled by an exact rational [Q]:
    binary64 rounding and overflow are abstracted away.  The one place where
    the source can divide by zero ([calculateRecommendedStake]) uses
    [JsNum], which adds the two infinities and NaN with the behaviour
    [Math.min], [Math.max], [toFixed] and [>=] have on them.  Counts
    (consecutive losses, request identifiers, attempt counters) are [nat].

    Asynchrony.  JavaScript runs one event handler at a time; timers,
    socket events and settled promises are modelled as events of a
    transition system whose step function is the body of the handler.  An
    [async] method is cut at its [await]: the part before it runs in the
    event that calls the method, the part after it in the event that
    settles the awaited promise.

    Left out: [notifyStateUpdate] (the callback receives a copy of the state
    and the engine does not read anything back), the promise that [connect]
    returns with its 10 s timer, and console output other than the message
    that ends the reconnection attempts. *)

From Stdlib Require Import QArith Qpower Qround Qabs Qminmax Lqa ZArith List String Bool Lia.
From Stdlib Require Import DecimalString.
From stdpp Require Import base option gmap.
Import ListNotations.

Open Scope Q_scope.

(** ** JavaScript numbers *)

Module Js.

(** [x < y] and [x <= y] as the booleans the source branches on. *)
Definition leb (x y : Q) : bool := Qle_bool x y.
Definition ltb (x y : Q) : bool := negb (Qle_bool y x).

(** [Math.pow] at a natural exponent. *)
Fixpoint Math_pow (b : Q) (n : nat) : Q :=
  match n with
  | O => 1
  | S k => b * Math_pow b k
  end.

(** [value || 0] for an optional numeric field. *)
Definition orZero (v : option Q) : Q :=
  match v with
  | Some q => if Qeq_bool q 0 then 0 else q
  | None => 0
  end.

(** The result of a division: a finite number, an infinity or NaN. *)
Inductive JsNum : Type :=
| Fin (q : Q)
| PosInf
| NegInf
| NaN.

(** [a / b] for finite [a] and [b]. *)
Definition div (a b : Q) : JsNum :=
  if Qeq_bool b 0 then
    if Qeq_bool a 0 then NaN
    else if ltb 0 a then PosInf else NegInf
  else Fin (a / b).

(** [Math.min(a, x)] and [Math.max(a, x)] with a finite first argument. *)
Definition Math_min (a : Q) (x : JsNum) : JsNum :=
  match x with
  | Fin b => Fin (Qmin a b)
  | PosInf => Fin a
  | NegInf => NegInf
  | NaN => NaN
  end.

Definition Math_max (a : Q) (x : JsNum) : JsNum :=
  match x with
  | Fin b => Fin (Qmax a b)
  | PosInf => PosInf
  | NegInf => Fin a
  | NaN => NaN
  end.

(** [x * 2]. *)
Definition double (x : JsNum) : JsNum :=
  match x with
  | Fin b => Fin (b * 2)
  | other => other
  end.

(** [a >= x] with a finite left operand. *)
Definition geb (a : Q) (x : JsNum) : bool :=
  match x with
  | Fin b => leb b a
  | PosInf => false
  | NegInf => true
  | NaN => false
  end.

(** [parseFloat(x.toFixed(2))] on a finite number: the integer [n] for
    which [n / 100] is nearest to [|x|], the larger one at a tie, with the
    sign of [x]; from 1e21 on [toFixed] prints the number itself. *)
Definition toFixed2 (x : Q) : Q :=
  if leb (inject_Z (10 ^ 21)) (Qabs x) then x
  else
    let n := Qfloor (Qabs x * 100 + (1 # 2)) in
    if ltb x 0 then - (inject_Z n / 100) else inject_Z n / 100.

Definition parseFloat_toFixed2 (x : JsNum) : JsNum :=
  match x with
  | Fin q => Fin (toFixed2 q)
  | other => other
  end.

End Js.

(** ** The records of [types/trading.ts] *)

Module TradeConfig.
Record t : Type := mk {
  stake : Q;
  martingaleMultiplier : Q;
  duration : Q;
  positiveBarrier : Q;
  negativeBarrier : Q;
  selectedMarket : string;
  riskPercentage : Q;
  lockedBalance : Q
}.
End TradeConfig.

Module AccountInfo.
Record t : Type := mk {
  balance : Q;
  currency : string;
  loginId : string;
  availableBalance : Q;
  lockedBalance : Q
}.
End AccountInfo.

Module Trade.
Inductive Side : Type := higher | lower.
Inductive Status : Type := pending | won | lost | active.

Record t : Type := mk {
  id : string;
  timestamp : Q;
  type : Side;
  stake : Q;
  barrier : Q;
  market : string;
  status : Status;
  payout : option Q;
  profit : option Q;
  contractId : option string
}.

(** [trade.status !== 'active'] *)
Definition notActive (tr : t) : bool :=
  match status tr with
  | active => false
  | _ => true
  end.
End Trade.

Module TradePair.
Inductive Status : Type := pending | completed | active.

Record t : Type := mk {
  id : string;
  timestamp : Q;
  higherTrade : Trade.t;
  lowerTrade : Trade.t;
  totalStake : Q;
  totalProfit : option Q;
  status : Status
}.
End TradePair.

Module MarketData.
Record t : Type := mk {
  symbol : string;
  name : string;
  pip : Q;
  currentPrice : Q;
  minBarrier : Q;
  maxBarrier : Q;
  minStake : Q;
  maxStake : Q
}.
End MarketData.

Module TradingState.
Record t : Type := mk {
  isConnected : bool;
  isTrading : bool;
  accountInfo : option AccountInfo.t;
  currentMarket : option MarketData.t;
  tradeHistory : list TradePair.t;
  totalProfit : Q;
  totalLoss : Q;
  consecutiveLosses : nat
}.
End TradingState.

Module RiskCalculation.
Record t : Type := mk {
  recommendedStake : Js.JsNum;
  maxRisk : Q;
  availableBalance : Q;
  riskPercentage : Q;
  canTrade : bool
}.
End RiskCalculation.

(** ** [RiskCalculator] *)

Module RiskCalculator.

(** The [for (let i = 0; i <= maxLevels; i++)] loop of
    [calculateMartingaleSequenceRisk]; [iters] counts the iterations that
    remain. *)
Fixpoint sequenceLoop (iters : nat) (baseStake multiplier totalRisk currentStake : Q) : Q :=
  match iters with
  | O => totalRisk
  | S k =>
      let totalRisk' := totalRisk + currentStake in
      let currentStake' := currentStake * multiplier in
      if Js.ltb (baseStake * 32) currentStake' then totalRisk'
      else sequenceLoop k baseStake multiplier totalRisk' currentStake'
  end.

Definition calculateMartingaleSequenceRisk (baseStake multiplier : Q) (maxLevels : nat) : Q :=
  sequenceLoop (S maxLevels) baseStake multiplier 0 baseStake.

Definition minStake : Q := 0.35.

Definition calculateRecommendedStake
    (accountInfo : AccountInfo.t) (riskPercentage martingaleMultiplier : Q) : RiskCalculation.t :=
  let availableBalance := AccountInfo.availableBalance accountInfo in
  let riskAmount := (availableBalance * riskPercentage) / 100 in
  let martingaleSequenceRisk := calculateMartingaleSequenceRisk 1 martingaleMultiplier 5 in
  let recommendedStake := Js.div riskAmount (martingaleSequenceRisk * 2) in
  let maxStake := Qmin 2000 (availableBalance / 4) in
  let finalStake := Js.Math_max minStake (Js.Math_min maxStake recommendedStake) in
  {| RiskCalculation.recommendedStake := Js.parseFloat_toFixed2 finalStake;
     RiskCalculation.maxRisk := riskAmount;
     RiskCalculation.availableBalance := availableBalance;
     RiskCalculation.riskPercentage := riskPercentage;
     RiskCalculation.canTrade := Js.geb availableBalance (Js.double finalStake) |}.

(** The stake before rounding, [finalStake] in the source. *)
Definition finalStake (accountInfo : AccountInfo.t) (riskPercentage martingaleMultiplier : Q) : Js.JsNum :=
  let availableBalance := AccountInfo.availableBalance accountInfo in
  let riskAmount := (availableBalance * riskPercentage) / 100 in
  let martingaleSequenceRisk := calculateMartingaleSequenceRisk 1 martingaleMultiplier 5 in
  Js.Math_max minStake
    (Js.Math_min (Qmin 2000 (availableBalance / 4))
       (Js.div riskAmount (martingaleSequenceRisk * 2))).

(** The default value of the parameter [maxMultiplier]. *)
Definition default_maxMultiplier : Q := 10.

Definition calculateMartingaleStake
    (baseStake : Q) (consecutiveLosses : nat) (multiplier maxMultiplier : Q) : Q :=
  match consecutiveLosses with
  | O => baseStake
  | S _ =>
      let martingaleStake := baseStake * Js.Math_pow multiplier consecutiveLosses in
      Qmin martingaleStake (baseStake * maxMultiplier)
  end.

Definition canExecuteTrade
    (accountInfo : AccountInfo.t) (config : TradeConfig.t) (consecutiveLosses : nat) : bool :=
  let martingaleStake :=
    calculateMartingaleStake (TradeConfig.stake config) consecutiveLosses
      (TradeConfig.martingaleMultiplier config) default_maxMultiplier in
  let totalRequiredStake := martingaleStake * 2 in
  Js.leb totalRequiredStake (AccountInfo.availableBalance accountInfo).

Section ValidateBarriers.

(** The rendering of a number inside a template literal. *)
Variable show : Q -> string.

Definition msg_positive_sign : string := "Positive barrier must be greater than 0".
Definition msg_negative_sign : string := "Negative barrier must be less than 0".
Definition msg_positive_min (minBarrier : Q) : string :=
  "Positive barrier must be at least " ++ show minBarrier.
Definition msg_positive_max (maxBarrier : Q) : string :=
  "Positive barrier cannot exceed " ++ show maxBarrier.
Definition msg_negative_min (minBarrier : Q) : string :=
  "Negative barrier magnitude must be at least " ++ show minBarrier.
Definition msg_negative_max (maxBarrier : Q) : string :=
  "Negative barrier magnitude cannot exceed " ++ show maxBarrier.

(** [if (cond) errors.push(msg)] *)
Definition pushIf (cond : bool) (msg : string) (errors : list string) : list string :=
  if cond then errors ++ [msg] else errors.

Record Validation : Type := mkValidation {
  isValid : bool;
  errors : list string
}.

Definition validateBarriers (positiveBarrier negativeBarrier minBarrier maxBarrier : Q) : Validation :=
  let errors0 : list string := [] in
  let errors1 := pushIf (Js.leb positiveBarrier 0) msg_positive_sign errors0 in
  let errors2 := pushIf (Js.leb 0 negativeBarrier) msg_negative_sign errors1 in
  let absPositive := Qabs positiveBarrier in
  let absNegative := Qabs negativeBarrier in
  let errors3 := pushIf (Js.ltb absPositive minBarrier) (msg_positive_min minBarrier) errors2 in
  let errors4 := pushIf (Js.ltb maxBarrier absPositive) (msg_positive_max maxBarrier) errors3 in
  let errors5 := pushIf (Js.ltb absNegative minBarrier) (msg_negative_min minBarrier) errors4 in
  let errors6 := pushIf (Js.ltb maxBarrier absNegative) (msg_negative_max maxBarrier) errors5 in
  {| isValid := Nat.eqb (List.length errors6) 0; errors := errors6 |}.

End ValidateBarriers.

(** *** Analytics for display *)

Definition calculateProfitLossPercentage (currentProfit initialBalance : Q) : Q :=
  if Qeq_bool initialBalance 0 then 0
  else (currentProfit / initialBalance) * 100.

Definition calculateWinRate (winCount totalTrades : Q) : Q :=
  if Qeq_bool totalTrades 0 then 0
  else (winCount / totalTrades) * 100.




Definition calculateOptimalRiskPercentage (accountBalance : Q) : Q :=
  if Js.ltb accountBalance 100 then 10
  else if Js.ltb accountBalance 1000 then 5
  else if Js.ltb accountBalance 10000 then 3
  else 2.

Definition calculateTimeToDoubleBalance (currentBalance profitPerHour : Q) : Js.JsNum :=
  if Js.leb profitPerHour 0 then Js.PosInf
  else Js.Fin (currentBalance / profitPerHour).

Definition calculateMaxDrawdown (peakBalance currentBalance : Q) : Q :=
  if Qeq_bool peakBalance 0 then 0
  else ((peakBalance - currentBalance) / peakBalance) * 100.

End RiskCalculator.


(** ** Records of [types/api.ts] and of the market table *)

(** The fields of [BalanceResponse.balance] that the engine reads. *)
Module BalanceResponse.
Record t : Type := mk {
  balance : Q;
  currency : string;
  loginid : string
}.
End BalanceResponse.

(** An entry of [MARKET_CONFIGS], the [marketConfig] of [setMarket]. *)
Module MarketConfig.
Record t : Type := mk {
  name : string;
  symbol : string;
  pip : Q;
  minBarrier : Q;
  maxBarrier : Q;
  minStake : Q;
  maxStake : Q;
  barrierStep : Q
}.
End MarketConfig.

(** ** [TradingEngine] *)

Module TradingEngine.

(** A thrown [Error], by its message, or a value. *)
Definition Result (A : Type) : Type := (string + A)%type.

Inductive ContractType : Type := CALL | PUT.

(** The fields of [ProposalRequest] and of [BuyContractRequest.parameters]
    that vary; [proposal: 1], [basis: 'stake'] and [duration_unit: 's'] are
    constants of the source. *)
Record ContractTerms : Type := mkTerms {
  amount : Q;
  contract_type : ContractType;
  currency : string;
  duration : Q;
  symbol : string;
  barrier : string
}.

Record ProposalResponse : Type := mkProposal { proposal_id : string }.

Record BuyContractRequest : Type := mkBuy {
  buy : Js.JsNum;
  parameters : ContractTerms
}.

Record BuyContractResponse : Type := mkBought {
  contract_id : Q;
  payout : Q
}.

Definition initialState : TradingState.t :=
  {| TradingState.isConnected := false;
     TradingState.isTrading := false;
     TradingState.accountInfo := None;
     TradingState.currentMarket := None;
     TradingState.tradeHistory := [];
     TradingState.totalProfit := 0;
     TradingState.totalLoss := 0;
     TradingState.consecutiveLosses := 0 |}.

Definition set_tradeHistory (h : list TradePair.t) (s : TradingState.t) : TradingState.t :=
  {| TradingState.isConnected := TradingState.isConnected s;
     TradingState.isTrading := TradingState.isTrading s;
     TradingState.accountInfo := TradingState.accountInfo s;
     TradingState.currentMarket := TradingState.currentMarket s;
     TradingState.tradeHistory := h;
     TradingState.totalProfit := TradingState.totalProfit s;
     TradingState.totalLoss := TradingState.totalLoss s;
     TradingState.consecutiveLosses := TradingState.consecutiveLosses s |}.

Definition set_isTrading (b : bool) (s : TradingState.t) : TradingState.t :=
  {| TradingState.isConnected := TradingState.isConnected s;
     TradingState.isTrading := b;
     TradingState.accountInfo := TradingState.accountInfo s;
     TradingState.currentMarket := TradingState.currentMarket s;
     TradingState.tradeHistory := TradingState.tradeHistory s;
     TradingState.totalProfit := TradingState.totalProfit s;
     TradingState.totalLoss := TradingState.totalLoss s;
     TradingState.consecutiveLosses := TradingState.consecutiveLosses s |}.

Definition set_isConnected (b : bool) (s : TradingState.t) : TradingState.t :=
  {| TradingState.isConnected := b;
     TradingState.isTrading := TradingState.isTrading s;
     TradingState.accountInfo := TradingState.accountInfo s;
     TradingState.currentMarket := TradingState.currentMarket s;
     TradingState.tradeHistory := TradingState.tradeHistory s;
     TradingState.totalProfit := TradingState.totalProfit s;
     TradingState.totalLoss := TradingState.totalLoss s;
     TradingState.consecutiveLosses := TradingState.consecutiveLosses s |}.

Definition set_accountInfo (a : option AccountInfo.t) (s : TradingState.t) : TradingState.t :=
  {| TradingState.isConnected := TradingState.isConnected s;
     TradingState.isTrading := TradingState.isTrading s;
     TradingState.accountInfo := a;
     TradingState.currentMarket := TradingState.currentMarket s;
     TradingState.tradeHistory := TradingState.tradeHistory s;
     TradingState.totalProfit := TradingState.totalProfit s;
     TradingState.totalLoss := TradingState.totalLoss s;
     TradingState.consecutiveLosses := TradingState.consecutiveLosses s |}.

Definition set_currentMarket (m : option MarketData.t) (s : TradingState.t) : TradingState.t :=
  {| TradingState.isConnected := TradingState.isConnected s;
     TradingState.isTrading := TradingState.isTrading s;
     TradingState.accountInfo := TradingState.accountInfo s;
     TradingState.currentMarket := m;
     TradingState.tradeHistory := TradingState.tradeHistory s;
     TradingState.totalProfit := TradingState.totalProfit s;
     TradingState.totalLoss := TradingState.totalLoss s;
     TradingState.consecutiveLosses := TradingState.consecutiveLosses s |}.

(** *** Stake and barriers *)

Definition calculateStakeWithMartingale (s : TradingState.t) (config : TradeConfig.t) : Q :=
  let stake :=
    match TradingState.consecutiveLosses s with
    | O => TradeConfig.stake config
    | S _ =>
        TradeConfig.stake config
        * Js.Math_pow (TradeConfig.martingaleMultiplier config) (TradingState.consecutiveLosses s)
    end in
  Qmin stake (TradeConfig.stake config * 10).

Definition calculateBarriers (s : TradingState.t) (positiveBarrier negativeBarrier : Q) : Q * Q :=
  match TradingState.currentMarket s with
  | None => (positiveBarrier, - Qabs negativeBarrier)
  | Some market =>
      let clampedPositive :=
        Qmax (MarketData.minBarrier market)
             (Qmin (MarketData.maxBarrier market) (Qabs positiveBarrier)) in
      let clampedNegative :=
        - Qmax (MarketData.minBarrier market)
               (Qmin (MarketData.maxBarrier market) (Qabs negativeBarrier)) in
      (clampedPositive, clampedNegative)
  end.

Definition canExecuteTrade (s : TradingState.t) (config : TradeConfig.t) : bool :=
  match TradingState.accountInfo s with
  | None => false
  | Some accountInfo =>
      let requiredStake := calculateStakeWithMartingale s config * 2 in
      let availableBalance := AccountInfo.availableBalance accountInfo in
      Js.leb requiredStake availableBalance
  end.

(** *** [updateTradeResult] *)

(** [trade.contractId === contractId] *)
Definition hasContract (contractId : string) (tr : Trade.t) : bool :=
  match Trade.contractId tr with
  | Some c => String.eqb c contractId
  | None => false
  end.

(** [trade.profit = profit; trade.status = won ? 'won' : 'lost'] *)
Definition settle (profit : Q) (isWon : bool) (tr : Trade.t) : Trade.t :=
  {| Trade.id := Trade.id tr;
     Trade.timestamp := Trade.timestamp tr;
     Trade.type := Trade.type tr;
     Trade.stake := Trade.stake tr;
     Trade.barrier := Trade.barrier tr;
     Trade.market := Trade.market tr;
     Trade.status := if isWon then Trade.won else Trade.lost;
     Trade.payout := Trade.payout tr;
     Trade.profit := Some profit;
     Trade.contractId := Trade.contractId tr |}.

(** The two [if (pair.xTrade.contractId === contractId)] blocks: the pair
    with its matching legs settled. *)
Definition settleLegs (contractId : string) (profit : Q) (isWon : bool) (pair : TradePair.t)
  : TradePair.t :=
  let h := TradePair.higherTrade pair in
  let l := TradePair.lowerTrade pair in
  {| TradePair.id := TradePair.id pair;
     TradePair.timestamp := TradePair.timestamp pair;
     TradePair.higherTrade := if hasContract contractId h then settle profit isWon h else h;
     TradePair.lowerTrade := if hasContract contractId l then settle profit isWon l else l;
     TradePair.totalStake := TradePair.totalStake pair;
     TradePair.totalProfit := TradePair.totalProfit pair;
     TradePair.status := TradePair.status pair |}.

(** [tradeUpdated] at the end of the two blocks. *)
Definition tradeUpdated (contractId : string) (pair : TradePair.t) : bool :=
  hasContract contractId (TradePair.higherTrade pair)
  || hasContract contractId (TradePair.lowerTrade pair).

Definition bothCompleted (pair : TradePair.t) : bool :=
  Trade.notActive (TradePair.higherTrade pair) && Trade.notActive (TradePair.lowerTrade pair).

(** [(pair.higherTrade.profit || 0) + (pair.lowerTrade.profit || 0)] *)
Definition combinedProfit (pair : TradePair.t) : Q :=
  Js.orZero (Trade.profit (TradePair.higherTrade pair))
  + Js.orZero (Trade.profit (TradePair.lowerTrade pair)).

(** [pair.status = 'completed'; pair.totalProfit = ...] *)
Definition complete (pair : TradePair.t) : TradePair.t :=
  {| TradePair.id := TradePair.id pair;
     TradePair.timestamp := TradePair.timestamp pair;
     TradePair.higherTrade := TradePair.higherTrade pair;
     TradePair.lowerTrade := TradePair.lowerTrade pair;
     TradePair.totalStake := TradePair.totalStake pair;
     TradePair.totalProfit := Some (combinedProfit pair);
     TradePair.status := TradePair.completed |}.

(** The "Update overall P&L" block, for a pair whose [totalProfit] was
    just set to [total]. *)
Definition updatePnL (total : Q) (s : TradingState.t) : TradingState.t :=
  if Js.ltb 0 total then
    {| TradingState.isConnected := TradingState.isConnected s;
       TradingState.isTrading := TradingState.isTrading s;
       TradingState.accountInfo := TradingState.accountInfo s;
       TradingState.currentMarket := TradingState.currentMarket s;
       TradingState.tradeHistory := TradingState.tradeHistory s;
       TradingState.totalProfit := TradingState.totalProfit s + total;
       TradingState.totalLoss := TradingState.totalLoss s;
       TradingState.consecutiveLosses := 0 |}
  else
    {| TradingState.isConnected := TradingState.isConnected s;
       TradingState.isTrading := TradingState.isTrading s;
       TradingState.accountInfo := TradingState.accountInfo s;
       TradingState.currentMarket := TradingState.currentMarket s;
       TradingState.tradeHistory := TradingState.tradeHistory s;
       TradingState.totalProfit := TradingState.totalProfit s;
       TradingState.totalLoss := TradingState.totalLoss s + Qabs total;
       TradingState.consecutiveLosses := S (TradingState.consecutiveLosses s) |}.

(** The [for (const pair of this.tradingState.tradeHistory)] loop over the
    pairs that remain; it returns the pairs as the loop leaves them and the
    state with its accumulators updated.  The loop ends at the first pair
    with [tradeUpdated] (the [break]). *)
Fixpoint forEachPair (contractId : string) (profit : Q) (isWon : bool)
    (pairs : list TradePair.t) (s : TradingState.t) : list TradePair.t * TradingState.t :=
  match pairs with
  | [] => ([], s)
  | p :: rest =>
      if tradeUpdated contractId p then
        let p1 := settleLegs contractId profit isWon p in
        if bothCompleted p1 then
          let p2 := complete p1 in
          (p2 :: rest, updatePnL (combinedProfit p1) s)
        else (p1 :: rest, s)
      else
        let '(rest', s') := forEachPair contractId profit isWon rest s in
        (p :: rest', s')
  end.

Definition updateTradeResult (contractId : string) (profit : Q) (isWon : bool)
    (s : TradingState.t) : TradingState.t :=
  let '(pairs, s') :=
    forEachPair contractId profit isWon (TradingState.tradeHistory s) s in
  set_tradeHistory pairs s'.

Definition setLockedBalance (amount : Q) (s : TradingState.t) : TradingState.t :=
  match TradingState.accountInfo s with
  | None => s
  | Some a =>
      set_accountInfo
        (Some {| AccountInfo.balance := AccountInfo.balance a;
                 AccountInfo.currency := AccountInfo.currency a;
                 AccountInfo.loginId := AccountInfo.loginId a;
                 AccountInfo.availableBalance := AccountInfo.balance a - amount;
                 AccountInfo.lockedBalance := amount |}) s
  end.

(** *** [initialize] and [setMarket] *)

(** [initialize], given how [api.authorize()] and [api.getBalance()]
    settle; the balance is only asked for once the authorization has
    succeeded.  The subscription to balance pushes is not awaited and its
    handler is [onBalance] below. *)
Definition initialize (authorized : Result unit) (balanceResponse : Result BalanceResponse.t)
    (s : TradingState.t) : Result unit * TradingState.t :=
  match authorized with
  | inl err => (inl err, s)
  | inr _ =>
      match balanceResponse with
      | inl err => (inl err, s)
      | inr b =>
          (inr tt,
           set_isConnected true
             (set_accountInfo
                (Some {| AccountInfo.balance := BalanceResponse.balance b;
                         AccountInfo.currency := BalanceResponse.currency b;
                         AccountInfo.loginId := BalanceResponse.loginid b;
                         AccountInfo.availableBalance := BalanceResponse.balance b;
                         AccountInfo.lockedBalance := 0 |}) s))
      end
  end.

(** [setMarket], given how [api.getContractsFor] and [api.subscribeToTicks]
    settle.  [marketConfig] is [None] when the caller passes [undefined]
    (a symbol that [MARKET_CONFIGS] does not have): reading its [name] then
    throws inside the [try]. *)
Definition setMarket (marketSymbol : string) (marketConfig : option MarketConfig.t)
    (contractsFor subscribed : Result unit) (s : TradingState.t)
  : Result unit * TradingState.t :=
  match contractsFor with
  | inl err => (inl err, s)
  | inr _ =>
      match marketConfig with
      | None => (inl "TypeError"%string, s)
      | Some config =>
          let s1 :=
            set_currentMarket
              (Some {| MarketData.symbol := marketSymbol;
                       MarketData.name := MarketConfig.name config;
                       MarketData.pip := MarketConfig.pip config;
                       MarketData.currentPrice := 0;
                       MarketData.minBarrier := MarketConfig.minBarrier config;
                       MarketData.maxBarrier := MarketConfig.maxBarrier config;
                       MarketData.minStake := MarketConfig.minStake config;
                       MarketData.maxStake := MarketConfig.maxStake config |}) s in
          match subscribed with
          | inl err => (inl err, s1)
          | inr _ => (inr tt, s1)
          end
      end
  end.

(** *** [executeTradePair] *)

(** What [executeTradePair] has built when it reaches its [await]. *)
Record PendingPair : Type := mkPending {
  tradePairId : string;
  timestamp : Q;
  higherTrade : Trade.t;
  lowerTrade : Trade.t;
  actualStake : Q
}.

(** [Promise.all] of two promises that have settled: both values, or the
    reason of the rejection that came first. *)
Definition promiseAll {A : Type} (lowerRejectsFirst : bool) (r1 r2 : Result A) : Result (A * A) :=
  match r1, r2 with
  | inr a, inr b => inr (a, b)
  | inl e, inr _ => inl e
  | inr _, inl e => inl e
  | inl e1, inl e2 => inl (if lowerRejectsFirst then e2 else e1)
  end.

Definition failed {A : Type} (r : Result A) : bool :=
  match r with
  | inl _ => true
  | inr _ => false
  end.

Section Venue.

(** [Number.prototype.toString], also used by template literals. *)
Variable show : Q -> string.
Variable parseFloat : string -> Js.JsNum.
(** The venue's answers to [api.getProposal] and [api.buyContract]. *)
Variable getProposal : ContractTerms -> Result ProposalResponse.
Variable buyContract : BuyContractRequest -> Result BuyContractResponse.

(** [this.tradingState.accountInfo?.currency || 'USD'] *)
Definition currencyOrUSD (s : TradingState.t) : string :=
  match TradingState.accountInfo s with
  | Some a => if String.eqb (AccountInfo.currency a) "" then "USD" else AccountInfo.currency a
  | None => "USD"
  end.

Definition termsOf (s : TradingState.t) (trade : Trade.t) (config : TradeConfig.t) : ContractTerms :=
  {| amount := Trade.stake trade;
     contract_type := match Trade.type trade with Trade.higher => CALL | Trade.lower => PUT end;
     currency := currencyOrUSD s;
     duration := TradeConfig.duration config;
     symbol := TradeConfig.selectedMarket config;
     barrier := show (Trade.barrier trade) |}.

Definition executeSingleTrade (s : TradingState.t) (trade : Trade.t) (config : TradeConfig.t)
  : Result BuyContractResponse :=
  match TradingState.currentMarket s with
  | None => inl "No market selected"%string
  | Some _ =>
      match getProposal (termsOf s trade config) with
      | inl err => inl err
      | inr proposal =>
          buyContract {| buy := parseFloat (proposal_id proposal);
                         parameters := termsOf s trade config |}
      end
  end.

Definition newTrade (pairId : string) (time : Q) (side : Trade.Side) (stake barrier : Q)
    (config : TradeConfig.t) : Trade.t :=
  {| Trade.id := (pairId ++ match side with Trade.higher => "_higher" | Trade.lower => "_lower" end)%string;
     Trade.timestamp := time;
     Trade.type := side;
     Trade.stake := stake;
     Trade.barrier := barrier;
     Trade.market := TradeConfig.selectedMarket config;
     Trade.status := Trade.pending;
     Trade.payout := None;
     Trade.profit := None;
     Trade.contractId := None |}.

(** The part of [executeTradePair] before [Promise.all]; [now] is what
    [Date.now()] returns. *)
Definition beginTradePair (s : TradingState.t) (config : TradeConfig.t) (now : Q)
  : Result PendingPair :=
  match TradingState.currentMarket s, TradingState.accountInfo s with
  | Some _, Some _ =>
      let pairId := ("pair_" ++ show now)%string in
      let stake := calculateStakeWithMartingale s config in
      let '(positiveBarrier, negativeBarrier) :=
        calculateBarriers s (TradeConfig.positiveBarrier config) (TradeConfig.negativeBarrier config) in
      inr {| tradePairId := pairId;
             timestamp := now;
             higherTrade := newTrade pairId now Trade.higher stake positiveBarrier config;
             lowerTrade := newTrade pairId now Trade.lower stake negativeBarrier config;
             actualStake := stake |}
  | _, _ => inl "Market or account info not available"%string
  end.

(** [trade.contractId = ...; trade.payout = ...; trade.status = 'active'] *)
Definition activate (tr : Trade.t) (r : BuyContractResponse) : Trade.t :=
  {| Trade.id := Trade.id tr;
     Trade.timestamp := Trade.timestamp tr;
     Trade.type := Trade.type tr;
     Trade.stake := Trade.stake tr;
     Trade.barrier := Trade.barrier tr;
     Trade.market := Trade.market tr;
     Trade.status := Trade.active;
     Trade.payout := Some (payout r);
     Trade.profit := Trade.profit tr;
     Trade.contractId := Some (show (contract_id r)) |}.

(** The part of [executeTradePair] after [Promise.all] has resolved, on
    the state as it is then. *)
Definition finishTradePair (p : PendingPair) (higherResult lowerResult : BuyContractResponse)
    (s : TradingState.t) : TradePair.t * TradingState.t :=
  let tradePair :=
    {| TradePair.id := tradePairId p;
       TradePair.timestamp := timestamp p;
       TradePair.higherTrade := activate (higherTrade p) higherResult;
       TradePair.lowerTrade := activate (lowerTrade p) lowerResult;
       TradePair.totalStake := actualStake p * 2;
       TradePair.totalProfit := None;
       TradePair.status := TradePair.active |} in
  (tradePair, set_tradeHistory (tradePair :: TradingState.tradeHistory s) s).

(** [executeTradePair] run to its end with no other handler in between;
    [lowerRejectsFirst] tells which rejection reaches [Promise.all] first
    when both legs fail. *)
Definition executeTradePair (lowerRejectsFirst : bool) (s : TradingState.t)
    (config : TradeConfig.t) (now : Q) : Result TradePair.t * TradingState.t :=
  match beginTradePair s config now with
  | inl err => (inl err, s)
  | inr p =>
      match promiseAll lowerRejectsFirst
              (executeSingleTrade s (higherTrade p) config)
              (executeSingleTrade s (lowerTrade p) config) with
      | inl err => (inl err, s)
      | inr (higherResult, lowerResult) =>
          let '(tradePair, s') := finishTradePair p higherResult lowerResult s in
          (inr tradePair, s')
      end
  end.

(** *** The auto-trading loop *)

(** An [executeTradePair] call of the loop that waits at its [await]. *)
Record InFlight : Type := mkInFlight {
  loopConfig : TradeConfig.t;
  pendingPair : PendingPair
}.

(** The engine object, the timers it has armed with [setTimeout] (handle
    to the [config] of the closure and the delay in ms), its calls in
    flight, and a count of the pairs the loop has submitted. *)
Record t : Type := mkEngine {
  tradingState : TradingState.t;
  tradeTimeout : option nat;
  currentPrice : Q;
  timers : gmap nat (TradeConfig.t * Q);
  nextTimer : nat;
  inFlight : gmap nat InFlight;
  nextCall : nat;
  pairsSubmitted : nat
}.

Definition set_tradingState (s : TradingState.t) (e : t) : t :=
  {| tradingState := s;
     tradeTimeout := tradeTimeout e;
     currentPrice := currentPrice e;
     timers := timers e;
     nextTimer := nextTimer e;
     inFlight := inFlight e;
     nextCall := nextCall e;
     pairsSubmitted := pairsSubmitted e |}.

Definition stopAutoTrading (e : t) : t :=
  {| tradingState := set_isTrading false (tradingState e);
     tradeTimeout := None;
     currentPrice := currentPrice e;
     timers := match tradeTimeout e with
               | Some h => delete h (timers e)
               | None => timers e
               end;
     nextTimer := nextTimer e;
     inFlight := inFlight e;
     nextCall := nextCall e;
     pairsSubmitted := pairsSubmitted e |}.

(** The closure [executeNextTrade] up to its [await]. *)
Definition executeNextTrade (config : TradeConfig.t) (now : Q) (e : t) : t :=
  if negb (TradingState.isTrading (tradingState e)) then e
  else if negb (canExecuteTrade (tradingState e) config) then stopAutoTrading e
  else
    match beginTradePair (tradingState e) config now with
    | inl _ => stopAutoTrading e
    | inr p =>
        {| tradingState := tradingState e;
           tradeTimeout := tradeTimeout e;
           currentPrice := currentPrice e;
           timers := timers e;
           nextTimer := nextTimer e;
           inFlight := <[nextCall e := mkInFlight config p]> (inFlight e);
           nextCall := S (nextCall e);
           pairsSubmitted := S (pairsSubmitted e) |}
    end.

(** [executeNextTrade] from its [await] on, when the two legs of call
    [call] have settled. *)
Definition resumeNextTrade (call : nat)
    (higherResult lowerResult : Result BuyContractResponse) (lowerRejectsFirst : bool)
    (e : t) : t :=
  match inFlight e !! call with
  | None => e
  | Some f =>
      let e1 :=
        {| tradingState := tradingState e;
           tradeTimeout := tradeTimeout e;
           currentPrice := currentPrice e;
           timers := timers e;
           nextTimer := nextTimer e;
           inFlight := delete call (inFlight e);
           nextCall := nextCall e;
           pairsSubmitted := pairsSubmitted e |} in
      match promiseAll lowerRejectsFirst higherResult lowerResult with
      | inl _ => stopAutoTrading e1
      | inr (h, l) =>
          let '(_, s') := finishTradePair (pendingPair f) h l (tradingState e1) in
          let waitTime := Qmax (TradeConfig.duration (loopConfig f) * 1000) 10000 in
          {| tradingState := s';
             tradeTimeout := Some (nextTimer e1);
             currentPrice := currentPrice e1;
             timers := <[nextTimer e1 := (loopConfig f, waitTime)]> (timers e1);
             nextTimer := S (nextTimer e1);
             inFlight := inFlight e1;
             nextCall := nextCall e1;
             pairsSubmitted := pairsSubmitted e1 |}
      end
  end.

Definition startAutoTrading (config : TradeConfig.t) (now : Q) (e : t) : Result unit * t :=
  if TradingState.isTrading (tradingState e) then
    (inl "Trading is already active"%string, e)
  else
    (inr tt, executeNextTrade config now (set_tradingState (set_isTrading true (tradingState e)) e)).

Definition disconnect (e : t) : t :=
  let e1 := stopAutoTrading e in
  set_tradingState (set_isConnected false (tradingState e1)) e1.

(** The balance subscription handler installed by [initialize]. *)
Definition onBalance (balance : Q) (s : TradingState.t) : TradingState.t :=
  match TradingState.accountInfo s with
  | None => s
  | Some a =>
      set_accountInfo
        (Some {| AccountInfo.balance := balance;
                 AccountInfo.currency := AccountInfo.currency a;
                 AccountInfo.loginId := AccountInfo.loginId a;
                 AccountInfo.availableBalance := balance - AccountInfo.lockedBalance a;
                 AccountInfo.lockedBalance := AccountInfo.lockedBalance a |}) s
  end.

(** The tick subscription handler installed by [setMarket]. *)
Definition onTick (quote : Q) (e : t) : t :=
  {| tradingState :=
       match TradingState.currentMarket (tradingState e) with
       | None => tradingState e
       | Some m =>
           set_currentMarket
             (Some {| MarketData.symbol := MarketData.symbol m;
                      MarketData.name := MarketData.name m;
                      MarketData.pip := MarketData.pip m;
                      MarketData.currentPrice := quote;
                      MarketData.minBarrier := MarketData.minBarrier m;
                      MarketData.maxBarrier := MarketData.maxBarrier m;
                      MarketData.minStake := MarketData.minStake m;
                      MarketData.maxStake := MarketData.maxStake m |}) (tradingState e)
       end;
     tradeTimeout := tradeTimeout e;
     currentPrice := quote;
     timers := timers e;
     nextTimer := nextTimer e;
     inFlight := inFlight e;
     nextCall := nextCall e;
     pairsSubmitted := pairsSubmitted e |}.

(** What can happen to the engine: a method is called, a timer fires, the
    legs of a call in flight settle, a subscription delivers. *)
Inductive event : Type :=
| StartAutoTrading (config : TradeConfig.t) (now : Q)
| StopAutoTrading
| TimerFired (handle : nat) (now : Q)
| LegsSettled (call : nat) (higherResult lowerResult : Result BuyContractResponse)
    (lowerRejectsFirst : bool)
| UpdateTradeResult (contractId : string) (profit : Q) (isWon : bool)
| SetLockedBalance (amount : Q)
| BalancePush (balance : Q)
| TickPush (quote : Q)
| MarketSet (market : MarketData.t)
| Disconnect.

Definition step (ev : event) (e : t) : t :=
  match ev with
  | StartAutoTrading config now => snd (startAutoTrading config now e)
  | StopAutoTrading => stopAutoTrading e
  | TimerFired handle now =>
      match timers e !! handle with
      | None => e
      | Some (config, _) =>
          executeNextTrade config now
            {| tradingState := tradingState e;
               tradeTimeout := tradeTimeout e;
               currentPrice := currentPrice e;
               timers := delete handle (timers e);
               nextTimer := nextTimer e;
               inFlight := inFlight e;
               nextCall := nextCall e;
               pairsSubmitted := pairsSubmitted e |}
      end
  | LegsSettled call higherResult lowerResult lowerRejectsFirst =>
      resumeNextTrade call higherResult lowerResult lowerRejectsFirst e
  | UpdateTradeResult contractId profit isWon =>
      set_tradingState (updateTradeResult contractId profit isWon (tradingState e)) e
  | SetLockedBalance amount =>
      set_tradingState (setLockedBalance amount (tradingState e)) e
  | BalancePush balance =>
      set_tradingState (onBalance balance (tradingState e)) e
  | TickPush quote => onTick quote e
  | MarketSet market =>
      set_tradingState (set_currentMarket (Some market) (tradingState e)) e
  | Disconnect => disconnect e
  end.

Definition run (evs : list event) (e : t) : t :=
  fold_left (fun acc ev => step ev acc) evs e.

Definition isStart (ev : event) : bool :=
  match ev with
  | StartAutoTrading _ _ => true
  | _ => false
  end.

(** A new engine object on a session that is ready to trade. *)
Definition newEngine (s : TradingState.t) : t :=
  {| tradingState := s;
     tradeTimeout := None;
     currentPrice := 0;
     timers := ∅;
     nextTimer := 1;
     inFlight := ∅;
     nextCall := 0;
     pairsSubmitted := 0 |}.

End Venue.

End TradingEngine.

(** ** [DerivAPI], the protocol client *)

Module DerivAPI.

Inductive ReadyState : Type := CONNECTING | OPEN | CLOSING | CLOSED.

#[global] Instance ReadyState_eq_dec : EqDecision ReadyState.
Proof. solve_decision. Defined.

(** A parsed incoming message, by the fields the client reads:
    [data.msg_type], [data.req_id] and [data.error.message]. *)
Record message : Type := mkMessage {
  msg_type : string;
  req_id : option nat;
  error : option string
}.

(** What the client does that its environment can see. *)
Inductive effect : Type :=
| Transmit (reqId : nat)
| Resolve (reqId : nat)
| Reject (reqId : nat) (reason : string)
| RejectUnsent (reason : string)
| Deliver (kind : string)
| NewSocket (sock : nat)
| CloseSocket (sock : nat)
| ScheduleReconnect (attempt : nat) (delay : Q)
| ConsoleError (text : string).

(** The fields of the object.  [callbacks] holds the keys of the source's
    map: the callback stored under [reqId] settles the promise that
    [send] returned for [reqId].  [subscriptions] holds the keys of the
    handlers.  [sockets] are the [WebSocket] objects made so far, [ws] the
    current one; [reconnectTimers] and [heartbeats] are the handles
    armed with [setTimeout] and [setInterval]; [log] lists the effects,
    oldest first. *)
Record t : Type := mkApi {
  ws : option nat;
  sockets : gmap nat ReadyState;
  nextSocket : nat;
  requestId : nat;
  callbacks : gset nat;
  subscriptions : gset string;
  reconnectAttempts : nat;
  reconnectTimeout : option nat;
  reconnectTimers : gset nat;
  heartbeats : gset nat;
  nextHandle : nat;
  log : list effect
}.

Definition maxReconnectAttempts : nat := 5.

Definition newApi : t :=
  {| ws := None;
     sockets := ∅;
     nextSocket := 0;
     requestId := 1;
     callbacks := ∅;
     subscriptions := ∅;
     reconnectAttempts := 0;
     reconnectTimeout := None;
     reconnectTimers := ∅;
     heartbeats := ∅;
     nextHandle := 1;
     log := [] |}.

Definition emit (eff : effect) (a : t) : t :=
  {| ws := ws a; sockets := sockets a; nextSocket := nextSocket a;
     requestId := requestId a; callbacks := callbacks a;
     subscriptions := subscriptions a;
     reconnectAttempts := reconnectAttempts a;
     reconnectTimeout := reconnectTimeout a;
     reconnectTimers := reconnectTimers a;
     heartbeats := heartbeats a; nextHandle := nextHandle a;
     log := log a ++ [eff] |}.

Definition set_callbacks (c : gset nat) (a : t) : t :=
  {| ws := ws a; sockets := sockets a; nextSocket := nextSocket a;
     requestId := requestId a; callbacks := c;
     subscriptions := subscriptions a;
     reconnectAttempts := reconnectAttempts a;
     reconnectTimeout := reconnectTimeout a;
     reconnectTimers := reconnectTimers a;
     heartbeats := heartbeats a; nextHandle := nextHandle a;
     log := log a |}.

Definition set_sockets (m : gmap nat ReadyState) (a : t) : t :=
  {| ws := ws a; sockets := m; nextSocket := nextSocket a;
     requestId := requestId a; callbacks := callbacks a;
     subscriptions := subscriptions a;
     reconnectAttempts := reconnectAttempts a;
     reconnectTimeout := reconnectTimeout a;
     reconnectTimers := reconnectTimers a;
     heartbeats := heartbeats a; nextHandle := nextHandle a;
     log := log a |}.

(** [this.ws && this.ws.readyState === WebSocket.OPEN] *)
Definition isOpen (a : t) : bool :=
  match ws a with
  | Some sock => bool_decide (sockets a !! sock = Some OPEN)
  | None => false
  end.

(** [connect()]: a new socket becomes the current one. *)
Definition connect (a : t) : t :=
  emit (NewSocket (nextSocket a))
    {| ws := Some (nextSocket a);
       sockets := <[nextSocket a := CONNECTING]> (sockets a);
       nextSocket := S (nextSocket a);
       requestId := requestId a; callbacks := callbacks a;
       subscriptions := subscriptions a;
       reconnectAttempts := reconnectAttempts a;
       reconnectTimeout := reconnectTimeout a;
       reconnectTimers := reconnectTimers a;
       heartbeats := heartbeats a; nextHandle := nextHandle a;
       log := log a |}.

(** [send(data)] up to the return of the promise. *)
Definition send (a : t) : t :=
  if isOpen a then
    let reqId := requestId a in
    emit (Transmit reqId)
      {| ws := ws a; sockets := sockets a; nextSocket := nextSocket a;
         requestId := S reqId;
         callbacks := {[reqId]} ∪ callbacks a;
         subscriptions := subscriptions a;
         reconnectAttempts := reconnectAttempts a;
         reconnectTimeout := reconnectTimeout a;
         reconnectTimers := reconnectTimers a;
         heartbeats := heartbeats a; nextHandle := nextHandle a;
         log := log a |}
  else emit (RejectUnsent "WebSocket not connected") a.

(** The 30 s timer that [send] sets for [reqId]. *)
Definition requestTimeout (reqId : nat) (a : t) : t :=
  if bool_decide (reqId ∈ callbacks a) then
    emit (Reject reqId "Request timeout") (set_callbacks (callbacks a ∖ {[reqId]}) a)
  else a.

(** The callback that [send] stores: it settles the promise of [reqId]. *)
Definition callback (reqId : nat) (response : message) (a : t) : t :=
  match error response with
  | Some text =>
      emit (Reject reqId (if String.eqb text "" then "API Error" else text)) a
  | None => emit (Resolve reqId) a
  end.

Definition isPush (data : message) (kind : string) (a : t) : bool :=
  String.eqb (msg_type data) kind && bool_decide (kind ∈ subscriptions a).

Definition handleMessage (data : message) (a : t) : t :=
  if isPush data "tick" a then emit (Deliver "tick") a
  else if isPush data "balance" a then emit (Deliver "balance") a
  else if isPush data "portfolio" a then emit (Deliver "portfolio") a
  else
    match req_id data with
    | Some (S k) =>
        let reqId := S k in
        if bool_decide (reqId ∈ callbacks a) then
          callback reqId data (set_callbacks (callbacks a ∖ {[reqId]}) a)
        else a
    | _ => a
    end.

Definition handleReconnection (a : t) : t :=
  if Nat.ltb (reconnectAttempts a) maxReconnectAttempts then
    let attempts := S (reconnectAttempts a) in
    let delay := Js.Math_pow 2 attempts * 1000 in
    emit (ScheduleReconnect attempts delay)
      {| ws := ws a; sockets := sockets a; nextSocket := nextSocket a;
         requestId := requestId a; callbacks := callbacks a;
         subscriptions := subscriptions a;
         reconnectAttempts := attempts;
         reconnectTimeout := Some (nextHandle a);
         reconnectTimers := {[nextHandle a]} ∪ reconnectTimers a;
         heartbeats := heartbeats a; nextHandle := S (nextHandle a);
         log := log a |}
  else emit (ConsoleError "Max reconnection attempts reached") a.

(** [ws.onopen] *)
Definition onopen (a : t) : t :=
  {| ws := ws a; sockets := sockets a; nextSocket := nextSocket a;
     requestId := requestId a; callbacks := callbacks a;
     subscriptions := subscriptions a;
     reconnectAttempts := 0;
     reconnectTimeout := reconnectTimeout a;
     reconnectTimers := reconnectTimers a;
     heartbeats := {[nextHandle a]} ∪ heartbeats a;
     nextHandle := S (nextHandle a);
     log := log a |}.

(** One tick of the interval set by [startHeartbeat]. *)
Definition heartbeat (handle : nat) (a : t) : t :=
  if isOpen a then send a
  else
    {| ws := ws a; sockets := sockets a; nextSocket := nextSocket a;
       requestId := requestId a; callbacks := callbacks a;
       subscriptions := subscriptions a;
       reconnectAttempts := reconnectAttempts a;
       reconnectTimeout := reconnectTimeout a;
       reconnectTimers := reconnectTimers a;
       heartbeats := heartbeats a ∖ {[handle]};
       nextHandle := nextHandle a;
       log := log a |}.

(** [subscribeToTicks], [subscribeToBalance], [subscribeToPortfolio] *)
Definition subscribe (kind : string) (a : t) : t :=
  send
    {| ws := ws a; sockets := sockets a; nextSocket := nextSocket a;
       requestId := requestId a; callbacks := callbacks a;
       subscriptions := {[kind]} ∪ subscriptions a;
       reconnectAttempts := reconnectAttempts a;
       reconnectTimeout := reconnectTimeout a;
       reconnectTimers := reconnectTimers a;
       heartbeats := heartbeats a; nextHandle := nextHandle a;
       log := log a |}.

(** [ws.close()] on socket [sock]. *)
Definition closing (sock : nat) (m : gmap nat ReadyState) : gmap nat ReadyState :=
  match m !! sock with
  | Some CONNECTING | Some OPEN => <[sock := CLOSING]> m
  | _ => m
  end.

Definition disconnect (a : t) : t :=
  let timersLeft :=
    match reconnectTimeout a with
    | Some h => reconnectTimers a ∖ {[h]}
    | None => reconnectTimers a
    end in
  let a1 :=
    {| ws := None;
       sockets := match ws a with
                  | Some sock => closing sock (sockets a)
                  | None => sockets a
                  end;
       nextSocket := nextSocket a;
       requestId := requestId a;
       callbacks := ∅;
       subscriptions := ∅;
       reconnectAttempts := reconnectAttempts a;
       reconnectTimeout := reconnectTimeout a;
       reconnectTimers := timersLeft;
       heartbeats := heartbeats a; nextHandle := nextHandle a;
       log := log a |} in
  match ws a with
  | Some sock => emit (CloseSocket sock) a1
  | None => a1
  end.

(** The handlers the runtime can invoke, and the methods the application
    can call. *)
Inductive event : Type :=
| Connect
| Send
| Subscribe (kind : string)
| Disconnect
| SocketOpened (sock : nat)
| SocketClosed (sock : nat)
| MessageReceived (data : message)
| RequestTimer (reqId : nat)
| ReconnectTimer (handle : nat)
| HeartbeatTimer (handle : nat).

Definition step (ev : event) (a : t) : t :=
  match ev with
  | Connect => connect a
  | Send => send a
  | Subscribe kind => subscribe kind a
  | Disconnect => disconnect a
  | SocketOpened sock =>
      if bool_decide (sockets a !! sock = Some CONNECTING) then
        onopen (set_sockets (<[sock := OPEN]> (sockets a)) a)
      else a
  | SocketClosed sock =>
      match sockets a !! sock with
      | None | Some CLOSED => a
      | Some _ => handleReconnection (set_sockets (<[sock := CLOSED]> (sockets a)) a)
      end
  | MessageReceived data => handleMessage data a
  | RequestTimer reqId => requestTimeout reqId a
  | ReconnectTimer handle =>
      if bool_decide (handle ∈ reconnectTimers a) then
        connect
          {| ws := ws a; sockets := sockets a; nextSocket := nextSocket a;
             requestId := requestId a; callbacks := callbacks a;
             subscriptions := subscriptions a;
             reconnectAttempts := reconnectAttempts a;
             reconnectTimeout := reconnectTimeout a;
             reconnectTimers := reconnectTimers a ∖ {[handle]};
             heartbeats := heartbeats a; nextHandle := nextHandle a;
             log := log a |}
      else a
  | HeartbeatTimer handle =>
      if bool_decide (handle ∈ heartbeats a) then heartbeat handle a else a
  end.

Definition run (evs : list event) (a : t) : t :=
  fold_left (fun acc ev => step ev acc) evs a.

(** The effects that settle the promise of call [reqId]. *)
Definition settles (reqId : nat) (eff : effect) : bool :=
  match eff with
  | Resolve r | Reject r _ => Nat.eqb r reqId
  | _ => false
  end.


Definition isDisconnect (ev : event) : bool :=
  match ev with
  | Disconnect => true
  | _ => false
  end.

(** A message that carries the correlation identifier [reqId]. *)
Definition carries (reqId : nat) (ev : event) : bool :=
  match ev with
  | MessageReceived data =>
      match req_id data with
      | Some r => Nat.eqb r reqId
      | None => false
      end
  | _ => false
  end.

Definition isRequestTimer (reqId : nat) (ev : event) : bool :=
  match ev with
  | RequestTimer r => Nat.eqb r reqId
  | _ => false
  end.

(** [isConnected()] *)
Definition isConnected (a : t) : bool := isOpen a.

End DerivAPI.

(** ** The market table

    The entries of [MARKET_CONFIGS] differ in their name, symbol and
    highest barrier only. *)

Definition volatilityIndex (marketName marketSymbol : string) (maxBarrier : Q) : MarketConfig.t :=
  {| MarketConfig.name := marketName;
     MarketConfig.symbol := marketSymbol;
     MarketConfig.pip := 0.01;
     MarketConfig.minBarrier := 0.1;
     MarketConfig.maxBarrier := maxBarrier;
     MarketConfig.minStake := 0.35;
     MarketConfig.maxStake := 2000;
     MarketConfig.barrierStep := 0.1 |}.

(** The table [MARKET_CONFIGS], by key. *)
Definition MARKET_CONFIGS : list (string * MarketConfig.t) :=
  [ ("R_10", volatilityIndex "Volatility 10 Index" "R_10" 10);
    ("R_25", volatilityIndex "Volatility 25 Index" "R_25" 25);
    ("R_50", volatilityIndex "Volatility 50 Index" "R_50" 50);
    ("R_75", volatilityIndex "Volatility 75 Index" "R_75" 75);
    ("R_100", volatilityIndex "Volatility 100 Index" "R_100" 100) ]%string.

(** [MARKET_CONFIGS[key]] *)
Fixpoint lookupMarket (table : list (string * MarketConfig.t)) (key : string)
  : option MarketConfig.t :=
  match table with
  | [] => None
  | (k, config) :: rest => if String.eqb k key then Some config else lookupMarket rest key
  end.

(** * Notions of the specification *)

(** The rule in the words of the specification: the base stake at no loss,
    otherwise the escalated stake under the cap. *)
Definition martingaleStake_spec (base : Q) (consecutiveLosses : nat) (multiplier cap : Q) : Q :=
  if Nat.eqb consecutiveLosses 0 then base
  else Qmin (base * multiplier ^ Z.of_nat consecutiveLosses) (base * cap).

(** Some constraint on the barriers is violated. *)
Definition barriersViolated (positive negative minBarrier maxBarrier : Q) : Prop :=
  positive <= 0 \/ 0 <= negative
  \/ Qabs positive < minBarrier \/ maxBarrier < Qabs positive
  \/ Qabs negative < minBarrier \/ maxBarrier < Qabs negative.

Definition noneUpdated (contractId : string) (pairs : list TradePair.t) : Prop :=
  Forall (fun q => TradingEngine.tradeUpdated contractId q = false) pairs.

Definition sameContracts (a b : TradePair.t) : Prop :=
  Trade.contractId (TradePair.higherTrade a) = Trade.contractId (TradePair.higherTrade b)
  /\ Trade.contractId (TradePair.lowerTrade a) = Trade.contractId (TradePair.lowerTrade b).

(** A settlement call: contract identifier, profit, won. *)
Definition call : Type := (string * Q * bool)%type.

Definition callId (k : call) : string := fst (fst k).

Definition applyCall (s : TradingState.t) (k : call) : TradingState.t :=
  TradingEngine.updateTradeResult (fst (fst k)) (snd (fst k)) (snd k) s.

Definition runCalls (calls : list call) (s : TradingState.t) : TradingState.t :=
  fold_left applyCall calls s.

(** Pair [p] sits at index [i] of the history and no pair before it holds
    contract [h] or contract [l]. *)
Definition firstFor (h l : string) (i : nat) (p : TradePair.t) (s : TradingState.t) : Prop :=
  exists pre post,
    TradingState.tradeHistory s = pre ++ p :: post
    /\ List.length pre = i
    /\ noneUpdated h pre /\ noneUpdated l pre.

Definition unsettled (reqId : nat) (effs : list DerivAPI.effect) : Prop :=
  forallb (fun eff => negb (DerivAPI.settles reqId eff)) effs = true.

(** How a step treats one identifier: [keeps] says that the step neither
    settles the call nor touches its entry. *)
Definition keeps (reqId : nat) (ev : DerivAPI.event) (a : DerivAPI.t) : Prop :=
  exists effs,
    DerivAPI.log (DerivAPI.step ev a) = DerivAPI.log a ++ effs
    /\ unsettled reqId effs
    /\ (reqId ∈ DerivAPI.callbacks (DerivAPI.step ev a) <-> reqId ∈ DerivAPI.callbacks a)
    /\ (DerivAPI.requestId a <= DerivAPI.requestId (DerivAPI.step ev a))%nat.

Definition quietStep (reqId : nat) (ev : DerivAPI.event) : bool :=
  negb (DerivAPI.isDisconnect ev) && negb (DerivAPI.carries reqId ev)
  && negb (DerivAPI.isRequestTimer reqId ev).

(** The socket exists and has not closed yet. *)
Definition live (a : DerivAPI.t) (sock : nat) : bool :=
  match DerivAPI.sockets a !! sock with
  | Some DerivAPI.CLOSED | None => false
  | Some _ => true
  end.

Definition isNewSocket (eff : DerivAPI.effect) : bool :=
  match eff with
  | DerivAPI.NewSocket _ => true
  | _ => false
  end.


Definition noNewSocket (effs : list DerivAPI.effect) : Prop :=
  forallb (fun eff => negb (isNewSocket eff)) effs = true.



(** * Sample data *)

(** A rendering of numbers for the examples: integers as JavaScript prints
    them, any other number as a fraction. *)
Definition showNumber (q : Q) : string :=
  let r := Qred q in
  let numerator := NilZero.string_of_int (Z.to_int (Qnum r)) in
  if Pos.eqb (Qden r) 1 then numerator
  else (numerator ++ "/" ++ NilZero.string_of_uint (Pos.to_uint (Qden r)))%string.

Definition account (available : Q) : AccountInfo.t :=
  {| AccountInfo.balance := available;
     AccountInfo.currency := "USD";
     AccountInfo.loginId := "CR0000001";
     AccountInfo.availableBalance := available;
     AccountInfo.lockedBalance := 0 |}.

(** Sample data: a pair as [executeTradePair] records it, both legs active,
    with contract identifiers 101 and 102. *)
Definition sampleTrade (side : Trade.Side) (barrier : Q) (contractId : string) : Trade.t :=
  {| Trade.id := match side with Trade.higher => "pair_1_higher" | Trade.lower => "pair_1_lower" end;
     Trade.timestamp := 1;
     Trade.type := side;
     Trade.stake := 1;
     Trade.barrier := barrier;
     Trade.market := "R_10";
     Trade.status := Trade.active;
     Trade.payout := Some 1.95;
     Trade.profit := None;
     Trade.contractId := Some contractId |}.

Definition samplePair : TradePair.t :=
  {| TradePair.id := "pair_1";
     TradePair.timestamp := 1;
     TradePair.higherTrade := sampleTrade Trade.higher 1 "101";
     TradePair.lowerTrade := sampleTrade Trade.lower (-1) "102";
     TradePair.totalStake := 2;
     TradePair.totalProfit := None;
     TradePair.status := TradePair.active |}.

Definition sampleMarket : MarketData.t :=
  {| MarketData.symbol := "R_10";
     MarketData.name := "Volatility 10 Index";
     MarketData.pip := 0.01;
     MarketData.currentPrice := 0;
     MarketData.minBarrier := 0.1;
     MarketData.maxBarrier := 10;
     MarketData.minStake := 0.35;
     MarketData.maxStake := 2000 |}.

Definition sampleState (history : list TradePair.t) (losses : nat) : TradingState.t :=
  {| TradingState.isConnected := true;
     TradingState.isTrading := false;
     TradingState.accountInfo := Some (account 100);
     TradingState.currentMarket := Some sampleMarket;
     TradingState.tradeHistory := history;
     TradingState.totalProfit := 0;
     TradingState.totalLoss := 0;
     TradingState.consecutiveLosses := losses |}.

Definition otherPair : TradePair.t :=
  {| TradePair.id := "pair_2";
     TradePair.timestamp := 2;
     TradePair.higherTrade := sampleTrade Trade.higher 1 "201";
     TradePair.lowerTrade := sampleTrade Trade.lower (-1) "202";
     TradePair.totalStake := 2;
     TradePair.totalProfit := None;
     TradePair.status := TradePair.active |}.

Definition sampleConfig : TradeConfig.t :=
  {| TradeConfig.stake := 1;
     TradeConfig.martingaleMultiplier := 2;
     TradeConfig.duration := 60;
     TradeConfig.positiveBarrier := 1;
     TradeConfig.negativeBarrier := 1;
     TradeConfig.selectedMarket := "R_10";
     TradeConfig.riskPercentage := 50;
     TradeConfig.lockedBalance := 0 |}.

(** A venue that quotes a price and sells calls, and refuses to sell puts. *)
Definition quoteAll (terms : TradingEngine.ContractTerms)
  : TradingEngine.Result TradingEngine.ProposalResponse :=
  inr {| TradingEngine.proposal_id := "7" |}.

Definition sellCallsOnly (request : TradingEngine.BuyContractRequest)
  : TradingEngine.Result TradingEngine.BuyContractResponse :=
  match TradingEngine.contract_type (TradingEngine.parameters request) with
  | TradingEngine.CALL => inr {| TradingEngine.contract_id := 101; TradingEngine.payout := 1.95 |}
  | TradingEngine.PUT => inl "InsufficientBalance"%string
  end.

Definition parseNone (text : string) : Js.JsNum := Js.NaN.

Definition bought (contract : Q) : TradingEngine.Result TradingEngine.BuyContractResponse :=
  inr {| TradingEngine.contract_id := contract; TradingEngine.payout := 1.95 |}.

(** The loop has a call in flight when it is stopped. *)
Definition stoppedInFlight : TradingEngine.t :=
  TradingEngine.run showNumber
    [TradingEngine.StartAutoTrading sampleConfig 1000]
    (TradingEngine.newEngine (sampleState [] 0)).

(** What follows the stop: the legs settle (which arms the next wait
    timer), the timer fires, a result arrives. *)
Definition afterStop : list TradingEngine.event :=
  [ TradingEngine.LegsSettled 0 (bought 101) (bought 102) false;
    TradingEngine.TimerFired 1 61000;
    TradingEngine.UpdateTradeResult "101" 1 true;
    TradingEngine.TimerFired 1 62000 ].

(** A client with its socket open. *)
Definition connected : DerivAPI.t :=
  DerivAPI.run [DerivAPI.Connect; DerivAPI.SocketOpened 0] DerivAPI.newApi.

Definition lateReply : DerivAPI.message :=
  {| DerivAPI.msg_type := "balance"; DerivAPI.req_id := Some 1%nat; DerivAPI.error := None |}.

Definition otherReply : DerivAPI.message :=
  {| DerivAPI.msg_type := "proposal"; DerivAPI.req_id := Some 2%nat; DerivAPI.error := None |}.





(** * Further notions *)


(** The stake [f] is within the stake limits of a market. *)
Definition withinStakeLimits (f : Q) (entry : string * MarketConfig.t) : Prop :=
  MarketConfig.minStake (snd entry) <= f /\ f <= MarketConfig.maxStake (snd entry).

(** The barrier limits of a market are usable: a positive minimum that is
    not above the maximum. *)
Definition usableBarriers (lo hi : Q) : Prop := 0 < lo /\ lo <= hi.

(** What [updateTradeResult] has no business changing in a pair: its
    identity, time, total stake, and the terms of its two legs. *)
Definition tradeTerms (tr : Trade.t)
  : string * Q * Trade.Side * Q * Q * string * option Q * option string :=
  (Trade.id tr, Trade.timestamp tr, Trade.type tr, Trade.stake tr, Trade.barrier tr,
   Trade.market tr, Trade.payout tr, Trade.contractId tr).

Definition pairTerms (p : TradePair.t) :=
  (TradePair.id p, TradePair.timestamp p, TradePair.totalStake p,
   tradeTerms (TradePair.higherTrade p), tradeTerms (TradePair.lowerTrade p)).

(** The session has an account, with the given currency and login, and
    [availableBalance = balance - lockedBalance] on it. *)
Definition accountKept (currency loginId : string) (s : TradingState.t) : Prop :=
  exists a,
    TradingState.accountInfo s = Some a
    /\ AccountInfo.currency a = currency
    /\ AccountInfo.loginId a = loginId
    /\ AccountInfo.availableBalance a == AccountInfo.balance a - AccountInfo.lockedBalance a.

Definition isUpdateTradeResult (ev : TradingEngine.event) : bool :=
  match ev with
  | TradingEngine.UpdateTradeResult _ _ _ => true
  | _ => false
  end.

(** Every armed wait timer carries the delay the loop computes from the
    configuration of its closure. *)
Definition timersWellTimed (e : TradingEngine.t) : Prop :=
  map_Forall
    (fun _ (timer : TradeConfig.t * Q) =>
       snd timer = Qmax (TradeConfig.duration (fst timer) * 1000) 10000)
    (TradingEngine.timers e).

(** A venue that sells both legs. *)
Definition sellAll (request : TradingEngine.BuyContractRequest)
  : TradingEngine.Result TradingEngine.BuyContractResponse :=
  match TradingEngine.contract_type (TradingEngine.parameters request) with
  | TradingEngine.CALL => inr {| TradingEngine.contract_id := 301; TradingEngine.payout := 1.95 |}
  | TradingEngine.PUT => inr {| TradingEngine.contract_id := 302; TradingEngine.payout := 1.95 |}
  end.

(** The identifiers that the log shows as transmitted, and those whose
    promise it shows as settled, in the order of the log. *)
Definition transmittedId (eff : DerivAPI.effect) : option nat :=
  match eff with
  | DerivAPI.Transmit r => Some r
  | _ => None
  end.

Definition settledId (eff : DerivAPI.effect) : option nat :=
  match eff with
  | DerivAPI.Resolve r | DerivAPI.Reject r _ => Some r
  | _ => None
  end.

Definition transmitted (effs : list DerivAPI.effect) : list nat := omap transmittedId effs.

Definition settled (effs : list DerivAPI.effect) : list nat := omap settledId effs.

(** What the client keeps true of its request identifiers. *)
Definition requestsInOrder (a : DerivAPI.t) : Prop :=
  (1 <= DerivAPI.requestId a)%nat
  /\ transmitted (DerivAPI.log a) = seq 1 (DerivAPI.requestId a - 1)
  /\ NoDup (settled (DerivAPI.log a))
  /\ (forall r, r ∈ settled (DerivAPI.log a) ->
                (1 <= r < DerivAPI.requestId a)%nat /\ r ∉ DerivAPI.callbacks a)
  /\ (forall r, r ∈ DerivAPI.callbacks a -> (1 <= r < DerivAPI.requestId a)%nat).

(** What one step does to the requests: nothing that shows (it may drop
    callbacks), or it puts the next identifier on the wire, or it settles
    one registered call. *)
Definition protocolStep (a a' : DerivAPI.t) : Prop :=
  (exists effs,
      DerivAPI.log a' = DerivAPI.log a ++ effs
      /\ transmitted effs = [] /\ settled effs = []
      /\ DerivAPI.callbacks a' ⊆ DerivAPI.callbacks a
      /\ DerivAPI.requestId a' = DerivAPI.requestId a)
  \/ (DerivAPI.log a' = DerivAPI.log a ++ [DerivAPI.Transmit (DerivAPI.requestId a)]
      /\ DerivAPI.callbacks a' = {[DerivAPI.requestId a]} ∪ DerivAPI.callbacks a
      /\ DerivAPI.requestId a' = S (DerivAPI.requestId a))
  \/ (exists r eff,
        r ∈ DerivAPI.callbacks a
        /\ DerivAPI.log a' = DerivAPI.log a ++ [eff]
        /\ settledId eff = Some r /\ transmittedId eff = None
        /\ DerivAPI.callbacks a' = DerivAPI.callbacks a ∖ {[r]}
        /\ DerivAPI.requestId a' = DerivAPI.requestId a).

(** A reconnection is scheduled for one of the five attempts, after the
    delay computed for it, which lies between 2 and 32 seconds. *)
Definition boundedBackoff (eff : DerivAPI.effect) : Prop :=
  match eff with
  | DerivAPI.ScheduleReconnect attempt delay =>
      (1 <= attempt <= DerivAPI.maxReconnectAttempts)%nat
      /\ delay = Js.Math_pow 2 attempt * 1000
      /\ 2000 <= delay <= 32000
  | _ => True
  end.

(** The kinds of push that [handleMessage] hands to a subscription. *)
Definition pushKinds : list string := ["tick"; "balance"; "portfolio"]%string.

(** * Properties *)

(** ** Comparisons and powers *)

Lemma leb_true (x y : Q) : Js.leb x y = true <-> x <= y.
Proof. apply Qle_bool_iff. Qed.

Lemma leb_false (x y : Q) : Js.leb x y = false <-> y < x.
Proof.
  unfold Js.leb. split; intros H.
  - apply Qnot_le_lt. intros Hle. apply Qle_bool_iff in Hle. congruence.
  - destruct (Qle_bool x y) eqn:E; [|reflexivity].
    apply Qle_bool_iff in E. lra.
Qed.

Lemma ltb_true (x y : Q) : Js.ltb x y = true <-> x < y.
Proof.
  unfold Js.ltb. rewrite negb_true_iff. apply (leb_false y x).
Qed.

Lemma ltb_false (x y : Q) : Js.ltb x y = false <-> y <= x.
Proof.
  unfold Js.ltb. rewrite negb_false_iff. apply (leb_true y x).
Qed.

Lemma Math_pow_Qpower (b : Q) (n : nat) : Js.Math_pow b n == b ^ Z.of_nat n.
Proof.
  induction n as [|n IH].
  - reflexivity.
  - rewrite Nat2Z.inj_succ. unfold Z.succ.
    rewrite Qpower_plus' by lia.
    cbn [Js.Math_pow]. rewrite IH. change (b ^ 1) with b. ring.
Qed.

Lemma Math_pow_ge_1 (m : Q) (n : nat) : 1 <= m -> 1 <= Js.Math_pow m n.
Proof.
  intros Hm. induction n as [|n IH]; cbn [Js.Math_pow]; [lra | nra].
Qed.

Lemma Math_pow_mono (m : Q) (n1 n2 : nat) :
  1 <= m -> (n1 <= n2)%nat -> Js.Math_pow m n1 <= Js.Math_pow m n2.
Proof.
  intros Hm Hle. induction Hle as [|k _ IH]; [lra|].
  cbn [Js.Math_pow]. pose proof (Math_pow_ge_1 m n1 Hm).
  nra.
Qed.

(** ** Martingale stake *)

(** C5. [calculateMartingaleStake base n m] is [base] at [n = 0] and
    [min (base * m^n) (base * 10)] at every other count. *)
Theorem calculateMartingaleStake_meets_spec (base : Q) (n : nat) (m : Q) :
  RiskCalculator.calculateMartingaleStake base n m RiskCalculator.default_maxMultiplier
  == martingaleStake_spec base n m 10.
Proof.
  unfold martingaleStake_spec, RiskCalculator.calculateMartingaleStake,
    RiskCalculator.default_maxMultiplier.
  destruct n as [|k]; cbn [Nat.eqb].
  - reflexivity.
  - apply Q.min_compat; [|reflexivity].
    rewrite (Math_pow_Qpower m (S k)). reflexivity.
Qed.

(** The stake the engine computes for itself is the same number whenever
    the configured stake is not negative. *)
Lemma calculateStakeWithMartingale_agrees (s : TradingState.t) (config : TradeConfig.t) :
  0 <= TradeConfig.stake config ->
  TradingEngine.calculateStakeWithMartingale s config
  == RiskCalculator.calculateMartingaleStake (TradeConfig.stake config)
       (TradingState.consecutiveLosses s) (TradeConfig.martingaleMultiplier config)
       RiskCalculator.default_maxMultiplier.
Proof.
  intros Hs.
  unfold TradingEngine.calculateStakeWithMartingale, RiskCalculator.calculateMartingaleStake,
    RiskCalculator.default_maxMultiplier.
  destruct (TradingState.consecutiveLosses s) as [|k].
  - destruct (Q.min_spec (TradeConfig.stake config) (TradeConfig.stake config * 10))
      as [[_ ->]|[Hle ->]]; lra.
  - reflexivity.
Qed.


Lemma calculateMartingaleStake_succ (base m : Q) (n : nat) :
  0 < base -> 1 <= m ->
  RiskCalculator.calculateMartingaleStake base n m RiskCalculator.default_maxMultiplier
  <= RiskCalculator.calculateMartingaleStake base (S n) m RiskCalculator.default_maxMultiplier.
Proof.
  intros Hb Hm.
  unfold RiskCalculator.calculateMartingaleStake, RiskCalculator.default_maxMultiplier.
  destruct n as [|k].
  - apply Q.min_glb; [|lra].
    pose proof (Math_pow_ge_1 m 1 Hm). nra.
  - apply Q.min_le_compat_r.
    pose proof (Math_pow_mono m (S k) (S (S k)) Hm ltac:(lia)). nra.
Qed.




(** The stake of the third pair after two losing pairs, base stake 1 and
    multiplier 2 (a scenario of the specification), from the risk
    calculator and from the engine. *)
Example martingale_after_two_losses :
  RiskCalculator.calculateMartingaleStake 1 2 2 RiskCalculator.default_maxMultiplier == 4
  /\ TradingEngine.calculateStakeWithMartingale (sampleState [] 2) sampleConfig == 4.
Proof. split; reflexivity. Qed.

(** ** Barrier validation *)

Lemma pushIf_In (cond : bool) (msg : string) (errors : list string) (x : string) :
  In x (RiskCalculator.pushIf cond msg errors) <-> In x errors \/ (cond = true /\ x = msg).
Proof.
  unfold RiskCalculator.pushIf. destruct cond.
  - rewrite in_app_iff. cbn. intuition congruence.
  - intuition congruence.
Qed.

Lemma pushIf_nil (cond : bool) (msg : string) (errors : list string) :
  RiskCalculator.pushIf cond msg errors = [] <-> errors = [] /\ cond = false.
Proof.
  unfold RiskCalculator.pushIf. destruct cond.
  - split; [|intros [_ H]; discriminate].
    intros H. apply app_eq_nil in H. destruct H as [_ H]. discriminate.
  - intuition.
Qed.

Lemma validateBarriers_isValid (show : Q -> string) (p n lo hi : Q) :
  RiskCalculator.isValid (RiskCalculator.validateBarriers show p n lo hi) = true
  <-> RiskCalculator.errors (RiskCalculator.validateBarriers show p n lo hi) = [].
Proof.
  cbn [RiskCalculator.isValid RiskCalculator.errors RiskCalculator.validateBarriers].
  rewrite Nat.eqb_eq. apply length_zero_iff_nil.
Qed.

Lemma validateBarriers_nil (show : Q -> string) (p n lo hi : Q) :
  RiskCalculator.errors (RiskCalculator.validateBarriers show p n lo hi) = []
  <-> ~ barriersViolated p n lo hi.
Proof.
  cbn [RiskCalculator.errors RiskCalculator.validateBarriers].
  rewrite !pushIf_nil. unfold barriersViolated.
  rewrite !ltb_false, !leb_false.
  split.
  - intros H. lra.
  - intros H. repeat split; try apply Qnot_lt_le; try apply Qnot_le_lt; tauto.
Qed.

(** C6.  [validateBarriers] answers invalid, with errors, when some
    constraint is violated, and valid with no error otherwise; each of the
    six constraints that is violated has its message in the list. *)
Theorem validateBarriers_reports_every_violation
    (show : Q -> string) (positive negative minBarrier maxBarrier : Q) :
  let v := RiskCalculator.validateBarriers show positive negative minBarrier maxBarrier in
  (barriersViolated positive negative minBarrier maxBarrier ->
   RiskCalculator.isValid v = false /\ RiskCalculator.errors v <> [])
  /\ (~ barriersViolated positive negative minBarrier maxBarrier ->
      RiskCalculator.isValid v = true /\ RiskCalculator.errors v = [])
  /\ (positive <= 0 -> In RiskCalculator.msg_positive_sign (RiskCalculator.errors v))
  /\ (0 <= negative -> In RiskCalculator.msg_negative_sign (RiskCalculator.errors v))
  /\ (Qabs positive < minBarrier ->
      In (RiskCalculator.msg_positive_min show minBarrier) (RiskCalculator.errors v))
  /\ (maxBarrier < Qabs positive ->
      In (RiskCalculator.msg_positive_max show maxBarrier) (RiskCalculator.errors v))
  /\ (Qabs negative < minBarrier ->
      In (RiskCalculator.msg_negative_min show minBarrier) (RiskCalculator.errors v))
  /\ (maxBarrier < Qabs negative ->
      In (RiskCalculator.msg_negative_max show maxBarrier) (RiskCalculator.errors v)).
Proof.
  intros v.
  pose proof (validateBarriers_isValid show positive negative minBarrier maxBarrier) as Hv.
  pose proof (validateBarriers_nil show positive negative minBarrier maxBarrier) as Hn.
  fold v in Hv, Hn.
  split; [|split].
  - intros Hviol.
    assert (RiskCalculator.errors v <> []) as Hne by tauto.
    split; [|exact Hne].
    destruct (RiskCalculator.isValid v); [|reflexivity]. tauto.
  - intros Hok. split; tauto.
  - subst v. cbn [RiskCalculator.errors RiskCalculator.validateBarriers].
    rewrite !pushIf_In, !ltb_true, !leb_true.
    repeat split; intros H; tauto.
Qed.

Lemma validateBarriers_reports_every_violation_witness :
  barriersViolated 0 0 1 10
  /\ RiskCalculator.validateBarriers showNumber 0 0 1 10
     = {| RiskCalculator.isValid := false;
          RiskCalculator.errors :=
            [ "Positive barrier must be greater than 0";
              "Negative barrier must be less than 0";
              "Positive barrier must be at least 1";
              "Negative barrier magnitude must be at least 1" ]%string |}
  /\ RiskCalculator.errors (RiskCalculator.validateBarriers showNumber 0 0 1 10) <> []
  /\ In RiskCalculator.msg_negative_sign
       (RiskCalculator.errors (RiskCalculator.validateBarriers showNumber 0 0 1 10))
  /\ ~ barriersViolated 1 (-1) 1 10
  /\ RiskCalculator.errors (RiskCalculator.validateBarriers showNumber 1 (-1) 1 10) = [].
Proof.
  assert (barriersViolated 0 0 1 10) as Hbad by (left; discriminate).
  assert (~ barriersViolated 1 (-1) 1 10) as Hgood
    by (intros [H|[H|[H|[H|[H|H]]]]]; vm_compute in H;
        (discriminate H || (apply H; reflexivity))).
  pose proof (validateBarriers_reports_every_violation showNumber 0 0 1 10) as T1.
  pose proof (validateBarriers_reports_every_violation showNumber 1 (-1) 1 10) as T2.
  cbv zeta in T1, T2.
  destruct T1 as (Tv & _ & _ & Tneg & _).
  destruct T2 as (_ & Tok & _).
  split; [exact Hbad|]. split; [reflexivity|].
  split; [exact (proj2 (Tv Hbad))|].
  split; [apply Tneg; discriminate|].
  split; [exact Hgood|]. exact (proj2 (Tok Hgood)).
Defined.

(** ** Recommended stake *)

Lemma leb_comp (x x' y y' : Q) : x == x' -> y == y' -> Js.leb x y = Js.leb x' y'.
Proof. intros Hx Hy. unfold Js.leb. rewrite Hx, Hy. reflexivity. Qed.

Lemma ltb_comp (x x' y y' : Q) : x == x' -> y == y' -> Js.ltb x y = Js.ltb x' y'.
Proof. intros Hx Hy. unfold Js.ltb. rewrite Hx, Hy. reflexivity. Qed.

Lemma toFixed2_comp (x y : Q) : x == y -> Js.toFixed2 x == Js.toFixed2 y.
Proof.
  intros Hxy. unfold Js.toFixed2.
  rewrite (leb_comp (inject_Z (10 ^ 21)) (inject_Z (10 ^ 21)) (Qabs x) (Qabs y))
    by (rewrite ?Hxy; reflexivity).
  rewrite (ltb_comp x y 0 0) by (rewrite ?Hxy; reflexivity).
  assert (Qfloor (Qabs x * 100 + (1 # 2)) = Qfloor (Qabs y * 100 + (1 # 2))) as ->
    by (apply Qfloor_comp; rewrite Hxy; reflexivity).
  destruct (Js.leb _ _); [exact Hxy|]. reflexivity.
Qed.

(** On the stakes that occur, rounding to two decimals moves a number by at
    most half a cent. *)
Lemma toFixed2_near (x : Q) :
  0 <= x -> x <= 2000 ->
  x - (5 # 1000) < Js.toFixed2 x /\ Js.toFixed2 x <= x + (5 # 1000).
Proof.
  intros H0 Hhi. unfold Js.toFixed2.
  assert (Qabs x == x) as Habs by (apply Qabs_pos; exact H0).
  assert (Js.leb (inject_Z (10 ^ 21)) (Qabs x) = false) as ->.
  { apply leb_false. rewrite Habs.
    apply Qle_lt_trans with 2000; [exact Hhi | reflexivity]. }
  assert (Js.ltb x 0 = false) as -> by (apply ltb_false; exact H0).
  assert (Qfloor (Qabs x * 100 + (1 # 2)) = Qfloor (x * 100 + (1 # 2))) as ->
    by (apply Qfloor_comp; rewrite Habs; reflexivity).
  pose proof (Qfloor_le (x * 100 + (1 # 2))) as Hlo.
  pose proof (Qlt_floor (x * 100 + (1 # 2))) as Hup.
  rewrite inject_Z_plus in Hup.
  change (inject_Z 1) with 1 in Hup.
  set (n := inject_Z (Qfloor (x * 100 + (1 # 2)))) in *.
  split.
  - apply Qlt_shift_div_l; [reflexivity|]. lra.
  - apply Qle_shift_div_r; [reflexivity|]. lra.
Qed.

Lemma toFixed2_minStake (x : Q) :
  RiskCalculator.minStake <= x -> x <= 2000 -> RiskCalculator.minStake <= Js.toFixed2 x.
Proof.
  unfold RiskCalculator.minStake. intros Hlo Hhi. unfold Js.toFixed2.
  assert (0 <= x) as H0 by lra.
  assert (Qabs x == x) as Habs by (apply Qabs_pos; exact H0).
  assert (Js.leb (inject_Z (10 ^ 21)) (Qabs x) = false) as ->.
  { apply leb_false. rewrite Habs.
    apply Qle_lt_trans with 2000; [exact Hhi | reflexivity]. }
  assert (Js.ltb x 0 = false) as -> by (apply ltb_false; exact H0).
  assert (35 <= Qfloor (Qabs x * 100 + (1 # 2)))%Z as Hn.
  { change 35%Z with (Qfloor (0.35 * 100 + (1 # 2))).
    apply Qfloor_resp_le. rewrite Habs. lra. }
  apply Qle_shift_div_l; [reflexivity|].
  rewrite Zle_Qle in Hn. change (inject_Z 35) with 35 in Hn. lra.
Qed.

Lemma calculateRecommendedStake_finalStake (acc : AccountInfo.t) (risk m : Q) :
  let r := RiskCalculator.calculateRecommendedStake acc risk m in
  RiskCalculation.recommendedStake r
  = Js.parseFloat_toFixed2 (RiskCalculator.finalStake acc risk m)
  /\ RiskCalculation.canTrade r
     = Js.geb (AccountInfo.availableBalance acc) (Js.double (RiskCalculator.finalStake acc risk m)).
Proof. split; reflexivity. Qed.

(** The stake before rounding is NaN exactly when the formula divides zero
    by zero, and otherwise a number between the minimum stake and the larger
    of the minimum stake and the cap. *)
Lemma finalStake_cases (acc : AccountInfo.t) (risk m : Q) :
  let avail := AccountInfo.availableBalance acc in
  (RiskCalculator.finalStake acc risk m = Js.NaN
   /\ RiskCalculator.calculateMartingaleSequenceRisk 1 m 5 == 0
   /\ avail * risk == 0)
  \/ (exists f, RiskCalculator.finalStake acc risk m = Js.Fin f
       /\ RiskCalculator.minStake <= f
       /\ f <= Qmax RiskCalculator.minStake (Qmin 2000 (avail / 4))).
Proof.
  intros avail. unfold RiskCalculator.finalStake. fold avail.
  set (seq := RiskCalculator.calculateMartingaleSequenceRisk 1 m 5).
  set (cap := Qmin 2000 (avail / 4)).
  unfold Js.div.
  destruct (Qeq_bool (seq * 2) 0) eqn:Eb.
  - apply Qeq_bool_iff in Eb.
    destruct (Qeq_bool (avail * risk / 100) 0) eqn:Ea.
    + left. apply Qeq_bool_iff in Ea. split; [reflexivity|].
      split; [lra|].
      assert (avail * risk / 100 == avail * risk * (1 # 100)) as E by (unfold Qdiv; reflexivity).
      lra.
    + right. destruct (Js.ltb 0 (avail * risk / 100)); cbn [Js.Math_min Js.Math_max].
      * exists (Qmax RiskCalculator.minStake cap). split; [reflexivity|].
        split; [apply Q.le_max_l | apply Qle_refl].
      * exists RiskCalculator.minStake. split; [reflexivity|].
        split; [apply Qle_refl | apply Q.le_max_l].
  - right. cbn [Js.Math_min Js.Math_max].
    eexists. split; [reflexivity|].
    split; [apply Q.le_max_l|].
    apply Q.max_le_compat_l, Q.le_min_l.
Qed.

(** While the cap is at least the minimum stake, that is from an available
    balance of 1.4 on, the stake before rounding is inside the interval of
    the specification. *)
Lemma finalStake_within_cap (acc : AccountInfo.t) (risk m f : Q) :
  RiskCalculator.finalStake acc risk m = Js.Fin f ->
  1.4 <= AccountInfo.availableBalance acc ->
  0.35 <= f /\ f <= Qmin 2000 (AccountInfo.availableBalance acc / 4).
Proof.
  intros Hf Hbig.
  destruct (finalStake_cases acc risk m) as [(Hnan & _)|(f' & Hf' & Hlo & Hhi)];
    [congruence|].
  rewrite Hf in Hf'. injection Hf' as <-.
  unfold RiskCalculator.minStake in Hlo, Hhi.
  split; [exact Hlo|].
  set (avail := AccountInfo.availableBalance acc) in *.
  assert (avail / 4 == avail * (1 # 4)) as Ediv by (unfold Qdiv; reflexivity).
  destruct (Q.max_spec 0.35 (Qmin 2000 (avail / 4))) as [[_ E]|[Hle E]];
    rewrite E in Hhi; [exact Hhi|].
  destruct (Q.min_spec 2000 (avail / 4)) as [[_ E2]|[_ E2]]; rewrite E2 in *; lra.
Qed.

(** [canTrade] compares the balance with twice the stake before rounding;
    the comparison with twice the rounded stake gives the same answer. *)
Lemma canTrade_rounded (acc : AccountInfo.t) (risk m f : Q) :
  RiskCalculator.finalStake acc risk m = Js.Fin f ->
  let avail := AccountInfo.availableBalance acc in
  2 * f <= avail <-> 2 * Js.toFixed2 f <= avail.
Proof.
  intros Hf avail.
  destruct (finalStake_cases acc risk m) as [(Hnan & _)|(f' & Hf' & Hlo & Hhi)];
    [congruence|].
  rewrite Hf in Hf'. injection Hf' as <-. fold avail in Hhi.
  set (cap := Qmin 2000 (avail / 4)) in *.
  unfold RiskCalculator.minStake in Hlo, Hhi.
  assert (cap <= 2000) as Hcap2000 by apply Q.le_min_l.
  assert (cap <= avail / 4) as Hcap4 by apply Q.le_min_r.
  assert (avail / 4 == avail * (1 # 4)) as Ediv by (unfold Qdiv; reflexivity).
  assert (f <= 2000) as Hf2000.
  { destruct (Q.max_spec 0.35 cap) as [[_ E]|[_ E]]; rewrite E in Hhi; lra. }
  destruct (toFixed2_near f ltac:(lra) Hf2000) as [Hnear1 Hnear2].
  destruct (Qlt_le_dec avail 1.4) as [Hsmall|Hbig].
  - assert (f == 0.35) as Ef.
    { destruct (Q.max_spec 0.35 cap) as [[Hlt _]|[_ E]]; [lra|].
      rewrite E in Hhi. lra. }
    assert (Js.toFixed2 f == 0.35) as Er
      by (rewrite (toFixed2_comp f 0.35 Ef); reflexivity).
    split; intros H; lra.
  - destruct (finalStake_within_cap acc risk m f Hf Hbig) as [_ Hfc].
    fold avail in Hfc. fold cap in Hfc.
    split; intros _; lra.
Qed.

(** C3, as amended.  Unless the stake formula divides zero by zero (the
    result is then NaN and [canTrade] is false), [recommendedStake] is
    [finalStake] rounded to two decimals.  From an available balance of 1.4
    on, where the interval of the specification is not empty, [finalStake]
    lies between 0.35 and [min(2000, available/4)], so the rounded stake
    lies between 0.35 and that cap plus half a cent.  [canTrade] is true
    exactly when [available >= 2 * finalStake], which is also exactly when
    [available >= 2 * recommendedStake].  The stake on an account below
    1.4 is not part of the statement. *)
Theorem calculateRecommendedStake_bounds (acc : AccountInfo.t) (risk m : Q) :
  let avail := AccountInfo.availableBalance acc in
  let cap := Qmin 2000 (avail / 4) in
  let r := RiskCalculator.calculateRecommendedStake acc risk m in
  match RiskCalculator.finalStake acc risk m with
  | Js.Fin f =>
      RiskCalculation.recommendedStake r = Js.Fin (Js.toFixed2 f)
      /\ (1.4 <= avail ->
          (0.35 <= f /\ f <= cap)
          /\ (0.35 <= Js.toFixed2 f /\ Js.toFixed2 f <= cap + 0.005))
      /\ (RiskCalculation.canTrade r = true <-> 2 * f <= avail)
      /\ (RiskCalculation.canTrade r = true <-> 2 * Js.toFixed2 f <= avail)
  | Js.NaN =>
      RiskCalculator.calculateMartingaleSequenceRisk 1 m 5 == 0
      /\ avail * risk == 0
      /\ RiskCalculation.recommendedStake r = Js.NaN
      /\ RiskCalculation.canTrade r = false
  | _ => False
  end.
Proof.
  intros avail cap r.
  destruct (calculateRecommendedStake_finalStake acc risk m) as [Hrec Hcan].
  fold r in Hrec, Hcan. fold avail in Hcan.
  destruct (finalStake_cases acc risk m) as [(Hnan & Hseq & Hzero)|(f & Hf & _ & _)].
  - fold avail in Hzero. rewrite Hnan in *. cbn in Hrec, Hcan. auto.
  - pose proof (canTrade_rounded acc risk m f Hf) as Hround.
    cbv zeta in Hround. fold avail in Hround.
    pose proof (finalStake_within_cap acc risk m f Hf) as Hcap.
    fold avail in Hcap. fold cap in Hcap.
    rewrite Hf in *. cbn [Js.parseFloat_toFixed2 Js.double Js.geb] in Hrec, Hcan.
    assert (RiskCalculation.canTrade r = true <-> 2 * f <= avail) as Hiff.
    { rewrite Hcan, leb_true. split; intros H; lra. }
    split; [exact Hrec|]. split.
    + intros Hbig. destruct (Hcap Hbig) as [Hlo Hhi].
      assert (cap <= 2000) as Hcap2000 by apply Q.le_min_l.
      destruct (toFixed2_near f ltac:(lra) ltac:(lra)) as [_ Hnear].
      pose proof (toFixed2_minStake f Hlo ltac:(lra)) as Hmin.
      unfold RiskCalculator.minStake in Hmin.
      split; [split; assumption|]. split; [exact Hmin | lra].
    + split; [exact Hiff|]. rewrite Hiff. exact Hround.
Qed.

Lemma calculateRecommendedStake_bounds_witness :
  let r := RiskCalculator.calculateRecommendedStake (account 100) 50 2 in
  1.4 <= AccountInfo.availableBalance (account 100)
  /\ RiskCalculation.recommendedStake r = Js.Fin 0.40
  /\ (0.35 <= 0.40 /\ 0.40 <= Qmin 2000 (100 / 4) + 0.005)
  /\ RiskCalculation.canTrade r = true.
Proof.
  intros r.
  assert (1.4 <= AccountInfo.availableBalance (account 100)) as Hbig by discriminate.
  pose proof (calculateRecommendedStake_bounds (account 100) 50 2) as T.
  cbv zeta in T.
  assert (RiskCalculator.finalStake (account 100) 50 2 = Js.Fin (100 * 50 / 100 / (63 * 2)))
    as Hf by (vm_compute; reflexivity).
  rewrite Hf in T. destruct T as (Hrec & Hin & _ & Hcan).
  destruct (Hin Hbig) as [_ [Hlo Hhi]].
  assert (Js.toFixed2 (100 * 50 / 100 / (63 * 2)) == 0.40) as E by reflexivity.
  split; [exact Hbig|]. split; [reflexivity|].
  split; [split; [rewrite <- E; exact Hlo | rewrite <- E; exact Hhi]|].
  apply Hcan. rewrite E. discriminate.
Defined.

(** With a multiplier that is not negative every term of the sequence is
    non-negative, so the sequence risk is at least its first term and the
    stake formula never divides by zero. *)
Lemma sequenceLoop_lower (k : nat) (base m total stake : Q) :
  0 <= m -> 0 <= stake ->
  total + stake <= RiskCalculator.sequenceLoop (S k) base m total stake.
Proof.
  intros Hm. revert total stake.
  induction k as [|k IH]; intros total stake Hs; cbn [RiskCalculator.sequenceLoop].
  - destruct (Js.ltb _ _); apply Qle_refl.
  - destruct (Js.ltb (base * 32) (stake * m)); [apply Qle_refl|].
    assert (0 <= stake * m) as Hsm by nra.
    pose proof (IH (total + stake) (stake * m) Hsm) as H.
    cbn [RiskCalculator.sequenceLoop] in H. lra.
Qed.

Lemma finalStake_finite (acc : AccountInfo.t) (risk m : Q) :
  0 <= m -> exists f, RiskCalculator.finalStake acc risk m = Js.Fin f.
Proof.
  intros Hm.
  destruct (finalStake_cases acc risk m) as [(_ & Hseq & _)|(f & Hf & _)].
  - exfalso. unfold RiskCalculator.calculateMartingaleSequenceRisk in Hseq.
    pose proof (sequenceLoop_lower 5 1 m 0 1 Hm ltac:(lra)) as H. lra.
  - exists f. exact Hf.
Qed.

(** C3 as stated fails because the stake is rounded after the clamp: with
    100.03 available (risk 100%, multiplier 0) the cap is 25.0075 and the
    recommended stake is 25.01, above [min(2000, 100.03/4)]. *)
Lemma calculateRecommendedStake_rounds_over_cap :
  0 <= AccountInfo.availableBalance (account 100.03)
  /\ RiskCalculation.recommendedStake
       (RiskCalculator.calculateRecommendedStake (account 100.03) 100 0)
     = Js.Fin 25.01
  /\ Qmin 2000 (AccountInfo.availableBalance (account 100.03) / 4) == 25.0075
  /\ ~ (25.01 <= Qmin 2000 (AccountInfo.availableBalance (account 100.03) / 4)).
Proof.
  split; [discriminate|]. split; [reflexivity|]. split; [reflexivity|].
  vm_compute. intros H. apply H. reflexivity.
Qed.

(** Below 1.4 available the floor of the clamp overrides its cap, although
    the source comments the cap with "Never risk more than 25% in a single
    trade": with 1 available (risk 50%, multiplier 2) the stake is 0.35,
    above a quarter of the balance, and [canTrade] is true. *)
Example calculateRecommendedStake_above_quarter :
  RiskCalculation.recommendedStake (RiskCalculator.calculateRecommendedStake (account 1) 50 2)
  = Js.Fin 0.35
  /\ RiskCalculation.canTrade (RiskCalculator.calculateRecommendedStake (account 1) 50 2) = true
  /\ ~ (0.35 <= Qmin 2000 (AccountInfo.availableBalance (account 1) / 4)).
Proof.
  split; [reflexivity|]. split; [reflexivity|].
  vm_compute. intros H. apply H. reflexivity.
Qed.

(** With multiplier -1 the sequence risk is 0; on an empty account the
    formula is 0/0. *)
Example calculateRecommendedStake_nan :
  RiskCalculation.recommendedStake (RiskCalculator.calculateRecommendedStake (account 0) 50 (-1))
  = Js.NaN.
Proof. reflexivity. Qed.

(** Available balance 100, risk 50%, multiplier 2 (a scenario of the
    specification). *)
Example calculateRecommendedStake_scenario :
  RiskCalculator.calculateRecommendedStake (account 100) 50 2
  = {| RiskCalculation.recommendedStake := Js.Fin 0.40;
       RiskCalculation.maxRisk := 100 * 50 / 100;
       RiskCalculation.availableBalance := 100;
       RiskCalculation.riskPercentage := 50;
       RiskCalculation.canTrade := true |}.
Proof. vm_compute. reflexivity. Qed.

(** ** Settlement of trade results *)

Lemma forEachPair_none (c : string) (profit : Q) (isWon : bool)
    (pairs : list TradePair.t) (s : TradingState.t) :
  noneUpdated c pairs ->
  TradingEngine.forEachPair c profit isWon pairs s = (pairs, s).
Proof.
  induction 1 as [|q qs Hq _ IH]; cbn [TradingEngine.forEachPair].
  - reflexivity.
  - rewrite Hq, IH. reflexivity.
Qed.

(** The loop stops at the first pair one of whose legs has the contract. *)
Lemma forEachPair_first (c : string) (profit : Q) (isWon : bool)
    (pre : list TradePair.t) (p : TradePair.t) (post : list TradePair.t) (s : TradingState.t) :
  noneUpdated c pre ->
  TradingEngine.tradeUpdated c p = true ->
  TradingEngine.forEachPair c profit isWon (pre ++ p :: post) s
  = let p1 := TradingEngine.settleLegs c profit isWon p in
    if TradingEngine.bothCompleted p1
    then (pre ++ TradingEngine.complete p1 :: post,
          TradingEngine.updatePnL (TradingEngine.combinedProfit p1) s)
    else (pre ++ p1 :: post, s).
Proof.
  intros Hpre Hp. induction Hpre as [|q qs Hq _ IH]; cbn [app TradingEngine.forEachPair].
  - rewrite Hp. cbv zeta.
    destruct (TradingEngine.bothCompleted _); reflexivity.
  - rewrite Hq, IH. cbv zeta.
    destruct (TradingEngine.bothCompleted _); reflexivity.
Qed.

Lemma updatePnL_tradeHistory (total : Q) (s : TradingState.t) :
  TradingState.tradeHistory (TradingEngine.updatePnL total s) = TradingState.tradeHistory s.
Proof. unfold TradingEngine.updatePnL. destruct (Js.ltb 0 total); reflexivity. Qed.

(** C1, as amended.  When a call settles a leg of the first pair that holds
    the contract and leaves both legs of that pair non-active, the pair is
    completed with the combined profit of its legs, and: a positive combined
    profit resets [consecutiveLosses] to zero and is added to
    [totalProfit]; a zero or negative one increments [consecutiveLosses] by
    one and adds its magnitude to [totalLoss]. *)
Theorem updateTradeResult_profit_and_loss
    (s : TradingState.t) (c : string) (profit : Q) (isWon : bool)
    (pre : list TradePair.t) (p : TradePair.t) (post : list TradePair.t) :
  TradingState.tradeHistory s = pre ++ p :: post ->
  noneUpdated c pre ->
  TradingEngine.tradeUpdated c p = true ->
  TradingEngine.bothCompleted (TradingEngine.settleLegs c profit isWon p) = true ->
  let p1 := TradingEngine.settleLegs c profit isWon p in
  let total := TradingEngine.combinedProfit p1 in
  let s' := TradingEngine.updateTradeResult c profit isWon s in
  TradingState.tradeHistory s' = pre ++ TradingEngine.complete p1 :: post
  /\ TradePair.totalProfit (TradingEngine.complete p1) = Some total
  /\ ((0 < total
       /\ TradingState.consecutiveLosses s' = 0%nat
       /\ TradingState.totalProfit s' = TradingState.totalProfit s + total
       /\ TradingState.totalLoss s' = TradingState.totalLoss s)
      \/ (total <= 0
          /\ TradingState.consecutiveLosses s' = S (TradingState.consecutiveLosses s)
          /\ TradingState.totalLoss s' = TradingState.totalLoss s + Qabs total
          /\ TradingState.totalProfit s' = TradingState.totalProfit s)).
Proof.
  intros Hhist Hpre Hp Hboth p1 total s'.
  subst s' total p1. unfold TradingEngine.updateTradeResult.
  rewrite Hhist, (forEachPair_first c profit isWon pre p post s Hpre Hp).
  cbv zeta. rewrite Hboth.
  set (total := TradingEngine.combinedProfit _).
  split; [reflexivity|]. split; [reflexivity|].
  unfold TradingEngine.updatePnL.
  destruct (Js.ltb 0 total) eqn:E.
  - left. apply ltb_true in E. cbn. auto.
  - right. apply ltb_false in E. cbn. auto.
Qed.

Lemma updateTradeResult_profit_and_loss_witness :
  let s := TradingEngine.updateTradeResult "101" 5 true (sampleState [samplePair] 2) in
  let p := TradingEngine.settleLegs "101" 5 true samplePair in
  let s' := TradingEngine.updateTradeResult "102" (-8) false s in
  TradingState.tradeHistory s = [] ++ p :: []
  /\ noneUpdated "102" []
  /\ TradingEngine.tradeUpdated "102" p = true
  /\ TradingEngine.bothCompleted (TradingEngine.settleLegs "102" (-8) false p) = true
  /\ TradingState.consecutiveLosses s' = 3%nat
  /\ TradingState.totalLoss s' == 3.
Proof.
  intros s p s'.
  assert (TradingState.tradeHistory s = [] ++ p :: []) as H1 by reflexivity.
  assert (noneUpdated "102" []) as H2 by constructor.
  assert (TradingEngine.tradeUpdated "102" p = true) as H3 by reflexivity.
  assert (TradingEngine.bothCompleted (TradingEngine.settleLegs "102" (-8) false p) = true)
    as H4 by reflexivity.
  pose proof (updateTradeResult_profit_and_loss s "102" (-8) false [] p [] H1 H2 H3 H4) as T.
  cbv zeta in T. fold s' in T.
  destruct T as (_ & _ & [(Hpos & _)|(_ & Hcl & Hloss & _)]).
  - exfalso. vm_compute in Hpos. discriminate Hpos.
  - split; [exact H1|]. split; [exact H2|]. split; [exact H3|]. split; [exact H4|].
    split; [exact Hcl|]. rewrite Hloss. reflexivity.
Defined.

(** C1 as stated fails at a combined profit of zero, which is not
    negative: the pair below completes with legs +5 and -5, and the counter
    goes from 2 to 3 instead of back to zero. *)
Lemma updateTradeResult_zero_profit_counts_as_loss :
  let s := TradingEngine.updateTradeResult "101" 5 true (sampleState [samplePair] 2) in
  let s' := TradingEngine.updateTradeResult "102" (-5) false s in
  exists p, TradingState.tradeHistory s' = [p]
    /\ TradingEngine.bothCompleted p = true
    /\ 0 <= TradingEngine.combinedProfit p
    /\ TradingState.consecutiveLosses s' = 3%nat
    /\ TradingState.consecutiveLosses s' <> 0%nat
    /\ TradingState.totalProfit s' == TradingState.totalProfit s.
Proof.
  eexists. split; [reflexivity|]. split; [reflexivity|].
  split; [vm_compute; discriminate|].
  split; [reflexivity|]. split; [discriminate|]. reflexivity.
Qed.

(** ** A pair is completed once when each leg is settled once *)

Lemma tradeUpdated_sameContracts (c : string) (a b : TradePair.t) :
  sameContracts a b -> TradingEngine.tradeUpdated c a = TradingEngine.tradeUpdated c b.
Proof.
  intros [Hh Hl]. unfold TradingEngine.tradeUpdated, TradingEngine.hasContract.
  rewrite Hh, Hl. reflexivity.
Qed.

Lemma settleLegs_sameContracts (c : string) (x : Q) (w : bool) (p : TradePair.t) :
  sameContracts p (TradingEngine.settleLegs c x w p).
Proof.
  unfold sameContracts, TradingEngine.settleLegs. cbn.
  split;
    match goal with |- context [if ?b then _ else _] => destruct b end; reflexivity.
Qed.

Lemma sameContracts_trans (a b c : TradePair.t) :
  sameContracts a b -> sameContracts b c -> sameContracts a c.
Proof. unfold sameContracts. intros [? ?] [? ?]. split; congruence. Qed.

Lemma complete_sameContracts (p : TradePair.t) : sameContracts p (TradingEngine.complete p).
Proof. split; reflexivity. Qed.

(** A call changes no contract identifier and leaves alone every pair
    that does not hold its contract. *)
Lemma forEachPair_pointwise (c : string) (x : Q) (w : bool)
    (pairs : list TradePair.t) (s : TradingState.t) :
  List.Forall2
    (fun a b => sameContracts a b /\ (TradingEngine.tradeUpdated c a = false -> b = a))
    pairs (fst (TradingEngine.forEachPair c x w pairs s)).
Proof.
  assert (forall a, sameContracts a a) as Hrefl by (intros a; split; reflexivity).
  induction pairs as [|p rest IH]; cbn [TradingEngine.forEachPair].
  - constructor.
  - destruct (TradingEngine.tradeUpdated c p) eqn:Hp.
    + assert (List.Forall2
                (fun a b => sameContracts a b /\ (TradingEngine.tradeUpdated c a = false -> b = a))
                rest rest) as Hrest.
      { clear. induction rest; constructor; [split; [split; reflexivity | reflexivity] | assumption]. }
      destruct (TradingEngine.bothCompleted _); cbn [fst]; constructor; try exact Hrest.
      * split; [|congruence].
        eapply sameContracts_trans; [apply settleLegs_sameContracts | apply complete_sameContracts].
      * split; [apply settleLegs_sameContracts | congruence].
    + destruct (TradingEngine.forEachPair c x w rest s) as [rest' s'] eqn:E.
      cbn [fst] in *. constructor; [split; [apply Hrefl | reflexivity] | exact IH].
Qed.

Lemma updateTradeResult_tradeHistory (c : string) (x : Q) (w : bool) (s : TradingState.t) :
  TradingState.tradeHistory (TradingEngine.updateTradeResult c x w s)
  = fst (TradingEngine.forEachPair c x w (TradingState.tradeHistory s) s).
Proof.
  unfold TradingEngine.updateTradeResult.
  destruct (TradingEngine.forEachPair _ _ _ _ _) as [pairs s']. reflexivity.
Qed.

Lemma noneUpdated_pointwise (c k : string) (pre pre' : list TradePair.t) :
  List.Forall2
    (fun a b => sameContracts a b /\ (TradingEngine.tradeUpdated c a = false -> b = a))
    pre pre' ->
  noneUpdated k pre -> noneUpdated k pre'.
Proof.
  induction 1 as [|a b l1 l2 [Hab _] _ IH]; intros Hn.
  - constructor.
  - inversion Hn as [|? ? Ha Hrest]; subst. constructor.
    + rewrite <- (tradeUpdated_sameContracts k a b Hab). exact Ha.
    + apply IH, Hrest.
Qed.

Lemma firstFor_nth (h l : string) (i : nat) (p : TradePair.t) (s : TradingState.t) :
  firstFor h l i p s -> nth_error (TradingState.tradeHistory s) i = Some p.
Proof.
  intros (pre & post & Hh & Hlen & _). rewrite Hh, <- Hlen.
  rewrite nth_error_app2 by lia. rewrite Nat.sub_diag. reflexivity.
Qed.

(** A call for a contract the pair does not hold leaves the pair as it is,
    where it is. *)
Lemma updateTradeResult_other (h l : string) (i : nat) (p : TradePair.t)
    (s : TradingState.t) (c : string) (x : Q) (w : bool) :
  firstFor h l i p s ->
  TradingEngine.tradeUpdated c p = false ->
  firstFor h l i p (TradingEngine.updateTradeResult c x w s).
Proof.
  intros (pre & post & Hh & Hlen & Hnh & Hnl) Hp.
  pose proof (forEachPair_pointwise c x w (TradingState.tradeHistory s) s) as HF.
  rewrite <- updateTradeResult_tradeHistory in HF. rewrite Hh in HF.
  apply List.Forall2_app_inv_l in HF.
  destruct HF as (pre' & rest' & Hpre & Hrest & Heq).
  inversion Hrest as [|a b l1 post' [_ Hb] Hpost]; subst.
  rewrite (Hb Hp) in Heq.
  exists pre', post'. split; [exact Heq|].
  split; [symmetry; eapply List.Forall2_length; exact Hpre|].
  split; eapply noneUpdated_pointwise; eassumption.
Qed.

Lemma runCalls_others (h l : string) (i : nat) (p : TradePair.t)
    (calls : list call) (s : TradingState.t) :
  firstFor h l i p s ->
  Forall (fun k => TradingEngine.tradeUpdated (callId k) p = false) calls ->
  firstFor h l i p (runCalls calls s).
Proof.
  intros Hs Hcalls. revert s Hs.
  induction Hcalls as [|k ks Hk _ IH]; intros s Hs; cbn [runCalls fold_left].
  - exact Hs.
  - apply IH. apply updateTradeResult_other; assumption.
Qed.

(** A call for one of the two contracts reaches the pair. *)
Lemma updateTradeResult_leg (h l : string) (i : nat) (p : TradePair.t)
    (s : TradingState.t) (c : string) (x : Q) (w : bool) :
  firstFor h l i p s ->
  c = h \/ c = l ->
  TradingEngine.tradeUpdated c p = true ->
  let p1 := TradingEngine.settleLegs c x w p in
  let s' := TradingEngine.updateTradeResult c x w s in
  if TradingEngine.bothCompleted p1 then
    firstFor h l i (TradingEngine.complete p1) s'
    /\ s' = TradingEngine.set_tradeHistory (TradingState.tradeHistory s')
              (TradingEngine.updatePnL (TradingEngine.combinedProfit p1) s)
  else
    firstFor h l i p1 s'
    /\ s' = TradingEngine.set_tradeHistory (TradingState.tradeHistory s') s.
Proof.
  intros (pre & post & Hh & Hlen & Hnh & Hnl) Hc Hp p1 s'.
  assert (noneUpdated c pre) as Hnc by (destruct Hc; subst c; assumption).
  subst s'. unfold TradingEngine.updateTradeResult.
  rewrite Hh, (forEachPair_first c x w pre p post s Hnc Hp). cbv zeta. fold p1.
  destruct (TradingEngine.bothCompleted p1).
  - split; [|reflexivity]. exists pre, post. cbn. auto.
  - split; [|reflexivity]. exists pre, post. cbn. auto.
Qed.

Lemma orZero_Some (q : Q) : Js.orZero (Some q) == q.
Proof.
  cbn. destruct (Qeq_bool q 0) eqn:E; [|reflexivity].
  apply Qeq_bool_iff in E. symmetry. exact E.
Qed.

Lemma hasContract_Some (c k : string) (tr : Trade.t) :
  Trade.contractId tr = Some k -> TradingEngine.hasContract c tr = String.eqb k c.
Proof. intros H. unfold TradingEngine.hasContract. rewrite H. reflexivity. Qed.

Lemma others_leave_pair (h l : string) (p : TradePair.t) (calls : list call) :
  Trade.contractId (TradePair.higherTrade p) = Some h ->
  Trade.contractId (TradePair.lowerTrade p) = Some l ->
  Forall (fun k => callId k <> h /\ callId k <> l) calls ->
  Forall (fun k => TradingEngine.tradeUpdated (callId k) p = false) calls.
Proof.
  intros Hh Hl Hcalls. eapply List.Forall_impl; [|exact Hcalls].
  cbv beta. intros k [Hkh Hkl].
  unfold TradingEngine.tradeUpdated.
  rewrite (hasContract_Some _ h _ Hh), (hasContract_Some _ l _ Hl).
  apply orb_false_iff. split; apply String.eqb_neq; congruence.
Qed.

(** The two calls on a pair whose legs are active: the first leaves one leg
    active, the second leaves none and the profits add up. *)
Lemma two_legs_settled (p : TradePair.t) (h l c1 c2 : string) (x1 x2 : Q) (w1 w2 : bool) :
  Trade.contractId (TradePair.higherTrade p) = Some h ->
  Trade.contractId (TradePair.lowerTrade p) = Some l ->
  h <> l ->
  Trade.status (TradePair.higherTrade p) = Trade.active ->
  Trade.status (TradePair.lowerTrade p) = Trade.active ->
  (c1 = h /\ c2 = l) \/ (c1 = l /\ c2 = h) ->
  let p1 := TradingEngine.settleLegs c1 x1 w1 p in
  TradingEngine.tradeUpdated c1 p = true
  /\ TradingEngine.bothCompleted p1 = false
  /\ TradingEngine.tradeUpdated c2 p1 = true
  /\ TradingEngine.bothCompleted (TradingEngine.settleLegs c2 x2 w2 p1) = true
  /\ TradingEngine.combinedProfit (TradingEngine.settleLegs c2 x2 w2 p1) == x1 + x2.
Proof.
  intros Hh Hl Hhl Hah Hal Horder.
  assert (String.eqb h l = false) as Ehl by (apply String.eqb_neq; exact Hhl).
  assert (String.eqb l h = false) as Elh by (apply String.eqb_neq; congruence).
  destruct p as [pid pts ph pl pstake ptotal pstatus].
  destruct ph as [hid hts hty hst hbar hmk hstatus hpay hprofit hcid].
  destruct pl as [lid lts lty lst lbar lmk lstatus lpay lprofit lcid].
  cbn in Hh, Hl, Hah, Hal. subst hcid lcid hstatus lstatus.
  unfold TradingEngine.tradeUpdated, TradingEngine.bothCompleted, TradingEngine.combinedProfit,
    TradingEngine.settleLegs, TradingEngine.hasContract, TradingEngine.settle, Trade.notActive.
  destruct Horder as [[-> ->]|[-> ->]]; cbn;
    rewrite ?String.eqb_refl, ?Ehl, ?Elh; cbn;
    rewrite ?String.eqb_refl, ?Ehl, ?Elh; cbn;
    (split; [reflexivity|]); (split; [destruct w1; reflexivity|]);
    (split; [reflexivity|]); (split; [destruct w1, w2; reflexivity|]);
    pose proof (orZero_Some x1) as E1; pose proof (orZero_Some x2) as E2;
    cbn in E1, E2; lra.
Qed.


(** What one call can do to the pair at a given place of the history:
    nothing, settle a leg and leave the pair as it was, or settle a leg and
    complete it. *)
Lemma forEachPair_nth (c : string) (x : Q) (w : bool)
    (pairs : list TradePair.t) (s : TradingState.t) (i : nat) (p p' : TradePair.t) :
  nth_error pairs i = Some p ->
  nth_error (fst (TradingEngine.forEachPair c x w pairs s)) i = Some p' ->
  p' = p
  \/ (p' = TradingEngine.settleLegs c x w p /\ TradingEngine.bothCompleted p' = false)
  \/ (p' = TradingEngine.complete (TradingEngine.settleLegs c x w p)
      /\ TradingEngine.bothCompleted (TradingEngine.settleLegs c x w p) = true).
Proof.
  revert i. induction pairs as [|q rest IH]; intros i Hp Hp'.
  - destruct i; discriminate Hp.
  - cbn [TradingEngine.forEachPair] in Hp'.
    destruct (TradingEngine.tradeUpdated c q) eqn:Hq.
    + destruct (TradingEngine.bothCompleted (TradingEngine.settleLegs c x w q)) eqn:Hb;
        cbn [fst] in Hp'; destruct i as [|j]; cbn [nth_error] in Hp, Hp'.
      * injection Hp as <-. injection Hp' as <-. right. right. split; [reflexivity | exact Hb].
      * left. congruence.
      * injection Hp as <-. injection Hp' as <-. right. left. split; [reflexivity | exact Hb].
      * left. congruence.
    + destruct (TradingEngine.forEachPair c x w rest s) as [rest' s'] eqn:E.
      cbn [fst] in *. destruct i as [|j]; cbn [nth_error] in Hp, Hp'.
      * left. congruence.
      * exact (IH j Hp Hp').
Qed.

(** A call turns a pair into a completed one only by leaving both of its
    legs non-active, and then stores the sum of the legs' profits. *)
Lemma completed_only_with_both_legs_settled (s : TradingState.t) (c : string) (x : Q) (w : bool)
    (i : nat) (p p' : TradePair.t) :
  nth_error (TradingState.tradeHistory s) i = Some p ->
  nth_error (TradingState.tradeHistory (TradingEngine.updateTradeResult c x w s)) i = Some p' ->
  TradePair.status p' = TradePair.completed ->
  TradePair.status p <> TradePair.completed ->
  TradingEngine.bothCompleted p' = true
  /\ TradePair.totalProfit p' = Some (TradingEngine.combinedProfit p').
Proof.
  intros Hp Hp' Hdone Hnot.
  rewrite updateTradeResult_tradeHistory in Hp'.
  destruct (forEachPair_nth c x w _ s i p p' Hp Hp') as [->|[[-> Hb]|[-> Hb]]].
  - contradiction.
  - cbn in Hdone. contradiction.
  - split; [exact Hb | reflexivity].
Qed.

(** C2, as amended.  A call sets a pair to [completed] only when it leaves
    both legs non-active, and then stores the sum of the legs' profits as
    [totalProfit].  For a pair with both legs active and distinct contract
    identifiers that is the first pair of the history to hold either
    identifier (the loop stops at the first pair that holds the identifier
    of the call), and calls in which each of the two contracts is settled
    once: the call for the first leg leaves the pair active and the
    accumulators alone; the call for the second leg completes the pair, with
    [totalProfit] the sum of the two profits, and updates the accumulators
    once; no call for another contract changes the pair, before or after. *)
Theorem pair_completed_once_when_legs_settled_once :
  (forall (s : TradingState.t) (c : string) (x : Q) (w : bool)
          (i : nat) (p p' : TradePair.t),
      nth_error (TradingState.tradeHistory s) i = Some p ->
      nth_error (TradingState.tradeHistory (TradingEngine.updateTradeResult c x w s)) i = Some p' ->
      TradePair.status p' = TradePair.completed ->
      TradePair.status p <> TradePair.completed ->
      TradingEngine.bothCompleted p' = true
      /\ TradePair.totalProfit p' = Some (TradingEngine.combinedProfit p'))
  /\ (forall (s : TradingState.t) (i : nat) (p : TradePair.t) (h l c1 c2 : string)
             (x1 x2 : Q) (w1 w2 : bool) (cs1 cs2 cs3 : list call),
      firstFor h l i p s ->
      Trade.contractId (TradePair.higherTrade p) = Some h ->
      Trade.contractId (TradePair.lowerTrade p) = Some l ->
      h <> l ->
      Trade.status (TradePair.higherTrade p) = Trade.active ->
      Trade.status (TradePair.lowerTrade p) = Trade.active ->
      TradePair.status p = TradePair.active ->
      (c1 = h /\ c2 = l) \/ (c1 = l /\ c2 = h) ->
      Forall (fun k => callId k <> h /\ callId k <> l) (cs1 ++ cs2 ++ cs3) ->
      let p1 := TradingEngine.settleLegs c1 x1 w1 p in
      let p2 := TradingEngine.complete (TradingEngine.settleLegs c2 x2 w2 p1) in
      let s1 := runCalls cs1 s in
      let s2 := applyCall s1 (c1, x1, w1) in
      let s3 := runCalls cs2 s2 in
      let s4 := applyCall s3 (c2, x2, w2) in
      let s5 := runCalls cs3 s4 in
      nth_error (TradingState.tradeHistory s1) i = Some p
      /\ (nth_error (TradingState.tradeHistory s2) i = Some p1
          /\ TradePair.status p1 = TradePair.active
          /\ TradingEngine.bothCompleted p1 = false
          /\ s2 = TradingEngine.set_tradeHistory (TradingState.tradeHistory s2) s1)
      /\ nth_error (TradingState.tradeHistory s3) i = Some p1
      /\ (nth_error (TradingState.tradeHistory s4) i = Some p2
          /\ TradePair.status p2 = TradePair.completed
          /\ TradingEngine.bothCompleted p2 = true
          /\ (exists t, TradePair.totalProfit p2 = Some t /\ t == x1 + x2)
          /\ s4 = TradingEngine.set_tradeHistory (TradingState.tradeHistory s4)
                    (TradingEngine.updatePnL (TradingEngine.combinedProfit p2) s3))
      /\ nth_error (TradingState.tradeHistory s5) i = Some p2).
Proof.
  split; [exact completed_only_with_both_legs_settled|].
  intros s i p h l c1 c2 x1 x2 w1 w2 cs1 cs2 cs3.
  intros Hfirst Hh Hl Hhl Hah Hal Hact Horder Hothers p1 p2 s1 s2 s3 s4 s5.
  apply Forall_app in Hothers. destruct Hothers as [Ho1 Ho23].
  apply Forall_app in Ho23. destruct Ho23 as [Ho2 Ho3].
  assert (sameContracts p p1) as Hsame1 by apply settleLegs_sameContracts.
  assert (sameContracts p1 p2) as Hsame2.
  { eapply sameContracts_trans; [apply settleLegs_sameContracts | apply complete_sameContracts]. }
  destruct Hsame1 as [Hh1 Hl1]. destruct Hsame2 as [Hh2 Hl2].
  rewrite Hh in Hh1. rewrite Hl in Hl1.
  rewrite <- Hh1 in Hh2. rewrite <- Hl1 in Hl2.
  symmetry in Hh1, Hl1, Hh2, Hl2.
  destruct (two_legs_settled p h l c1 c2 x1 x2 w1 w2 Hh Hl Hhl Hah Hal Horder)
    as (Hu1 & Hb1 & Hu2 & Hb2 & Hsum).
  fold p1 in Hb1, Hu2, Hb2, Hsum.
  (* calls for other contracts *)
  pose proof (others_leave_pair h l p cs1 Hh Hl Ho1) as Hq1.
  pose proof (others_leave_pair h l p1 cs2 Hh1 Hl1 Ho2) as Hq2.
  pose proof (others_leave_pair h l p2 cs3 Hh2 Hl2 Ho3) as Hq3.
  assert (c1 = h \/ c1 = l) as Hc1 by tauto.
  assert (c2 = h \/ c2 = l) as Hc2 by tauto.
  pose proof (runCalls_others h l i p cs1 s Hfirst Hq1) as F1. fold s1 in F1.
  pose proof (updateTradeResult_leg h l i p s1 c1 x1 w1 F1 Hc1 Hu1) as L1.
  cbv zeta in L1. fold p1 in L1. rewrite Hb1 in L1.
  change (TradingEngine.updateTradeResult c1 x1 w1 s1) with s2 in L1.
  destruct L1 as [F2 E2].
  pose proof (runCalls_others h l i p1 cs2 s2 F2 Hq2) as F3. fold s3 in F3.
  pose proof (updateTradeResult_leg h l i p1 s3 c2 x2 w2 F3 Hc2 Hu2) as L2.
  cbv zeta in L2. rewrite Hb2 in L2. fold p2 in L2.
  change (TradingEngine.updateTradeResult c2 x2 w2 s3) with s4 in L2.
  destruct L2 as [F4 E4].
  pose proof (runCalls_others h l i p2 cs3 s4 F4 Hq3) as F5. fold s5 in F5.
  split; [eapply firstFor_nth; exact F1|].
  split.
  { split; [eapply firstFor_nth; exact F2|].
    split; [exact Hact|]. split; [exact Hb1 | exact E2]. }
  split; [eapply firstFor_nth; exact F3|].
  split.
  { split; [eapply firstFor_nth; exact F4|].
    split; [reflexivity|]. split; [exact Hb2|].
    split; [|exact E4].
    eexists. split; [reflexivity | exact Hsum]. }
  eapply firstFor_nth; exact F5.
Qed.

Lemma pair_completed_once_when_legs_settled_once_witness :
  let s := sampleState [otherPair; samplePair] 0 in
  let cs1 : list call := [("201"%string, 1, true)] in
  let cs2 : list call := [("202"%string, -1, false)] in
  let cs3 : list call := [("999"%string, 0, false)] in
  let p1 := TradingEngine.settleLegs "102" (-2) false samplePair in
  let p2 := TradingEngine.complete (TradingEngine.settleLegs "101" 5 true p1) in
  let s4 := applyCall (runCalls cs2 (applyCall (runCalls cs1 s) ("102"%string, -2, false)))
              ("101"%string, 5, true) in
  firstFor "101" "102" 1 samplePair s
  /\ Trade.contractId (TradePair.higherTrade samplePair) = Some "101"%string
  /\ Trade.contractId (TradePair.lowerTrade samplePair) = Some "102"%string
  /\ "101"%string <> "102"%string
  /\ Trade.status (TradePair.higherTrade samplePair) = Trade.active
  /\ Trade.status (TradePair.lowerTrade samplePair) = Trade.active
  /\ TradePair.status samplePair = TradePair.active
  /\ (("102"%string = "101"%string /\ "101"%string = "102"%string)
      \/ ("102"%string = "102"%string /\ "101"%string = "101"%string))
  /\ Forall (fun k => callId k <> "101"%string /\ callId k <> "102"%string) (cs1 ++ cs2 ++ cs3)
  /\ nth_error (TradingState.tradeHistory s4) 1 = Some p2
  /\ TradePair.status p2 = TradePair.completed
  /\ nth_error (TradingState.tradeHistory (runCalls cs3 s4)) 1 = Some p2.
Proof.
  intros s cs1 cs2 cs3 p1 p2 s4.
  assert (firstFor "101" "102" 1 samplePair s) as H1.
  { exists [otherPair], []. split; [reflexivity|]. split; [reflexivity|].
    split; constructor; (reflexivity || constructor). }
  assert ("101"%string <> "102"%string) as H4 by discriminate.
  assert (("102"%string = "101"%string /\ "101"%string = "102"%string)
          \/ ("102"%string = "102"%string /\ "101"%string = "101"%string)) as H8
    by (right; split; reflexivity).
  assert (Forall (fun k => callId k <> "101"%string /\ callId k <> "102"%string)
            (cs1 ++ cs2 ++ cs3)) as H9
    by (repeat constructor; discriminate).
  pose proof (proj2 pair_completed_once_when_legs_settled_once
                s 1%nat samplePair "101"%string "102"%string "102"%string "101"%string
                (-2) 5 false true cs1 cs2 cs3
                H1 eq_refl eq_refl H4 eq_refl eq_refl eq_refl H8 H9) as T.
  cbv zeta in T. destruct T as (_ & _ & _ & (T4 & T4s & _) & T5).
  split; [exact H1|]. split; [reflexivity|]. split; [reflexivity|]. split; [exact H4|].
  split; [reflexivity|]. split; [reflexivity|]. split; [reflexivity|]. split; [exact H8|].
  split; [exact H9|]. split; [exact T4|]. split; [exact T4s | exact T5].
Defined.

(** The condition on the place of the pair is needed: a pair behind another
    pair that holds one of its identifiers never sees the call for that
    identifier, and stays active when both its contracts have been
    settled. *)
Example pair_behind_a_shared_contract_stays_active :
  let later :=
    {| TradePair.id := "pair_2";
       TradePair.timestamp := 2;
       TradePair.higherTrade := sampleTrade Trade.higher 1 "101";
       TradePair.lowerTrade := sampleTrade Trade.lower (-1) "202";
       TradePair.totalStake := 2;
       TradePair.totalProfit := None;
       TradePair.status := TradePair.active |} in
  let s := runCalls [("101"%string, 5, true); ("202"%string, -2, false)]
             (sampleState [samplePair; later] 0) in
  exists p,
    nth_error (TradingState.tradeHistory s) 1 = Some p
    /\ TradePair.status p = TradePair.active
    /\ Trade.status (TradePair.higherTrade p) = Trade.active
    /\ Trade.status (TradePair.lowerTrade p) = Trade.lost.
Proof. eexists. split; [reflexivity|]. repeat split. Qed.

(** C2 as stated fails on a duplicate settlement.  The pair below is
    completed with a total of 3; the same settlement of its lower leg, sent
    again, adds 3 to the cumulative profit once more. *)
Lemma duplicate_settlement_counts_again :
  let s2 := runCalls [("101"%string, 5, true); ("102"%string, -2, false)]
              (sampleState [samplePair] 0) in
  let s3 := applyCall s2 ("102"%string, -2, false) in
  (exists p, TradingState.tradeHistory s2 = [p]
     /\ TradePair.status p = TradePair.completed
     /\ Trade.status (TradePair.lowerTrade p) = Trade.lost)
  /\ TradingState.totalProfit s2 == 3
  /\ TradingState.totalProfit s3 == 6
  /\ ~ TradingState.totalProfit s3 == TradingState.totalProfit s2.
Proof.
  split; [eexists; split; [reflexivity|]; split; reflexivity|].
  split; [reflexivity|]. split; [reflexivity|].
  vm_compute. discriminate.
Qed.

(** A duplicate with another profit also rewrites the pair's own
    [totalProfit] and moves the loss counter. *)
Example duplicate_settlement_recomputes_totalProfit :
  let s2 := runCalls [("101"%string, 5, true); ("102"%string, -2, false)]
              (sampleState [samplePair] 0) in
  let s3 := applyCall s2 ("102"%string, -7, false) in
  (TradePair.totalProfit <$> TradingState.tradeHistory s2) = [Some (5 + -2)]
  /\ (TradePair.totalProfit <$> TradingState.tradeHistory s3) = [Some (5 + -7)]
  /\ TradingState.consecutiveLosses s2 = 0%nat
  /\ TradingState.consecutiveLosses s3 = 1%nat.
Proof. repeat split. Qed.

(** ** [executeTradePair] records nothing when a leg fails *)

(** C7.  If the price-then-buy sequence of either leg fails,
    [executeTradePair] fails with an error for its caller and the trading
    state (trade history, cumulative profit and loss, consecutive losses)
    is the one before the call. *)
Theorem executeTradePair_atomic_on_failure
    (show : Q -> string) (parseFloat : string -> Js.JsNum)
    (getProposal : TradingEngine.ContractTerms -> TradingEngine.Result TradingEngine.ProposalResponse)
    (buyContract : TradingEngine.BuyContractRequest ->
                   TradingEngine.Result TradingEngine.BuyContractResponse)
    (lowerRejectsFirst : bool)
    (s : TradingState.t) (config : TradeConfig.t) (now : Q) (p : TradingEngine.PendingPair) :
  TradingEngine.beginTradePair show s config now = inr p ->
  TradingEngine.failed
    (TradingEngine.executeSingleTrade show parseFloat getProposal buyContract s
       (TradingEngine.higherTrade p) config) = true
  \/ TradingEngine.failed
       (TradingEngine.executeSingleTrade show parseFloat getProposal buyContract s
          (TradingEngine.lowerTrade p) config) = true ->
  exists err,
    TradingEngine.executeTradePair show parseFloat getProposal buyContract
      lowerRejectsFirst s config now = (inl err, s).
Proof.
  intros Hbegin Hfail. unfold TradingEngine.executeTradePair. rewrite Hbegin.
  destruct (TradingEngine.executeSingleTrade show parseFloat getProposal buyContract s
              (TradingEngine.higherTrade p) config) as [eh|rh];
    destruct (TradingEngine.executeSingleTrade show parseFloat getProposal buyContract s
                (TradingEngine.lowerTrade p) config) as [el|rl];
    cbn [TradingEngine.promiseAll TradingEngine.failed] in *.
  - eexists. reflexivity.
  - eexists. reflexivity.
  - eexists. reflexivity.
  - destruct Hfail; discriminate.
Qed.

Lemma executeTradePair_atomic_on_failure_witness :
  let s := sampleState [samplePair] 1 in
  exists p,
    TradingEngine.beginTradePair showNumber s sampleConfig 1000 = inr p
    /\ TradingEngine.failed
         (TradingEngine.executeSingleTrade showNumber parseNone quoteAll sellCallsOnly s
            (TradingEngine.lowerTrade p) sampleConfig) = true
    /\ TradingEngine.executeTradePair showNumber parseNone quoteAll sellCallsOnly false s
         sampleConfig 1000 = (inl "InsufficientBalance"%string, s).
Proof.
  intros s.
  destruct (TradingEngine.beginTradePair showNumber s sampleConfig 1000) as [err|p] eqn:Hbegin;
    [discriminate Hbegin|].
  exists p.
  assert (TradingEngine.failed
            (TradingEngine.executeSingleTrade showNumber parseNone quoteAll sellCallsOnly s
               (TradingEngine.lowerTrade p) sampleConfig) = true) as Hfail
    by (injection Hbegin as <-; reflexivity).
  destruct (executeTradePair_atomic_on_failure showNumber parseNone quoteAll sellCallsOnly false
              s sampleConfig 1000 p Hbegin (or_intror Hfail)) as [err Herr].
  split; [reflexivity|]. split; [exact Hfail|].
  rewrite Herr. f_equal.
  injection Hbegin as <-. vm_compute in Herr. congruence.
Defined.

(** In the loop the legs settle later: a failure then also records nothing
    (it only ends the cycle). *)
Lemma resumeNextTrade_failure_records_nothing (show : Q -> string) (callNo : nat)
    (higherResult lowerResult : TradingEngine.Result TradingEngine.BuyContractResponse)
    (lowerRejectsFirst : bool) (e : TradingEngine.t) :
  TradingEngine.failed higherResult = true \/ TradingEngine.failed lowerResult = true ->
  let e' := TradingEngine.resumeNextTrade show callNo higherResult lowerResult lowerRejectsFirst e in
  TradingState.tradeHistory (TradingEngine.tradingState e')
  = TradingState.tradeHistory (TradingEngine.tradingState e)
  /\ TradingState.totalProfit (TradingEngine.tradingState e')
     = TradingState.totalProfit (TradingEngine.tradingState e)
  /\ TradingState.totalLoss (TradingEngine.tradingState e')
     = TradingState.totalLoss (TradingEngine.tradingState e)
  /\ TradingState.consecutiveLosses (TradingEngine.tradingState e')
     = TradingState.consecutiveLosses (TradingEngine.tradingState e).
Proof.
  intros Hfail. unfold TradingEngine.resumeNextTrade.
  destruct (TradingEngine.inFlight e !! callNo) as [f|]; [|cbn; auto].
  destruct higherResult, lowerResult; cbn [TradingEngine.promiseAll TradingEngine.failed] in *;
    try (cbn; auto; fail).
  destruct Hfail; discriminate.
Qed.

(** ** The auto-trading loop after [stopAutoTrading] *)

Lemma updatePnL_isTrading (total : Q) (s : TradingState.t) :
  TradingState.isTrading (TradingEngine.updatePnL total s) = TradingState.isTrading s.
Proof. unfold TradingEngine.updatePnL. destruct (Js.ltb 0 total); reflexivity. Qed.

Lemma forEachPair_isTrading (c : string) (x : Q) (w : bool)
    (pairs : list TradePair.t) (s : TradingState.t) :
  TradingState.isTrading (snd (TradingEngine.forEachPair c x w pairs s))
  = TradingState.isTrading s.
Proof.
  induction pairs as [|p rest IH]; cbn [TradingEngine.forEachPair].
  - reflexivity.
  - destruct (TradingEngine.tradeUpdated c p).
    + destruct (TradingEngine.bothCompleted _); cbn [snd];
        [apply updatePnL_isTrading | reflexivity].
    + destruct (TradingEngine.forEachPair c x w rest s) as [rest' s']. exact IH.
Qed.

Lemma updateTradeResult_isTrading (c : string) (x : Q) (w : bool) (s : TradingState.t) :
  TradingState.isTrading (TradingEngine.updateTradeResult c x w s) = TradingState.isTrading s.
Proof.
  unfold TradingEngine.updateTradeResult.
  pose proof (forEachPair_isTrading c x w (TradingState.tradeHistory s) s) as H.
  destruct (TradingEngine.forEachPair _ _ _ _ _) as [pairs s']. exact H.
Qed.

(** While the session is not trading, no event other than a new
    [startAutoTrading] makes it trade or submits a pair. *)
Lemma step_while_stopped (show : Q -> string) (ev : TradingEngine.event) (e : TradingEngine.t) :
  TradingState.isTrading (TradingEngine.tradingState e) = false ->
  TradingEngine.isStart ev = false ->
  TradingState.isTrading (TradingEngine.tradingState (TradingEngine.step show ev e)) = false
  /\ TradingEngine.pairsSubmitted (TradingEngine.step show ev e)
     = TradingEngine.pairsSubmitted e.
Proof.
  intros Hidle Hev.
  destruct ev as [config now| |handle now|callNo hr lr lrf|c x w|amount|balance|quote|market| ];
    cbn [TradingEngine.step TradingEngine.isStart] in *.
  - discriminate Hev.
  - split; reflexivity.
  - destruct (TradingEngine.timers e !! handle) as [[config delay]|]; [|auto].
    unfold TradingEngine.executeNextTrade. cbn [TradingEngine.tradingState].
    rewrite Hidle. cbn. auto.
  - unfold TradingEngine.resumeNextTrade.
    destruct (TradingEngine.inFlight e !! callNo) as [f|]; [|auto].
    destruct (TradingEngine.promiseAll lrf hr lr) as [err|[h l]]; cbn; auto.
  - cbn. rewrite updateTradeResult_isTrading. auto.
  - unfold TradingEngine.setLockedBalance.
    destruct (TradingState.accountInfo (TradingEngine.tradingState e)); cbn; auto.
  - unfold TradingEngine.onBalance.
    destruct (TradingState.accountInfo (TradingEngine.tradingState e)); cbn; auto.
  - unfold TradingEngine.onTick. cbn.
    destruct (TradingState.currentMarket (TradingEngine.tradingState e)); cbn; auto.
  - cbn. auto.
  - cbn. auto.
Qed.

Lemma run_while_stopped (show : Q -> string) (evs : list TradingEngine.event) (e : TradingEngine.t) :
  TradingState.isTrading (TradingEngine.tradingState e) = false ->
  forallb (fun ev => negb (TradingEngine.isStart ev)) evs = true ->
  TradingState.isTrading (TradingEngine.tradingState (TradingEngine.run show evs e)) = false
  /\ TradingEngine.pairsSubmitted (TradingEngine.run show evs e)
     = TradingEngine.pairsSubmitted e.
Proof.
  revert e. induction evs as [|ev evs IH]; intros e Hidle Hevs.
  - auto.
  - cbn [forallb] in Hevs. apply andb_true_iff in Hevs. destruct Hevs as [Hev Hevs].
    apply negb_true_iff in Hev.
    destruct (step_while_stopped show ev e Hidle Hev) as [Hidle' Hsame].
    destruct (IH (TradingEngine.step show ev e) Hidle' Hevs) as [Hfinal Hcount].
    unfold TradingEngine.run in *. cbn [fold_left].
    split; [exact Hfinal | congruence].
Qed.

(** C8.  Once [stopAutoTrading] has returned, whatever happens next (the
    legs of a call in flight settle, a wait timer fires, results and pushes
    arrive), the loop submits no further pair, unless [startAutoTrading] is
    called again.  A pair is submitted when the loop enters
    [executeTradePair]; a call already in flight at the stop runs to its
    end. *)
Theorem stopAutoTrading_ends_submissions
    (show : Q -> string) (e : TradingEngine.t) (evs : list TradingEngine.event) :
  forallb (fun ev => negb (TradingEngine.isStart ev)) evs = true ->
  TradingEngine.pairsSubmitted (TradingEngine.run show evs (TradingEngine.stopAutoTrading e))
  = TradingEngine.pairsSubmitted e
  /\ TradingState.isTrading
       (TradingEngine.tradingState
          (TradingEngine.run show evs (TradingEngine.stopAutoTrading e))) = false.
Proof.
  intros Hevs.
  destruct (run_while_stopped show evs (TradingEngine.stopAutoTrading e) eq_refl Hevs)
    as [Hidle Hcount].
  split; [exact Hcount | exact Hidle].
Qed.

Lemma stopAutoTrading_ends_submissions_witness :
  forallb (fun ev => negb (TradingEngine.isStart ev)) afterStop = true
  /\ TradingEngine.pairsSubmitted stoppedInFlight = 1%nat
  /\ TradingEngine.inFlight stoppedInFlight !! 0%nat <> None
  /\ TradingEngine.pairsSubmitted
       (TradingEngine.run showNumber afterStop (TradingEngine.stopAutoTrading stoppedInFlight))
     = 1%nat.
Proof.
  assert (forallb (fun ev => negb (TradingEngine.isStart ev)) afterStop = true) as H
    by reflexivity.
  split; [exact H|]. split; [reflexivity|]. split; [vm_compute; discriminate|].
  destruct (stopAutoTrading_ends_submissions showNumber stoppedInFlight afterStop H) as [T _].
  rewrite T. reflexivity.
Defined.

(** The call that was in flight at the stop runs to its end: its pair is
    recorded when the legs settle, and it stays the only one. *)
Example call_in_flight_is_recorded_after_stop :
  let e := TradingEngine.run showNumber afterStop (TradingEngine.stopAutoTrading stoppedInFlight) in
  TradingState.tradeHistory (TradingEngine.tradingState stoppedInFlight) = []
  /\ (TradePair.id <$> TradingState.tradeHistory (TradingEngine.tradingState e))
     = ["pair_1000"%string]
  /\ TradingEngine.pairsSubmitted e = 1%nat.
Proof. vm_compute. repeat split. Qed.

(** The same with a wait timer pending at the stop: the stop clears it, and
    the loop does not go on when the handle fires all the same. *)
Example stop_with_timer_pending :
  let e := TradingEngine.run showNumber
             [ TradingEngine.StartAutoTrading sampleConfig 1000;
               TradingEngine.LegsSettled 0 (bought 101) (bought 102) false ]
             (TradingEngine.newEngine (sampleState [] 0)) in
  let e' := TradingEngine.run showNumber
              [ TradingEngine.StopAutoTrading; TradingEngine.TimerFired 1 61000 ] e in
  TradingEngine.tradeTimeout e = Some 1%nat
  /\ TradingEngine.timers e !! 1%nat = Some (sampleConfig, Qmax (60 * 1000) 10000)
  /\ TradingEngine.timers e' = ∅
  /\ TradingEngine.pairsSubmitted e = 1%nat
  /\ TradingEngine.pairsSubmitted e' = 1%nat.
Proof. vm_compute. repeat split. Qed.

(** Without the stop the same timer starts the next pair. *)
Example loop_goes_on_without_stop :
  TradingEngine.pairsSubmitted
    (TradingEngine.run showNumber
       [ TradingEngine.StartAutoTrading sampleConfig 1000;
         TradingEngine.LegsSettled 0 (bought 101) (bought 102) false;
         TradingEngine.TimerFired 1 61000 ]
       (TradingEngine.newEngine (sampleState [] 0))) = 2%nat.
Proof. vm_compute. reflexivity. Qed.

(** ** Request timeouts of the protocol client *)

Lemma send_cases (a : DerivAPI.t) :
  (DerivAPI.log (DerivAPI.send a) = DerivAPI.log a ++ [DerivAPI.Transmit (DerivAPI.requestId a)]
   /\ DerivAPI.callbacks (DerivAPI.send a) = {[DerivAPI.requestId a]} ∪ DerivAPI.callbacks a
   /\ DerivAPI.requestId (DerivAPI.send a) = S (DerivAPI.requestId a))
  \/ (DerivAPI.log (DerivAPI.send a)
      = DerivAPI.log a ++ [DerivAPI.RejectUnsent "WebSocket not connected"]
      /\ DerivAPI.callbacks (DerivAPI.send a) = DerivAPI.callbacks a
      /\ DerivAPI.requestId (DerivAPI.send a) = DerivAPI.requestId a).
Proof.
  unfold DerivAPI.send. destruct (DerivAPI.isOpen a); [left | right]; repeat split.
Qed.

Lemma handleMessage_cases (data : DerivAPI.message) (a : DerivAPI.t) :
  DerivAPI.requestId (DerivAPI.handleMessage data a) = DerivAPI.requestId a
  /\ ((exists kind,
         DerivAPI.log (DerivAPI.handleMessage data a) = DerivAPI.log a ++ [DerivAPI.Deliver kind]
         /\ DerivAPI.callbacks (DerivAPI.handleMessage data a) = DerivAPI.callbacks a)
      \/ (DerivAPI.log (DerivAPI.handleMessage data a) = DerivAPI.log a
          /\ DerivAPI.callbacks (DerivAPI.handleMessage data a) = DerivAPI.callbacks a)
      \/ (exists r eff,
            DerivAPI.req_id data = Some r
            /\ r ∈ DerivAPI.callbacks a
            /\ DerivAPI.log (DerivAPI.handleMessage data a) = DerivAPI.log a ++ [eff]
            /\ (eff = DerivAPI.Resolve r \/ exists reason, eff = DerivAPI.Reject r reason)
            /\ DerivAPI.callbacks (DerivAPI.handleMessage data a)
               = DerivAPI.callbacks a ∖ {[r]})).
Proof.
  unfold DerivAPI.handleMessage.
  destruct (DerivAPI.isPush data "tick" a); [split; [reflexivity|]; left; eexists; split; reflexivity|].
  destruct (DerivAPI.isPush data "balance" a); [split; [reflexivity|]; left; eexists; split; reflexivity|].
  destruct (DerivAPI.isPush data "portfolio" a); [split; [reflexivity|]; left; eexists; split; reflexivity|].
  destruct (DerivAPI.req_id data) as [[|k]|] eqn:Hid;
    try (split; [reflexivity|]; right; left; split; reflexivity).
  destruct (bool_decide (S k ∈ DerivAPI.callbacks a)) eqn:Hin;
    [|split; [reflexivity|]; right; left; split; reflexivity].
  apply bool_decide_eq_true in Hin.
  unfold DerivAPI.callback.
  destruct (DerivAPI.error data) as [text|]; (split; [reflexivity|]); right; right;
    eexists (S k), _; (split; [reflexivity|]); (split; [exact Hin|]);
    (split; [reflexivity|]); (split; [|reflexivity]); eauto.
Qed.

Lemma settles_false_other (reqId r : nat) (eff : DerivAPI.effect) :
  r <> reqId ->
  eff = DerivAPI.Resolve r \/ (exists reason, eff = DerivAPI.Reject r reason) ->
  DerivAPI.settles reqId eff = false.
Proof.
  intros Hne [->|[reason ->]]; cbn; apply Nat.eqb_neq; exact Hne.
Qed.

Lemma send_keeps_log (reqId : nat) (a : DerivAPI.t) :
  (reqId < DerivAPI.requestId a)%nat ->
  exists effs,
    DerivAPI.log (DerivAPI.send a) = DerivAPI.log a ++ effs
    /\ unsettled reqId effs
    /\ (reqId ∈ DerivAPI.callbacks (DerivAPI.send a) <-> reqId ∈ DerivAPI.callbacks a)
    /\ (DerivAPI.requestId a <= DerivAPI.requestId (DerivAPI.send a))%nat.
Proof.
  intros Hlt. destruct (send_cases a) as [(Hl & Hc & Hr)|(Hl & Hc & Hr)];
    eexists; (split; [exact Hl|]); (split; [reflexivity|]); rewrite Hc, Hr.
  - assert (reqId <> DerivAPI.requestId a) by lia.
    split; [|lia]. rewrite elem_of_union, elem_of_singleton. intuition congruence.
  - split; [reflexivity | lia].
Qed.

(** Closes [keeps] for a step that leaves the callbacks alone. *)
Ltac keeps_by effs :=
  exists effs; cbn; rewrite ?app_nil_r;
  split; [reflexivity | split; [reflexivity | split; [reflexivity | lia]]].

(** A step that is not a disconnect, not a message carrying the
    identifier and not the timer of the identifier keeps it. *)
Lemma step_keeps (reqId : nat) (ev : DerivAPI.event) (a : DerivAPI.t) :
  (reqId < DerivAPI.requestId a)%nat ->
  DerivAPI.isDisconnect ev = false ->
  DerivAPI.carries reqId ev = false ->
  DerivAPI.isRequestTimer reqId ev = false ->
  keeps reqId ev a.
Proof.
  intros Hlt Hd Hc Ht. unfold keeps.
  destruct ev as [ | |kind| |sock|sock|data|r|handle|handle];
    cbn [DerivAPI.step DerivAPI.isDisconnect DerivAPI.carries DerivAPI.isRequestTimer] in *.
  - keeps_by [DerivAPI.NewSocket (DerivAPI.nextSocket a)].
  - apply send_keeps_log, Hlt.
  - unfold DerivAPI.subscribe.
    match goal with |- context [DerivAPI.send ?b] =>
      destruct (send_keeps_log reqId b Hlt) as (effs & ? & ? & ? & ?) end.
    exists effs. auto.
  - discriminate Hd.
  - destruct (bool_decide _); keeps_by (@nil DerivAPI.effect).
  - destruct (DerivAPI.sockets a !! sock) as [[]|];
      try (keeps_by (@nil DerivAPI.effect));
      unfold DerivAPI.handleReconnection;
      destruct (Nat.ltb _ _); eexists [_]; cbn;
      (split; [reflexivity | split; [reflexivity | split; [reflexivity | lia]]]).
  - destruct (handleMessage_cases data a)
      as [Hr [(kind & Hl & Hcb)|[(Hl & Hcb)|(r & eff & Hid & Hin & Hl & Heff & Hcb)]]].
    + exists [DerivAPI.Deliver kind]. rewrite Hl, Hcb, Hr.
      split; [reflexivity | split; [reflexivity | split; [reflexivity | lia]]].
    + exists []. rewrite Hl, Hcb, Hr, app_nil_r.
      split; [reflexivity | split; [reflexivity | split; [reflexivity | lia]]].
    + rewrite Hid in Hc. apply Nat.eqb_neq in Hc.
      exists [eff]. rewrite Hl, Hcb, Hr.
      split; [reflexivity|]. split.
      { unfold unsettled. cbn. rewrite (settles_false_other reqId r eff Hc Heff). reflexivity. }
      split; [|lia]. rewrite elem_of_difference, elem_of_singleton. intuition congruence.
  - apply Nat.eqb_neq in Ht. unfold DerivAPI.requestTimeout.
    destruct (bool_decide _).
    + eexists [_]. cbn. split; [reflexivity|]. split.
      { unfold unsettled. cbn. apply Nat.eqb_neq in Ht. rewrite Ht. reflexivity. }
      split; [|lia]. rewrite elem_of_difference, elem_of_singleton. intuition congruence.
    + keeps_by (@nil DerivAPI.effect).
  - destruct (bool_decide _);
      [keeps_by [DerivAPI.NewSocket (DerivAPI.nextSocket a)] | keeps_by (@nil DerivAPI.effect)].
  - destruct (bool_decide _); [|keeps_by (@nil DerivAPI.effect)].
    unfold DerivAPI.heartbeat.
    destruct (DerivAPI.isOpen a); [apply send_keeps_log, Hlt|].
    keeps_by (@nil DerivAPI.effect).
Qed.

Lemma unsettled_app (reqId : nat) (xs ys : list DerivAPI.effect) :
  unsettled reqId xs -> unsettled reqId ys -> unsettled reqId (xs ++ ys).
Proof.
  unfold unsettled. intros Hx Hy. rewrite forallb_app, Hx, Hy. reflexivity.
Qed.

(** While nothing answers, times out or disconnects, the call stays
    pending and unsettled. *)
Lemma run_keeps (reqId : nat) (evs : list DerivAPI.event) (a : DerivAPI.t) :
  (reqId < DerivAPI.requestId a)%nat ->
  forallb (quietStep reqId) evs = true ->
  exists effs,
    DerivAPI.log (DerivAPI.run evs a) = DerivAPI.log a ++ effs
    /\ unsettled reqId effs
    /\ (reqId ∈ DerivAPI.callbacks (DerivAPI.run evs a) <-> reqId ∈ DerivAPI.callbacks a)
    /\ (DerivAPI.requestId a <= DerivAPI.requestId (DerivAPI.run evs a))%nat.
Proof.
  revert a. induction evs as [|ev evs IH]; intros a Hlt Hevs.
  - exists []. rewrite app_nil_r. cbn. split; [reflexivity|]. split; [reflexivity|].
    split; [reflexivity | lia].
  - cbn [forallb] in Hevs. apply andb_true_iff in Hevs. destruct Hevs as [Hev Hevs].
    unfold quietStep in Hev. rewrite !andb_true_iff, !negb_true_iff in Hev.
    destruct Hev as [[Hd Hc] Ht].
    destruct (step_keeps reqId ev a Hlt Hd Hc Ht) as (effs1 & Hl1 & Hu1 & Hc1 & Hr1).
    destruct (IH (DerivAPI.step ev a) ltac:(lia) Hevs) as (effs2 & Hl2 & Hu2 & Hc2 & Hr2).
    exists (effs1 ++ effs2). unfold DerivAPI.run in *. cbn [fold_left].
    rewrite Hl2, Hl1, <- app_assoc.
    split; [reflexivity|]. split; [apply unsettled_app; assumption|].
    split; [tauto | lia].
Qed.

(** Once the entry of a call is gone and its identifier is behind the
    counter, no step settles the call or brings the entry back. *)
Lemma step_forgotten (reqId : nat) (ev : DerivAPI.event) (a : DerivAPI.t) :
  reqId ∉ DerivAPI.callbacks a ->
  (reqId < DerivAPI.requestId a)%nat ->
  exists effs,
    DerivAPI.log (DerivAPI.step ev a) = DerivAPI.log a ++ effs
    /\ unsettled reqId effs
    /\ (reqId ∉ DerivAPI.callbacks (DerivAPI.step ev a))
    /\ (reqId < DerivAPI.requestId (DerivAPI.step ev a))%nat.
Proof.
  intros Hout Hlt.
  destruct (DerivAPI.isDisconnect ev) eqn:Hd.
  { destruct ev; try discriminate Hd. cbn [DerivAPI.step]. unfold DerivAPI.disconnect.
    destruct (DerivAPI.ws a) as [sock|].
    - eexists [_]. cbn. split; [reflexivity|]. split; [reflexivity|].
      split; [apply not_elem_of_empty | exact Hlt].
    - exists []. cbn. rewrite app_nil_r. split; [reflexivity|]. split; [reflexivity|].
      split; [apply not_elem_of_empty | exact Hlt]. }
  destruct (DerivAPI.isRequestTimer reqId ev) eqn:Ht.
  { destruct ev as [ | | | | | | |r| | ]; try discriminate Ht.
    cbn in Ht. apply Nat.eqb_eq in Ht. subst r.
    cbn [DerivAPI.step]. unfold DerivAPI.requestTimeout.
    rewrite bool_decide_eq_false_2 by exact Hout.
    exists []. rewrite app_nil_r. split; [reflexivity|]. split; [reflexivity|]. auto. }
  destruct (DerivAPI.carries reqId ev) eqn:Hc.
  { destruct ev as [ | | | | | |data| | | ]; try discriminate Hc.
    cbn in Hc. destruct (DerivAPI.req_id data) as [r0|] eqn:Hid; [|discriminate Hc].
    apply Nat.eqb_eq in Hc. subst r0.
    cbn [DerivAPI.step].
    destruct (handleMessage_cases data a)
      as [Hr [(kind & Hl & Hcb)|[(Hl & Hcb)|(r & eff & Hid' & Hin & _)]]].
    - exists [DerivAPI.Deliver kind]. rewrite Hl, Hcb, Hr.
      split; [reflexivity|]. split; [reflexivity|]. auto.
    - exists []. rewrite Hl, Hcb, Hr, app_nil_r.
      split; [reflexivity|]. split; [reflexivity|]. auto.
    - exfalso. rewrite Hid in Hid'. injection Hid' as <-. exact (Hout Hin). }
  destruct (step_keeps reqId ev a Hlt Hd Hc Ht) as (effs & Hl & Hu & Hcb & Hr).
  exists effs. split; [exact Hl|]. split; [exact Hu|]. split; [tauto | lia].
Qed.

Lemma run_forgotten (reqId : nat) (evs : list DerivAPI.event) (a : DerivAPI.t) :
  reqId ∉ DerivAPI.callbacks a ->
  (reqId < DerivAPI.requestId a)%nat ->
  exists effs,
    DerivAPI.log (DerivAPI.run evs a) = DerivAPI.log a ++ effs
    /\ unsettled reqId effs
    /\ reqId ∉ DerivAPI.callbacks (DerivAPI.run evs a).
Proof.
  revert a. induction evs as [|ev evs IH]; intros a Hout Hlt.
  - exists []. rewrite app_nil_r. cbn.
    split; [reflexivity|]. split; [reflexivity | exact Hout].
  - destruct (step_forgotten reqId ev a Hout Hlt) as (effs1 & Hl1 & Hu1 & Hout1 & Hlt1).
    destruct (IH (DerivAPI.step ev a) Hout1 Hlt1) as (effs2 & Hl2 & Hu2 & Hout2).
    exists (effs1 ++ effs2). unfold DerivAPI.run in *. cbn [fold_left].
    rewrite Hl2, Hl1, <- app_assoc.
    split; [reflexivity|]. split; [apply unsettled_app; assumption | exact Hout2].
Qed.

(** C9, as amended.  A call that [send] transmits on an open socket gets
    the next identifier.  If no message carrying that identifier is received
    and [disconnect] is not called before the call's 30 s timer fires, the
    timer rejects the call with "Request timeout" and removes its entry;
    from then on nothing settles the call again, whatever arrives: a late
    reply with the identifier reaches no callback. *)
Theorem request_timeout_rejects_and_forgets
    (a : DerivAPI.t) (pre post : list DerivAPI.event) :
  DerivAPI.isOpen a = true ->
  forallb (quietStep (DerivAPI.requestId a)) pre = true ->
  let reqId := DerivAPI.requestId a in
  let a1 := DerivAPI.run pre (DerivAPI.send a) in
  let a2 := DerivAPI.step (DerivAPI.RequestTimer reqId) a1 in
  let a3 := DerivAPI.run post a2 in
  (exists effs,
     DerivAPI.log a1 = DerivAPI.log a ++ DerivAPI.Transmit reqId :: effs
     /\ unsettled reqId effs)
  /\ DerivAPI.log a2 = DerivAPI.log a1 ++ [DerivAPI.Reject reqId "Request timeout"]
  /\ (reqId ∉ DerivAPI.callbacks a2)
  /\ (exists effs, DerivAPI.log a3 = DerivAPI.log a2 ++ effs /\ unsettled reqId effs)
  /\ reqId ∉ DerivAPI.callbacks a3.
Proof.
  intros Hopen Hpre reqId a1 a2 a3.
  assert (DerivAPI.log (DerivAPI.send a) = DerivAPI.log a ++ [DerivAPI.Transmit reqId]
          /\ DerivAPI.callbacks (DerivAPI.send a) = {[reqId]} ∪ DerivAPI.callbacks a
          /\ DerivAPI.requestId (DerivAPI.send a) = S reqId) as (Hl0 & Hc0 & Hr0).
  { unfold DerivAPI.send. rewrite Hopen. repeat split. }
  destruct (run_keeps reqId pre (DerivAPI.send a) ltac:(lia) Hpre)
    as (effs & Hl1 & Hu1 & Hc1 & Hr1).
  fold a1 in Hl1, Hc1, Hr1.
  assert (reqId ∈ DerivAPI.callbacks a1) as Hin.
  { apply Hc1. rewrite Hc0. apply elem_of_union_l, elem_of_singleton. reflexivity. }
  assert (DerivAPI.log a2 = DerivAPI.log a1 ++ [DerivAPI.Reject reqId "Request timeout"]
          /\ DerivAPI.callbacks a2 = DerivAPI.callbacks a1 ∖ {[reqId]}
          /\ DerivAPI.requestId a2 = DerivAPI.requestId a1) as (Hl2 & Hc2 & Hr2).
  { subst a2. cbn [DerivAPI.step]. unfold DerivAPI.requestTimeout.
    rewrite bool_decide_eq_true_2 by exact Hin. repeat split. }
  assert (reqId ∉ DerivAPI.callbacks a2) as Hout.
  { rewrite Hc2, elem_of_difference, elem_of_singleton. tauto. }
  destruct (run_forgotten reqId post a2 Hout ltac:(lia)) as (effs3 & Hl3 & Hu3 & Hout3).
  fold a3 in Hl3, Hout3.
  split.
  { exists effs. rewrite Hl1, Hl0, <- app_assoc. split; [reflexivity | exact Hu1]. }
  split; [exact Hl2|]. split; [exact Hout|].
  split; [exists effs3; split; assumption | exact Hout3].
Qed.

Lemma request_timeout_rejects_and_forgets_witness :
  let pre := [DerivAPI.Send; DerivAPI.MessageReceived otherReply; DerivAPI.HeartbeatTimer 1] in
  let post := [DerivAPI.MessageReceived lateReply; DerivAPI.RequestTimer 1] in
  let reqId := DerivAPI.requestId connected in
  let a2 := DerivAPI.step (DerivAPI.RequestTimer reqId) (DerivAPI.run pre (DerivAPI.send connected)) in
  DerivAPI.isOpen connected = true
  /\ reqId = 1%nat
  /\ forallb (quietStep reqId) pre = true
  /\ DerivAPI.log a2
     = [ DerivAPI.NewSocket 0; DerivAPI.Transmit 1; DerivAPI.Transmit 2; DerivAPI.Resolve 2;
         DerivAPI.Transmit 3; DerivAPI.Reject 1 "Request timeout" ]
  /\ (exists effs, DerivAPI.log (DerivAPI.run post a2) = DerivAPI.log a2 ++ effs
                   /\ unsettled reqId effs)
  /\ DerivAPI.log (DerivAPI.run post a2) = DerivAPI.log a2.
Proof.
  intros pre post reqId a2.
  assert (DerivAPI.isOpen connected = true) as H1 by (vm_compute; reflexivity).
  assert (forallb (quietStep reqId) pre = true) as H2 by (vm_compute; reflexivity).
  destruct (request_timeout_rejects_and_forgets connected pre post H1 H2)
    as (_ & _ & _ & T & _).
  split; [exact H1|]. split; [vm_compute; reflexivity|]. split; [exact H2|].
  split; [vm_compute; reflexivity|]. split; [exact T|].
  vm_compute. reflexivity.
Defined.

(** C9 as stated fails when [disconnect] comes before the timer: the
    entry is cleared without being called, the timer finds nothing, and the
    call is never rejected, with a timeout or otherwise. *)
Lemma disconnect_leaves_call_unsettled :
  let a := DerivAPI.run [DerivAPI.Send; DerivAPI.Disconnect; DerivAPI.RequestTimer 1] connected in
  DerivAPI.isOpen connected = true
  /\ DerivAPI.log a = [DerivAPI.NewSocket 0; DerivAPI.Transmit 1; DerivAPI.CloseSocket 0]
  /\ ~ In (DerivAPI.Reject 1 "Request timeout") (DerivAPI.log a)
  /\ unsettled 1 (DerivAPI.log a).
Proof.
  split; [reflexivity|]. split; [reflexivity|].
  split; [|reflexivity].
  cbn. intros [H|[H|[H|[]]]]; discriminate H.
Qed.

(** ** Reconnection with backoff *)


Lemma handleMessage_frame (data : DerivAPI.message) (a : DerivAPI.t) :
  DerivAPI.reconnectAttempts (DerivAPI.handleMessage data a) = DerivAPI.reconnectAttempts a
  /\ DerivAPI.reconnectTimers (DerivAPI.handleMessage data a) = DerivAPI.reconnectTimers a
  /\ DerivAPI.sockets (DerivAPI.handleMessage data a) = DerivAPI.sockets a
  /\ exists effs, DerivAPI.log (DerivAPI.handleMessage data a) = DerivAPI.log a ++ effs
                  /\ noNewSocket effs.
Proof.
  unfold DerivAPI.handleMessage.
  repeat match goal with
         | |- context [if DerivAPI.isPush ?d ?k ?x then _ else _] =>
             destruct (DerivAPI.isPush d k x);
             [cbn; repeat (split; [reflexivity|]); eexists [_]; split; reflexivity|]
         end.
  destruct (DerivAPI.req_id data) as [[|k]|];
    try (repeat (split; [reflexivity|]); exists []; rewrite app_nil_r; split; reflexivity).
  destruct (bool_decide _);
    [|repeat (split; [reflexivity|]); exists []; rewrite app_nil_r; split; reflexivity].
  unfold DerivAPI.callback.
  destruct (DerivAPI.error data); cbn;
    repeat (split; [reflexivity|]); eexists [_]; split; reflexivity.
Qed.



















(** The report can also come while a backoff timer of the other chain is
    still armed: the timer then opens a socket after the report. *)
Example report_with_a_timer_still_armed :
  let a := DerivAPI.run
             [ DerivAPI.Connect; DerivAPI.Connect;
               DerivAPI.SocketClosed 0; DerivAPI.SocketClosed 1;
               DerivAPI.ReconnectTimer 1; DerivAPI.SocketClosed 2;
               DerivAPI.ReconnectTimer 2; DerivAPI.SocketClosed 3;
               DerivAPI.ReconnectTimer 3; DerivAPI.SocketClosed 4;
               DerivAPI.ReconnectTimer 4; DerivAPI.SocketClosed 5 ]
             DerivAPI.newApi in
  last (DerivAPI.log a) = Some (DerivAPI.ConsoleError "Max reconnection attempts reached")
  /\ DerivAPI.log (DerivAPI.step (DerivAPI.ReconnectTimer 5) a)
     = DerivAPI.log a ++ [DerivAPI.NewSocket 6].
Proof. split; vm_compute; reflexivity. Qed.

(** * Further properties of the code *)

(** ** Risk calculator *)

(** X1.  For a multiplier between 0 and 2 the safety break of
    [calculateMartingaleSequenceRisk] does not cut the sequence short: with
    five levels the risk is the whole geometric sum of six terms. *)
Theorem calculateMartingaleSequenceRisk_geometric (baseStake m : Q) :
  0 <= baseStake -> 0 <= m -> m <= 2 ->
  RiskCalculator.calculateMartingaleSequenceRisk baseStake m 5
  == baseStake * (1 + m + m ^ 2 + m ^ 3 + m ^ 4 + m ^ 5).
Proof.
  intros Hb Hm0 Hm2.
  assert (0 <= m * m /\ m * m <= 4) as [H2a H2b] by (split; nra).
  assert (0 <= m * m * m /\ m * m * m <= 8) as [H3a H3b] by (split; nra).
  assert (0 <= m * m * m * m /\ m * m * m * m <= 16) as [H4a H4b] by (split; nra).
  assert (0 <= m * m * m * m * m /\ m * m * m * m * m <= 32) as [H5a H5b] by (split; nra).
  unfold RiskCalculator.calculateMartingaleSequenceRisk.
  cbn [RiskCalculator.sequenceLoop].
  assert (Js.ltb (baseStake * 32) (baseStake * m) = false) as ->
    by (apply ltb_false; nra).
  assert (Js.ltb (baseStake * 32) (baseStake * m * m) = false) as ->
    by (apply ltb_false; nra).
  assert (Js.ltb (baseStake * 32) (baseStake * m * m * m) = false) as ->
    by (apply ltb_false; nra).
  assert (Js.ltb (baseStake * 32) (baseStake * m * m * m * m) = false) as ->
    by (apply ltb_false; nra).
  assert (Js.ltb (baseStake * 32) (baseStake * m * m * m * m * m) = false) as ->
    by (apply ltb_false; nra).
  destruct (Js.ltb _ _); ring.
Qed.

Lemma calculateMartingaleSequenceRisk_geometric_witness :
  0 <= 1 /\ 0 <= 2 /\ 2 <= 2
  /\ RiskCalculator.calculateMartingaleSequenceRisk 1 2 5
     == 1 * (1 + 2 + 2 ^ 2 + 2 ^ 3 + 2 ^ 4 + 2 ^ 5).
Proof.
  split; [discriminate|]. split; [discriminate|]. split; [discriminate|].
  apply (calculateMartingaleSequenceRisk_geometric 1 2); discriminate.
Defined.

Lemma toFixed2_le_2000 (x : Q) : 0 <= x -> x <= 2000 -> Js.toFixed2 x <= 2000.
Proof.
  intros H0 Hhi. unfold Js.toFixed2.
  assert (Qabs x == x) as Habs by (apply Qabs_pos; exact H0).
  assert (Js.leb (inject_Z (10 ^ 21)) (Qabs x) = false) as ->.
  { apply leb_false. rewrite Habs.
    apply Qle_lt_trans with 2000; [exact Hhi | reflexivity]. }
  assert (Js.ltb x 0 = false) as -> by (apply ltb_false; exact H0).
  assert (Qfloor (Qabs x * 100 + (1 # 2)) <= 200000)%Z as Hn.
  { change 200000%Z with (Qfloor (2000 * 100 + (1 # 2))).
    apply Qfloor_resp_le. rewrite Habs. lra. }
  apply Qle_shift_div_r; [reflexivity|].
  rewrite Zle_Qle in Hn. change (inject_Z 200000) with 200000 in Hn. lra.
Qed.

(** X2.  With a multiplier that is not negative, [calculateRecommendedStake]
    always returns a number, and that stake is inside the stake limits of
    every market of [MARKET_CONFIGS] (0.35 to 2000), rounding included. *)
Theorem recommendedStake_within_market_limits (acc : AccountInfo.t) (risk m : Q) :
  0 <= m ->
  exists f,
    RiskCalculation.recommendedStake (RiskCalculator.calculateRecommendedStake acc risk m)
    = Js.Fin f
    /\ Forall (withinStakeLimits f) MARKET_CONFIGS.
Proof.
  intros Hm.
  destruct (finalStake_finite acc risk m Hm) as [f0 Hf0].
  destruct (finalStake_cases acc risk m) as [(Hnan & _)|(f1 & Hf1 & Hlo & Hhi)];
    [congruence|].
  rewrite Hf0 in Hf1. injection Hf1 as <-.
  assert (f0 <= 2000) as H2000.
  { unfold RiskCalculator.minStake in Hhi.
    set (cap := Qmin 2000 (AccountInfo.availableBalance acc / 4)) in *.
    assert (cap <= 2000) by apply Q.le_min_l.
    destruct (Q.max_spec 0.35 cap) as [[_ E]|[_ E]]; rewrite E in Hhi; lra. }
  pose proof (toFixed2_minStake f0 Hlo H2000) as Hmin.
  unfold RiskCalculator.minStake in Hlo, Hmin.
  pose proof (toFixed2_le_2000 f0 ltac:(lra) H2000) as Hmax.
  exists (Js.toFixed2 f0). split.
  - destruct (calculateRecommendedStake_finalStake acc risk m) as [Hrec _].
    cbv zeta in Hrec. rewrite Hrec, Hf0. reflexivity.
  - unfold MARKET_CONFIGS.
    repeat constructor; cbn; assumption.
Qed.

Lemma recommendedStake_within_market_limits_witness :
  0 <= 2
  /\ exists f,
       RiskCalculation.recommendedStake (RiskCalculator.calculateRecommendedStake (account 100) 50 2)
       = Js.Fin f
       /\ Forall (withinStakeLimits f) MARKET_CONFIGS.
Proof.
  split; [discriminate|].
  apply (recommendedStake_within_market_limits (account 100) 50 2). discriminate.
Defined.

Lemma calculateMartingaleStake_le (base m : Q) (n1 n2 : nat) :
  0 < base -> 1 <= m -> (n1 <= n2)%nat ->
  RiskCalculator.calculateMartingaleStake base n1 m RiskCalculator.default_maxMultiplier
  <= RiskCalculator.calculateMartingaleStake base n2 m RiskCalculator.default_maxMultiplier.
Proof.
  intros Hb Hm Hle. induction Hle as [|k _ IH].
  - apply Qle_refl.
  - eapply Qle_trans; [exact IH|]. apply calculateMartingaleStake_succ; assumption.
Qed.

(** X3.  Affordability only gets harder along a losing streak and easier
    with more money: for a positive stake and a multiplier of at least 1,
    if [canExecuteTrade] accepts after [n2] consecutive losses it accepts
    after any smaller number, on any account with at least as much
    available. *)
Theorem canExecuteTrade_monotone (acc acc' : AccountInfo.t) (config : TradeConfig.t)
    (n1 n2 : nat) :
  0 < TradeConfig.stake config ->
  1 <= TradeConfig.martingaleMultiplier config ->
  (n1 <= n2)%nat ->
  AccountInfo.availableBalance acc <= AccountInfo.availableBalance acc' ->
  RiskCalculator.canExecuteTrade acc config n2 = true ->
  RiskCalculator.canExecuteTrade acc' config n1 = true.
Proof.
  intros Hs Hm Hn Hacc Hcan. unfold RiskCalculator.canExecuteTrade in *.
  apply leb_true in Hcan. apply leb_true.
  pose proof (calculateMartingaleStake_le _ _ n1 n2 Hs Hm Hn) as Hle.
  lra.
Qed.

Lemma canExecuteTrade_monotone_witness :
  0 < TradeConfig.stake sampleConfig
  /\ 1 <= TradeConfig.martingaleMultiplier sampleConfig
  /\ (1 <= 3)%nat
  /\ AccountInfo.availableBalance (account 20) <= AccountInfo.availableBalance (account 100)
  /\ RiskCalculator.canExecuteTrade (account 20) sampleConfig 3 = true
  /\ RiskCalculator.canExecuteTrade (account 100) sampleConfig 1 = true.
Proof.
  assert (0 < TradeConfig.stake sampleConfig) as H1 by reflexivity.
  assert (1 <= TradeConfig.martingaleMultiplier sampleConfig) as H2 by discriminate.
  assert (1 <= 3)%nat as H3 by lia.
  assert (AccountInfo.availableBalance (account 20) <= AccountInfo.availableBalance (account 100))
    as H4 by discriminate.
  assert (RiskCalculator.canExecuteTrade (account 20) sampleConfig 3 = true) as H5
    by reflexivity.
  split; [exact H1|]. split; [exact H2|]. split; [exact H3|]. split; [exact H4|].
  split; [exact H5|].
  exact (canExecuteTrade_monotone (account 20) (account 100) sampleConfig 1 3 H1 H2 H3 H4 H5).
Defined.

(** X4.  The engine's own affordability check and the risk calculator's
    give the same answer whenever the configured stake is not negative. *)
Theorem canExecuteTrade_engine_agrees (s : TradingState.t) (acc : AccountInfo.t)
    (config : TradeConfig.t) :
  TradingState.accountInfo s = Some acc ->
  0 <= TradeConfig.stake config ->
  TradingEngine.canExecuteTrade s config
  = RiskCalculator.canExecuteTrade acc config (TradingState.consecutiveLosses s).
Proof.
  intros Hacc Hs. unfold TradingEngine.canExecuteTrade, RiskCalculator.canExecuteTrade.
  rewrite Hacc. apply leb_comp; [|reflexivity].
  rewrite (calculateStakeWithMartingale_agrees s config Hs). reflexivity.
Qed.

Lemma canExecuteTrade_engine_agrees_witness :
  TradingState.accountInfo (sampleState [] 2) = Some (account 100)
  /\ 0 <= TradeConfig.stake sampleConfig
  /\ TradingEngine.canExecuteTrade (sampleState [] 2) sampleConfig
     = RiskCalculator.canExecuteTrade (account 100) sampleConfig 2.
Proof.
  split; [reflexivity|]. split; [discriminate|].
  apply (canExecuteTrade_engine_agrees (sampleState [] 2) (account 100) sampleConfig);
    [reflexivity | discriminate].
Defined.

(** With a negative stake the two checks can disagree: the engine caps the
    stake at ten times a negative number also when nothing was lost. *)
Example canExecuteTrade_engine_differs_on_negative_stake :
  let config := TradeConfig.mk (-1) 2 60 1 1 "R_10" 50 0 in
  let s := TradingEngine.set_accountInfo (Some (account (-5))) (sampleState [] 0) in
  TradingEngine.canExecuteTrade s config = true
  /\ RiskCalculator.canExecuteTrade (account (-5)) config 0 = false.
Proof. split; reflexivity. Qed.





(** X6.  [calculateOptimalRiskPercentage] never rises with the balance
    and stays between 2 and 10. *)
Theorem calculateOptimalRiskPercentage_antitone (b1 b2 : Q) :
  b1 <= b2 ->
  RiskCalculator.calculateOptimalRiskPercentage b2
  <= RiskCalculator.calculateOptimalRiskPercentage b1
  /\ 2 <= RiskCalculator.calculateOptimalRiskPercentage b2
  /\ RiskCalculator.calculateOptimalRiskPercentage b1 <= 10.
Proof.
  intros Hle. unfold RiskCalculator.calculateOptimalRiskPercentage.
  destruct (Js.ltb b1 100) eqn:E1; destruct (Js.ltb b1 1000) eqn:E2;
    destruct (Js.ltb b1 10000) eqn:E3;
    destruct (Js.ltb b2 100) eqn:F1; destruct (Js.ltb b2 1000) eqn:F2;
    destruct (Js.ltb b2 10000) eqn:F3;
    rewrite ?ltb_true, ?ltb_false in *;
    repeat split; try discriminate; exfalso; lra.
Qed.

Lemma calculateOptimalRiskPercentage_antitone_witness :
  50 <= 5000
  /\ RiskCalculator.calculateOptimalRiskPercentage 5000
     <= RiskCalculator.calculateOptimalRiskPercentage 50.
Proof.
  split; [discriminate|].
  apply (calculateOptimalRiskPercentage_antitone 50 5000). discriminate.
Defined.

Lemma ratio_bounds (part whole : Q) :
  0 < whole -> 0 <= part -> part <= whole ->
  0 <= part / whole * 100 /\ part / whole * 100 <= 100.
Proof.
  intros Hw H0 H1.
  assert (part / whole * whole == part) as E by (field; lra).
  set (r := part / whole) in *.
  split; nra.
Qed.

(** X7.  [calculateWinRate] is 0 when no trade was made, and a percentage
    between 0 and 100 when the wins are between 0 and the number of
    trades. *)
Theorem calculateWinRate_percentage (winCount totalTrades : Q) :
  0 <= winCount -> winCount <= totalTrades ->
  0 <= RiskCalculator.calculateWinRate winCount totalTrades
  /\ RiskCalculator.calculateWinRate winCount totalTrades <= 100
  /\ (totalTrades == 0 -> RiskCalculator.calculateWinRate winCount totalTrades = 0).
Proof.
  intros H0 H1. unfold RiskCalculator.calculateWinRate.
  destruct (Qeq_bool totalTrades 0) eqn:E.
  - split; [discriminate|]. split; [discriminate | reflexivity].
  - apply Qeq_bool_neq in E.
    destruct (ratio_bounds winCount totalTrades ltac:(lra) H0 H1) as [Hlo Hhi].
    split; [exact Hlo|]. split; [exact Hhi | contradiction].
Qed.

Lemma calculateWinRate_percentage_witness :
  0 <= 3 /\ 3 <= 4
  /\ 0 <= RiskCalculator.calculateWinRate 3 4
  /\ RiskCalculator.calculateWinRate 3 4 <= 100
  /\ RiskCalculator.calculateWinRate 3 4 == 75
  /\ RiskCalculator.calculateWinRate 0 0 = 0.
Proof.
  destruct (calculateWinRate_percentage 3 4) as (Hlo & Hhi & _); [discriminate .. |].
  destruct (calculateWinRate_percentage 0 0) as (_ & _ & Hzero); [discriminate .. |].
  split; [discriminate|]. split; [discriminate|]. split; [exact Hlo|]. split; [exact Hhi|].
  split; [reflexivity|]. apply Hzero. reflexivity.
Defined.

(** X8.  [calculateMaxDrawdown] is 0 for a peak of 0 and, for a positive
    peak, a percentage between 0 and 100 while the balance is between 0 and
    the peak; above the peak it is negative. *)
Theorem calculateMaxDrawdown_percentage (peakBalance currentBalance : Q) :
  0 < peakBalance ->
  (0 <= currentBalance -> currentBalance <= peakBalance ->
   0 <= RiskCalculator.calculateMaxDrawdown peakBalance currentBalance
   /\ RiskCalculator.calculateMaxDrawdown peakBalance currentBalance <= 100)
  /\ (peakBalance < currentBalance ->
      RiskCalculator.calculateMaxDrawdown peakBalance currentBalance < 0)
  /\ RiskCalculator.calculateMaxDrawdown 0 currentBalance = 0.
Proof.
  intros Hp. unfold RiskCalculator.calculateMaxDrawdown.
  assert (Qeq_bool peakBalance 0 = false) as ->.
  { destruct (Qeq_bool peakBalance 0) eqn:E; [|reflexivity].
    apply Qeq_bool_iff in E. lra. }
  split; [|split; [|reflexivity]].
  - intros H0 H1. apply ratio_bounds; lra.
  - intros Habove.
    assert ((peakBalance - currentBalance) / peakBalance * peakBalance
            == peakBalance - currentBalance) as E by (field; lra).
    set (r := (peakBalance - currentBalance) / peakBalance) in *. nra.
Qed.

Lemma calculateMaxDrawdown_percentage_witness :
  0 < 200
  /\ 0 <= RiskCalculator.calculateMaxDrawdown 200 150
  /\ RiskCalculator.calculateMaxDrawdown 200 150 <= 100
  /\ RiskCalculator.calculateMaxDrawdown 200 150 == 25
  /\ RiskCalculator.calculateMaxDrawdown 200 250 < 0.
Proof.
  assert (0 < 200) as Hp by reflexivity.
  destruct (calculateMaxDrawdown_percentage 200 150 Hp) as (Hin & _ & _).
  destruct (calculateMaxDrawdown_percentage 200 250 Hp) as (_ & Hout & _).
  destruct Hin as [Hlo Hhi]; [discriminate | discriminate |].
  split; [exact Hp|]. split; [exact Hlo|]. split; [exact Hhi|].
  split; [reflexivity|]. apply Hout. reflexivity.
Defined.

(** X9.  [calculateTimeToDoubleBalance] does what its name says: at a
    positive hourly profit it returns the finite number of hours after
    which the profit made equals the balance, so that the balance has
    doubled; at a zero or negative profit it returns [Infinity]. *)
Theorem calculateTimeToDoubleBalance_doubles (currentBalance profitPerHour : Q) :
  (0 < profitPerHour ->
   exists hours,
     RiskCalculator.calculateTimeToDoubleBalance currentBalance profitPerHour = Js.Fin hours
     /\ currentBalance + hours * profitPerHour == 2 * currentBalance
     /\ (0 <= currentBalance -> 0 <= hours))
  /\ (profitPerHour <= 0 ->
      RiskCalculator.calculateTimeToDoubleBalance currentBalance profitPerHour = Js.PosInf).
Proof.
  unfold RiskCalculator.calculateTimeToDoubleBalance. split; intros Hp.
  - destruct (Js.leb profitPerHour 0) eqn:E; [apply leb_true in E; lra|].
    eexists. split; [reflexivity|]. split.
    + field. lra.
    + intros Hb. apply Qle_shift_div_l; lra.
  - destruct (Js.leb profitPerHour 0) eqn:E; [reflexivity|]. apply leb_false in E. lra.
Qed.

(** ** Trading engine *)

Lemma clamp_between (lo hi x : Q) :
  lo <= hi -> lo <= Qmax lo (Qmin hi x) /\ Qmax lo (Qmin hi x) <= hi.
Proof.
  intros Hle. split; [apply Q.le_max_l|].
  apply Q.max_lub; [exact Hle | apply Q.le_min_l].
Qed.

Lemma clamped_barriers_validate (show : Q -> string) (lo hi p n : Q) :
  usableBarriers lo hi ->
  lo <= p -> p <= hi -> lo <= n -> n <= hi ->
  RiskCalculator.validateBarriers show p (- n) lo hi
  = {| RiskCalculator.isValid := true; RiskCalculator.errors := [] |}.
Proof.
  intros [Hpos Hle] Hp1 Hp2 Hn1 Hn2.
  assert (RiskCalculator.errors (RiskCalculator.validateBarriers show p (- n) lo hi) = [])
    as Hnil.
  { apply validateBarriers_nil. unfold barriersViolated.
    assert (Qabs p == p) as Ep by (apply Qabs_pos; lra).
    assert (Qabs (- n) == n) as En by (rewrite Qabs_opp; apply Qabs_pos; lra).
    rewrite Ep, En. lra. }
  pose proof (proj2 (validateBarriers_isValid show p (- n) lo hi) Hnil) as Hvalid.
  destruct (RiskCalculator.validateBarriers show p (- n) lo hi) as [valid errs].
  cbn in Hnil, Hvalid. subst. reflexivity.
Qed.

(** X11.  On a market whose barrier limits are usable, the barriers that
    [calculateBarriers] hands to the legs lie inside the limits with the
    right signs, whatever the configuration holds, and
    [RiskCalculator.validateBarriers] accepts them. *)
Theorem calculateBarriers_valid (show : Q -> string) (s : TradingState.t)
    (market : MarketData.t) (positiveBarrier negativeBarrier : Q) :
  TradingState.currentMarket s = Some market ->
  usableBarriers (MarketData.minBarrier market) (MarketData.maxBarrier market) ->
  let barriers := TradingEngine.calculateBarriers s positiveBarrier negativeBarrier in
  (MarketData.minBarrier market <= fst barriers
   /\ fst barriers <= MarketData.maxBarrier market)
  /\ (- MarketData.maxBarrier market <= snd barriers
      /\ snd barriers <= - MarketData.minBarrier market)
  /\ RiskCalculator.validateBarriers show (fst barriers) (snd barriers)
       (MarketData.minBarrier market) (MarketData.maxBarrier market)
     = {| RiskCalculator.isValid := true; RiskCalculator.errors := [] |}.
Proof.
  intros Hm Hu barriers. subst barriers.
  unfold TradingEngine.calculateBarriers. rewrite Hm. cbn [fst snd].
  set (lo := MarketData.minBarrier market) in *.
  set (hi := MarketData.maxBarrier market) in *.
  destruct (clamp_between lo hi (Qabs positiveBarrier) (proj2 Hu)) as [Hp1 Hp2].
  destruct (clamp_between lo hi (Qabs negativeBarrier) (proj2 Hu)) as [Hn1 Hn2].
  split; [split; assumption|]. split; [split; lra|].
  apply clamped_barriers_validate; assumption.
Qed.

Lemma calculateBarriers_valid_witness :
  let barriers := TradingEngine.calculateBarriers (sampleState [] 0) (-250) 0 in
  TradingState.currentMarket (sampleState [] 0) = Some sampleMarket
  /\ usableBarriers (MarketData.minBarrier sampleMarket) (MarketData.maxBarrier sampleMarket)
  /\ fst barriers == 10 /\ snd barriers == - (1 # 10)
  /\ RiskCalculator.validateBarriers showNumber (fst barriers) (snd barriers)
       (MarketData.minBarrier sampleMarket) (MarketData.maxBarrier sampleMarket)
     = {| RiskCalculator.isValid := true; RiskCalculator.errors := [] |}.
Proof.
  intros barriers.
  assert (usableBarriers (MarketData.minBarrier sampleMarket) (MarketData.maxBarrier sampleMarket))
    as Hu by (split; [reflexivity | discriminate]).
  split; [reflexivity|]. split; [exact Hu|]. split; [reflexivity|]. split; [reflexivity|].
  exact (proj2 (proj2 (calculateBarriers_valid showNumber (sampleState [] 0) sampleMarket
                         (-250) 0 eq_refl Hu))).
Defined.

Lemma lookupMarket_In (table : list (string * MarketConfig.t)) (key : string)
    (config : MarketConfig.t) :
  lookupMarket table key = Some config -> exists k, In (k, config) table.
Proof.
  induction table as [|[k c] rest IH]; cbn [lookupMarket]; [discriminate|].
  destruct (String.eqb k key).
  - intros E. injection E as ->. exists k. left. reflexivity.
  - intros E. destruct (IH E) as [k' Hin]. exists k'. right. exact Hin.
Qed.

(** X12.  Once [setMarket] has installed a market of [MARKET_CONFIGS]
    (the venue knows the symbol; the tick subscription may even have
    failed), the barriers of every pair are valid for that market. *)
Theorem setMarket_from_table_gives_valid_barriers (show : Q -> string)
    (key : string) (config : MarketConfig.t)
    (subscribed : TradingEngine.Result unit) (s : TradingState.t)
    (positiveBarrier negativeBarrier : Q) :
  lookupMarket MARKET_CONFIGS key = Some config ->
  let s' := snd (TradingEngine.setMarket key (Some config) (inr tt) subscribed s) in
  let barriers := TradingEngine.calculateBarriers s' positiveBarrier negativeBarrier in
  RiskCalculator.isValid
    (RiskCalculator.validateBarriers show (fst barriers) (snd barriers)
       (MarketConfig.minBarrier config) (MarketConfig.maxBarrier config)) = true.
Proof.
  intros Hlook s' barriers.
  assert (usableBarriers (MarketConfig.minBarrier config) (MarketConfig.maxBarrier config))
    as Hu.
  { destruct (lookupMarket_In _ _ _ Hlook) as [k Hin].
    unfold MARKET_CONFIGS in Hin. cbn [In] in Hin.
    repeat (destruct Hin as [Hin|Hin];
            [injection Hin as _ <-; split; [reflexivity | discriminate]|]).
    contradiction. }
  assert (exists market,
            TradingState.currentMarket s' = Some market
            /\ MarketData.minBarrier market = MarketConfig.minBarrier config
            /\ MarketData.maxBarrier market = MarketConfig.maxBarrier config)
    as (market & Hm & Hlo & Hhi).
  { subst s'. unfold TradingEngine.setMarket.
    destruct subscribed; cbn; eexists; repeat split. }
  rewrite <- Hlo, <- Hhi in *.
  subst barriers. unfold TradingEngine.calculateBarriers. rewrite Hm. cbn [fst snd].
  destruct (clamp_between _ _ (Qabs positiveBarrier) (proj2 Hu)) as [Hp1 Hp2].
  destruct (clamp_between _ _ (Qabs negativeBarrier) (proj2 Hu)) as [Hn1 Hn2].
  rewrite (clamped_barriers_validate show _ _ _ _ Hu Hp1 Hp2 Hn1 Hn2). reflexivity.
Qed.

Lemma setMarket_from_table_gives_valid_barriers_witness :
  let config := volatilityIndex "Volatility 50 Index" "R_50" 50 in
  let s' := snd (TradingEngine.setMarket "R_50" (Some config) (inr tt)
                   (inl "Request timeout"%string) TradingEngine.initialState) in
  let barriers := TradingEngine.calculateBarriers s' 80 (2 # 100) in
  lookupMarket MARKET_CONFIGS "R_50" = Some config
  /\ fst barriers == 50 /\ snd barriers == - (1 # 10)
  /\ RiskCalculator.isValid
       (RiskCalculator.validateBarriers showNumber (fst barriers) (snd barriers)
          (MarketConfig.minBarrier config) (MarketConfig.maxBarrier config)) = true.
Proof.
  intros config s' barriers.
  assert (lookupMarket MARKET_CONFIGS "R_50" = Some config) as H
    by reflexivity.
  split; [exact H|]. split; [reflexivity|]. split; [reflexivity|].
  exact (setMarket_from_table_gives_valid_barriers showNumber "R_50" config
           (inl "Request timeout"%string) TradingEngine.initialState 80 (2 # 100) H).
Defined.

(** X13.  When [executeTradePair] succeeds, the state is the old one with
    the new pair put in front of the history and nothing else touched; the
    pair is active with no profit yet, both legs are active with the
    contract identifiers of the venue, they carry the same martingale stake,
    the pair's total stake is twice that stake, and the barriers are those
    of [calculateBarriers]. *)
Theorem executeTradePair_success_records_active_pair
    (show : Q -> string) (parseFloat : string -> Js.JsNum)
    (getProposal : TradingEngine.ContractTerms -> TradingEngine.Result TradingEngine.ProposalResponse)
    (buyContract : TradingEngine.BuyContractRequest ->
                   TradingEngine.Result TradingEngine.BuyContractResponse)
    (lowerRejectsFirst : bool)
    (s s' : TradingState.t) (config : TradeConfig.t) (now : Q) (tradePair : TradePair.t) :
  TradingEngine.executeTradePair show parseFloat getProposal buyContract
    lowerRejectsFirst s config now = (inr tradePair, s') ->
  let stake := TradingEngine.calculateStakeWithMartingale s config in
  let h := TradePair.higherTrade tradePair in
  let l := TradePair.lowerTrade tradePair in
  s' = TradingEngine.set_tradeHistory (tradePair :: TradingState.tradeHistory s) s
  /\ (TradePair.status tradePair = TradePair.active /\ TradePair.totalProfit tradePair = None)
  /\ (Trade.status h = Trade.active /\ Trade.status l = Trade.active)
  /\ (Trade.type h = Trade.higher /\ Trade.type l = Trade.lower)
  /\ (Trade.stake h = stake /\ Trade.stake l = stake /\ TradePair.totalStake tradePair = stake * 2)
  /\ (Trade.barrier h, Trade.barrier l)
     = TradingEngine.calculateBarriers s (TradeConfig.positiveBarrier config)
         (TradeConfig.negativeBarrier config)
  /\ (exists hr lr,
        TradingEngine.executeSingleTrade show parseFloat getProposal buyContract s
          (TradingEngine.newTrade (TradePair.id tradePair) now Trade.higher stake
             (Trade.barrier h) config) config = inr hr
        /\ TradingEngine.executeSingleTrade show parseFloat getProposal buyContract s
             (TradingEngine.newTrade (TradePair.id tradePair) now Trade.lower stake
                (Trade.barrier l) config) config = inr lr
        /\ Trade.contractId h = Some (show (TradingEngine.contract_id hr))
        /\ Trade.contractId l = Some (show (TradingEngine.contract_id lr))).
Proof.
  intros Hrun stake h l. subst stake h l.
  unfold TradingEngine.executeTradePair in Hrun.
  destruct (TradingEngine.beginTradePair show s config now) as [err|p] eqn:Hbegin;
    [discriminate Hrun|].
  unfold TradingEngine.beginTradePair in Hbegin.
  destruct (TradingState.currentMarket s) as [market|] eqn:Hm; [|discriminate Hbegin].
  destruct (TradingState.accountInfo s) as [acc|] eqn:Ha; [|discriminate Hbegin].
  destruct (TradingEngine.calculateBarriers s (TradeConfig.positiveBarrier config)
              (TradeConfig.negativeBarrier config)) as [pb nb] eqn:Hb.
  injection Hbegin as <-.
  cbn [TradingEngine.higherTrade TradingEngine.lowerTrade] in Hrun.
  destruct (TradingEngine.executeSingleTrade show parseFloat getProposal buyContract s
              (TradingEngine.newTrade _ now Trade.higher _ pb config) config)
    as [eh|hr] eqn:Hh;
    destruct (TradingEngine.executeSingleTrade show parseFloat getProposal buyContract s
                (TradingEngine.newTrade _ now Trade.lower _ nb config) config)
      as [el|lr] eqn:Hl;
    cbn [TradingEngine.promiseAll] in Hrun; try discriminate Hrun.
  cbn in Hrun. injection Hrun as <- <-.
  cbn. split; [reflexivity|].
  split; [split; reflexivity|]. split; [split; reflexivity|].
  split; [split; reflexivity|]. split; [split; [|split]; reflexivity|].
  split; [reflexivity|].
  exists hr, lr. split; [exact Hh|]. split; [exact Hl|]. split; reflexivity.
Qed.

Lemma executeTradePair_success_records_active_pair_witness :
  let s := sampleState [samplePair] 2 in
  exists tradePair s',
    TradingEngine.executeTradePair showNumber parseNone quoteAll sellAll false s sampleConfig 1000
    = (inr tradePair, s')
    /\ TradingState.tradeHistory s' = [tradePair; samplePair]
    /\ TradePair.totalStake tradePair == 8
    /\ Trade.contractId (TradePair.higherTrade tradePair) = Some "301"%string.
Proof.
  intros s.
  destruct (TradingEngine.executeTradePair showNumber parseNone quoteAll sellAll false s
              sampleConfig 1000) as [[err|tradePair] s'] eqn:Hrun;
    [vm_compute in Hrun; discriminate Hrun|].
  exists tradePair, s'. split; [reflexivity|].
  destruct (executeTradePair_success_records_active_pair showNumber parseNone quoteAll sellAll
              false s s' sampleConfig 1000 tradePair Hrun)
    as (Hs' & _ & _ & _ & (_ & _ & Htotal) & _ & _).
  vm_compute in Hrun. injection Hrun as <- <-.
  split; [reflexivity|]. split; reflexivity.
Defined.

(** What [executeNextTrade] does to the count of submitted pairs: nothing,
    or one more, and then only for a pair that the account can pay. *)
Lemma executeNextTrade_submits (show : Q -> string) (config : TradeConfig.t) (now : Q)
    (e : TradingEngine.t) :
  let e' := TradingEngine.executeNextTrade show config now e in
  TradingEngine.pairsSubmitted e' = TradingEngine.pairsSubmitted e
  \/ (exists acc f,
        TradingState.accountInfo (TradingEngine.tradingState e) = Some acc
        /\ TradingEngine.inFlight e' !! TradingEngine.nextCall e = Some f
        /\ TradingEngine.loopConfig f = config
        /\ TradingEngine.actualStake (TradingEngine.pendingPair f)
           = TradingEngine.calculateStakeWithMartingale (TradingEngine.tradingState e) config
        /\ TradingEngine.actualStake (TradingEngine.pendingPair f) * 2
           <= AccountInfo.availableBalance acc
        /\ TradingEngine.pairsSubmitted e' = S (TradingEngine.pairsSubmitted e)).
Proof.
  intros e'. subst e'. unfold TradingEngine.executeNextTrade.
  destruct (TradingState.isTrading (TradingEngine.tradingState e)); cbn [negb]; [|left; reflexivity].
  destruct (TradingEngine.canExecuteTrade (TradingEngine.tradingState e) config) eqn:Hcan;
    cbn [negb]; [|left; reflexivity].
  unfold TradingEngine.canExecuteTrade in Hcan.
  destruct (TradingState.accountInfo (TradingEngine.tradingState e)) as [acc|] eqn:Ha;
    [|discriminate Hcan].
  apply leb_true in Hcan.
  unfold TradingEngine.beginTradePair. rewrite Ha.
  destruct (TradingState.currentMarket (TradingEngine.tradingState e)); [|left; reflexivity].
  destruct (TradingEngine.calculateBarriers _ _ _) as [pb nb].
  right. eexists acc, _. cbn.
  split; [reflexivity|]. split; [apply lookup_insert_eq|].
  split; [reflexivity|]. split; [reflexivity|]. split; [exact Hcan | reflexivity].
Qed.

(** X14.  The loop never submits a pair that the account cannot pay: when
    an event makes the count of submitted pairs grow, it grows by one, and
    the stake of the call put in flight, doubled for the two legs, is
    within the available balance of that moment. *)
Theorem loop_submits_only_affordable_pairs (show : Q -> string)
    (ev : TradingEngine.event) (e : TradingEngine.t) :
  TradingEngine.pairsSubmitted (TradingEngine.step show ev e)
  <> TradingEngine.pairsSubmitted e ->
  exists acc f,
    TradingState.accountInfo (TradingEngine.tradingState e) = Some acc
    /\ TradingEngine.inFlight (TradingEngine.step show ev e) !! TradingEngine.nextCall e = Some f
    /\ TradingEngine.actualStake (TradingEngine.pendingPair f) * 2
       <= AccountInfo.availableBalance acc
    /\ TradingEngine.pairsSubmitted (TradingEngine.step show ev e)
       = S (TradingEngine.pairsSubmitted e).
Proof.
  intros Hgrow.
  destruct ev as [config now| |handle now|callNo hr lr lrf|c x w|amount|balance|quote|market| ];
    cbn [TradingEngine.step] in *.
  - unfold TradingEngine.startAutoTrading in *.
    destruct (TradingState.isTrading (TradingEngine.tradingState e)); cbn [snd] in *;
      [contradiction|].
    match goal with |- context [TradingEngine.executeNextTrade show config now ?e0] =>
      destruct (executeNextTrade_submits show config now e0)
        as [Hsame|(acc & f & Ha & Hf & _ & _ & Hpay & Hcount)] end;
      [exfalso; apply Hgrow; exact Hsame|].
    exists acc, f. split; [exact Ha|]. split; [exact Hf|]. split; [exact Hpay | exact Hcount].
  - contradiction.
  - destruct (TradingEngine.timers e !! handle) as [[config delay]|]; [|contradiction].
    match goal with |- context [TradingEngine.executeNextTrade show config now ?e0] =>
      destruct (executeNextTrade_submits show config now e0)
        as [Hsame|(acc & f & Ha & Hf & _ & _ & Hpay & Hcount)] end;
      [exfalso; apply Hgrow; exact Hsame|].
    exists acc, f. split; [exact Ha|]. split; [exact Hf|]. split; [exact Hpay | exact Hcount].
  - exfalso. apply Hgrow. unfold TradingEngine.resumeNextTrade.
    destruct (TradingEngine.inFlight e !! callNo) as [f|]; [|reflexivity].
    destruct (TradingEngine.promiseAll lrf hr lr) as [err|[h l]]; reflexivity.
  - contradiction.
  - contradiction.
  - contradiction.
  - contradiction.
  - contradiction.
  - contradiction.
Qed.

Lemma loop_submits_only_affordable_pairs_witness :
  let e := TradingEngine.newEngine (sampleState [] 3) in
  let e' := TradingEngine.step showNumber (TradingEngine.StartAutoTrading sampleConfig 1000) e in
  TradingEngine.pairsSubmitted e' <> TradingEngine.pairsSubmitted e
  /\ exists acc f,
       TradingState.accountInfo (TradingEngine.tradingState e) = Some acc
       /\ TradingEngine.inFlight e' !! TradingEngine.nextCall e = Some f
       /\ TradingEngine.actualStake (TradingEngine.pendingPair f) * 2
          <= AccountInfo.availableBalance acc
       /\ TradingEngine.pairsSubmitted e' = S (TradingEngine.pairsSubmitted e).
Proof.
  intros e e'.
  assert (TradingEngine.pairsSubmitted e' <> TradingEngine.pairsSubmitted e) as H
    by (vm_compute; discriminate).
  split; [exact H|].
  exact (loop_submits_only_affordable_pairs showNumber
           (TradingEngine.StartAutoTrading sampleConfig 1000) e H).
Defined.

(** With too little money the loop stops itself instead of submitting. *)
Example loop_stops_when_unaffordable :
  let s := TradingEngine.set_accountInfo (Some (account 15)) (sampleState [] 3) in
  let e := TradingEngine.step showNumber (TradingEngine.StartAutoTrading sampleConfig 1000)
             (TradingEngine.newEngine s) in
  TradingEngine.pairsSubmitted e = 0%nat
  /\ TradingState.isTrading (TradingEngine.tradingState e) = false.
Proof. vm_compute. split; reflexivity. Qed.

Lemma stopAutoTrading_wellTimed (e : TradingEngine.t) :
  timersWellTimed e -> timersWellTimed (TradingEngine.stopAutoTrading e).
Proof.
  unfold timersWellTimed, TradingEngine.stopAutoTrading. cbn.
  destruct (TradingEngine.tradeTimeout e); [apply map_Forall_delete | auto].
Qed.

Lemma executeNextTrade_wellTimed (show : Q -> string) (config : TradeConfig.t) (now : Q)
    (e : TradingEngine.t) :
  timersWellTimed e -> timersWellTimed (TradingEngine.executeNextTrade show config now e).
Proof.
  intros H. unfold TradingEngine.executeNextTrade.
  destruct (negb _); [exact H|].
  destruct (negb _); [apply stopAutoTrading_wellTimed, H|].
  destruct (TradingEngine.beginTradePair _ _ _ _);
    [apply stopAutoTrading_wellTimed, H | exact H].
Qed.

Lemma step_wellTimed (show : Q -> string) (ev : TradingEngine.event) (e : TradingEngine.t) :
  timersWellTimed e -> timersWellTimed (TradingEngine.step show ev e).
Proof.
  intros H.
  destruct ev as [config now| |handle now|callNo hr lr lrf|c x w|amount|balance|quote|market| ];
    cbn [TradingEngine.step].
  - unfold TradingEngine.startAutoTrading.
    destruct (TradingState.isTrading _); cbn [snd]; [exact H|].
    apply executeNextTrade_wellTimed. exact H.
  - apply stopAutoTrading_wellTimed, H.
  - destruct (TradingEngine.timers e !! handle) as [[config delay]|]; [|exact H].
    apply executeNextTrade_wellTimed. unfold timersWellTimed. cbn.
    apply map_Forall_delete. exact H.
  - unfold TradingEngine.resumeNextTrade.
    destruct (TradingEngine.inFlight e !! callNo) as [f|]; [|exact H].
    destruct (TradingEngine.promiseAll lrf hr lr) as [err|[h l]].
    + apply stopAutoTrading_wellTimed. exact H.
    + unfold timersWellTimed. cbn. apply map_Forall_insert_2; [reflexivity | exact H].
  - exact H.
  - exact H.
  - exact H.
  - exact H.
  - exact H.
  - unfold TradingEngine.disconnect, timersWellTimed. cbn.
    destruct (TradingEngine.tradeTimeout e); [apply map_Forall_delete | ]; exact H.
Qed.

(** X15.  Whatever happens to an engine after its creation, every wait
    timer it has armed waits for the duration of the contract, and for ten
    seconds at least. *)
Theorem loop_waits_at_least_ten_seconds (show : Q -> string) (s : TradingState.t)
    (evs : list TradingEngine.event) (handle : nat) (config : TradeConfig.t) (delay : Q) :
  TradingEngine.timers (TradingEngine.run show evs (TradingEngine.newEngine s)) !! handle
  = Some (config, delay) ->
  10000 <= delay /\ TradeConfig.duration config * 1000 <= delay.
Proof.
  assert (forall e, timersWellTimed e -> timersWellTimed (TradingEngine.run show evs e)) as Hrun.
  { induction evs as [|ev evs IH]; intros e He; [exact He|].
    unfold TradingEngine.run in *. cbn [fold_left]. apply IH, step_wellTimed, He. }
  intros Hlook.
  assert (timersWellTimed (TradingEngine.newEngine s)) as H0
    by (unfold timersWellTimed; cbn; apply map_Forall_empty).
  pose proof (map_Forall_lookup_1 _ _ _ _ (Hrun _ H0) Hlook) as Hd.
  cbn in Hd. subst delay.
  split; [apply Q.le_max_r | apply Q.le_max_l].
Qed.

Lemma loop_waits_at_least_ten_seconds_witness :
  let evs := [ TradingEngine.StartAutoTrading
                 (TradeConfig.mk 1 2 5 1 1 "R_10" 50 0) 1000;
               TradingEngine.LegsSettled 0 (bought 101) (bought 102) false ] in
  TradingEngine.timers
    (TradingEngine.run showNumber evs (TradingEngine.newEngine (sampleState [] 0))) !! 1%nat
  = Some (TradeConfig.mk 1 2 5 1 1 "R_10" 50 0, Qmax (5 * 1000) 10000)
  /\ 10000 <= Qmax (5 * 1000) 10000.
Proof.
  intros evs.
  assert (TradingEngine.timers
            (TradingEngine.run showNumber evs (TradingEngine.newEngine (sampleState [] 0)))
            !! 1%nat
          = Some (TradeConfig.mk 1 2 5 1 1 "R_10" 50 0, Qmax (5 * 1000) 10000)) as H
    by (vm_compute; reflexivity).
  split; [exact H|].
  exact (proj1 (loop_waits_at_least_ten_seconds showNumber (sampleState [] 0) evs 1%nat _ _ H)).
Defined.

Lemma set_tradeHistory_same (s : TradingState.t) :
  TradingEngine.set_tradeHistory (TradingState.tradeHistory s) s = s.
Proof. destruct s. reflexivity. Qed.

(** X16.  A settlement for a contract that no pair of the history holds
    changes nothing at all. *)
Theorem updateTradeResult_unknown_contract (c : string) (x : Q) (w : bool)
    (s : TradingState.t) :
  noneUpdated c (TradingState.tradeHistory s) ->
  TradingEngine.updateTradeResult c x w s = s.
Proof.
  intros Hnone. unfold TradingEngine.updateTradeResult.
  rewrite (forEachPair_none c x w _ s Hnone). apply set_tradeHistory_same.
Qed.

Lemma updateTradeResult_unknown_contract_witness :
  noneUpdated "999" [otherPair; samplePair]
  /\ TradingEngine.updateTradeResult "999" 5 true (sampleState [otherPair; samplePair] 1)
     = sampleState [otherPair; samplePair] 1.
Proof.
  assert (noneUpdated "999" [otherPair; samplePair]) as H
    by (repeat constructor).
  split; [exact H|].
  exact (updateTradeResult_unknown_contract "999" 5 true
           (sampleState [otherPair; samplePair] 1) H).
Defined.

Lemma settleLegs_pairTerms (c : string) (x : Q) (w : bool) (p : TradePair.t) :
  pairTerms (TradingEngine.settleLegs c x w p) = pairTerms p.
Proof.
  unfold pairTerms, TradingEngine.settleLegs, tradeTerms. cbn.
  destruct (TradingEngine.hasContract c (TradePair.higherTrade p));
    destruct (TradingEngine.hasContract c (TradePair.lowerTrade p)); reflexivity.
Qed.

Lemma forEachPair_terms (c : string) (x : Q) (w : bool) (pairs : list TradePair.t)
    (s : TradingState.t) :
  List.map pairTerms (fst (TradingEngine.forEachPair c x w pairs s))
  = List.map pairTerms pairs.
Proof.
  induction pairs as [|p rest IH]; cbn [TradingEngine.forEachPair]; [reflexivity|].
  destruct (TradingEngine.tradeUpdated c p).
  - destruct (TradingEngine.bothCompleted _); cbn [fst List.map]; f_equal;
      apply (settleLegs_pairTerms c x w p).
  - destruct (TradingEngine.forEachPair c x w rest s) as [rest' s'].
    cbn [fst List.map] in *. f_equal. exact IH.
Qed.

(** X17.  [updateTradeResult] keeps the history in place: the same pairs
    in the same order, each with its identity, time, total stake and the
    terms of its legs (stake, barrier, market, payout, contract); only
    statuses and profits move. *)
Theorem updateTradeResult_keeps_terms (c : string) (x : Q) (w : bool) (s : TradingState.t) :
  List.map pairTerms (TradingState.tradeHistory (TradingEngine.updateTradeResult c x w s))
  = List.map pairTerms (TradingState.tradeHistory s).
Proof.
  rewrite updateTradeResult_tradeHistory. apply forEachPair_terms.
Qed.

Lemma forEachPair_accumulators (c : string) (x : Q) (w : bool)
    (pairs : list TradePair.t) (s : TradingState.t) :
  let s' := snd (TradingEngine.forEachPair c x w pairs s) in
  s' = s \/ exists total, s' = TradingEngine.updatePnL total s.
Proof.
  induction pairs as [|p rest IH]; cbn [TradingEngine.forEachPair]; [left; reflexivity|].
  destruct (TradingEngine.tradeUpdated c p).
  - destruct (TradingEngine.bothCompleted _); cbn [snd]; [right; eauto | left; reflexivity].
  - destruct (TradingEngine.forEachPair c x w rest s) as [rest' s']. exact IH.
Qed.

Lemma updateTradeResult_accountInfo (c : string) (x : Q) (w : bool) (s : TradingState.t) :
  TradingState.accountInfo (TradingEngine.updateTradeResult c x w s)
  = TradingState.accountInfo s.
Proof.
  unfold TradingEngine.updateTradeResult.
  pose proof (forEachPair_accumulators c x w (TradingState.tradeHistory s) s) as H.
  destruct (TradingEngine.forEachPair c x w (TradingState.tradeHistory s) s) as [pairs s1].
  cbn [snd] in H. destruct H as [->|[total ->]]; [reflexivity|].
  unfold TradingEngine.updatePnL. destruct (Js.ltb 0 total); reflexivity.
Qed.

(** X18.  Under [updateTradeResult] the cumulative profit and the
    cumulative loss never go down, at most one of them moves, the loss
    counter stays, goes to zero or goes up by one, and the session flags,
    the account and the market are left alone. *)
Theorem updateTradeResult_accumulates (c : string) (x : Q) (w : bool) (s : TradingState.t) :
  let s' := TradingEngine.updateTradeResult c x w s in
  (TradingState.totalProfit s <= TradingState.totalProfit s'
   /\ TradingState.totalLoss s <= TradingState.totalLoss s')
  /\ (TradingState.totalProfit s' = TradingState.totalProfit s
      \/ (TradingState.totalLoss s' = TradingState.totalLoss s
          /\ TradingState.consecutiveLosses s' = 0%nat))
  /\ (TradingState.consecutiveLosses s' = TradingState.consecutiveLosses s
      \/ TradingState.consecutiveLosses s' = 0%nat
      \/ TradingState.consecutiveLosses s' = S (TradingState.consecutiveLosses s))
  /\ (TradingState.isConnected s' = TradingState.isConnected s
      /\ TradingState.isTrading s' = TradingState.isTrading s
      /\ TradingState.accountInfo s' = TradingState.accountInfo s
      /\ TradingState.currentMarket s' = TradingState.currentMarket s).
Proof.
  intros s'. subst s'. unfold TradingEngine.updateTradeResult.
  pose proof (forEachPair_accumulators c x w (TradingState.tradeHistory s) s) as H.
  destruct (TradingEngine.forEachPair c x w (TradingState.tradeHistory s) s) as [pairs s1].
  cbn [snd] in H. destruct H as [->|[total ->]].
  - cbn. split; [split; apply Qle_refl|].
    split; [left; reflexivity|]. split; [left; reflexivity|]. repeat split.
  - unfold TradingEngine.updatePnL. destruct (Js.ltb 0 total) eqn:E; cbn.
    + apply ltb_true in E. split; [split; [lra | apply Qle_refl]|].
      split; [right; split; reflexivity|].
      split; [right; left; reflexivity|]. repeat split.
    + pose proof (Qabs_nonneg total). split; [split; [apply Qle_refl | lra]|].
      split; [left; reflexivity|].
      split; [right; right; reflexivity|]. repeat split.
Qed.

(** X19.  Settlements are the only thing that moves the profit and loss
    figures: every other event of the engine (start, stop, timers, legs
    settling, balance and tick pushes, market change, disconnect) leaves
    [totalProfit], [totalLoss] and [consecutiveLosses] as they are. *)
Theorem only_settlements_move_the_counters (show : Q -> string)
    (ev : TradingEngine.event) (e : TradingEngine.t) :
  isUpdateTradeResult ev = false ->
  let s := TradingEngine.tradingState e in
  let s' := TradingEngine.tradingState (TradingEngine.step show ev e) in
  TradingState.totalProfit s' = TradingState.totalProfit s
  /\ TradingState.totalLoss s' = TradingState.totalLoss s
  /\ TradingState.consecutiveLosses s' = TradingState.consecutiveLosses s.
Proof.
  intros Hev.
  assert (forall config now e0,
            let s0 := TradingEngine.tradingState e0 in
            let s1 := TradingEngine.tradingState (TradingEngine.executeNextTrade show config now e0) in
            TradingState.totalProfit s1 = TradingState.totalProfit s0
            /\ TradingState.totalLoss s1 = TradingState.totalLoss s0
            /\ TradingState.consecutiveLosses s1 = TradingState.consecutiveLosses s0) as Hnext.
  { intros config now e0. unfold TradingEngine.executeNextTrade.
    destruct (negb _); [auto|]. destruct (negb _); [cbn; auto|].
    destruct (TradingEngine.beginTradePair _ _ _ _); cbn; auto. }
  destruct ev as [config now| |handle now|callNo hr lr lrf|c x w|amount|balance|quote|market| ];
    cbn [TradingEngine.step isUpdateTradeResult] in *; try discriminate Hev.
  - unfold TradingEngine.startAutoTrading.
    destruct (TradingState.isTrading _); cbn [snd]; [auto|].
    exact (Hnext config now
             (TradingEngine.set_tradingState
                (TradingEngine.set_isTrading true (TradingEngine.tradingState e)) e)).
  - cbn. auto.
  - destruct (TradingEngine.timers e !! handle) as [[config delay]|]; [|auto].
    exact (Hnext config now
             {| TradingEngine.tradingState := TradingEngine.tradingState e;
                TradingEngine.tradeTimeout := TradingEngine.tradeTimeout e;
                TradingEngine.currentPrice := TradingEngine.currentPrice e;
                TradingEngine.timers := delete handle (TradingEngine.timers e);
                TradingEngine.nextTimer := TradingEngine.nextTimer e;
                TradingEngine.inFlight := TradingEngine.inFlight e;
                TradingEngine.nextCall := TradingEngine.nextCall e;
                TradingEngine.pairsSubmitted := TradingEngine.pairsSubmitted e |}).
  - unfold TradingEngine.resumeNextTrade.
    destruct (TradingEngine.inFlight e !! callNo) as [f|]; [|auto].
    destruct (TradingEngine.promiseAll lrf hr lr) as [err|[h l]]; cbn; auto.
  - unfold TradingEngine.setLockedBalance.
    destruct (TradingState.accountInfo _); cbn; auto.
  - unfold TradingEngine.onBalance.
    destruct (TradingState.accountInfo _); cbn; auto.
  - unfold TradingEngine.onTick. cbn.
    destruct (TradingState.currentMarket _); cbn; auto.
  - cbn. auto.
  - cbn. auto.
Qed.

Lemma only_settlements_move_the_counters_witness :
  let e := TradingEngine.newEngine (sampleState [samplePair] 2) in
  isUpdateTradeResult (TradingEngine.StartAutoTrading sampleConfig 1000) = false
  /\ TradingState.consecutiveLosses
       (TradingEngine.tradingState
          (TradingEngine.step showNumber (TradingEngine.StartAutoTrading sampleConfig 1000) e))
     = 2%nat.
Proof.
  intros e. split; [reflexivity|].
  exact (proj2 (proj2 (only_settlements_move_the_counters showNumber
                         (TradingEngine.StartAutoTrading sampleConfig 1000) e eq_refl))).
Defined.

Lemma executeNextTrade_state (show : Q -> string) (config : TradeConfig.t) (now : Q)
    (e : TradingEngine.t) :
  let s := TradingEngine.tradingState e in
  let s' := TradingEngine.tradingState (TradingEngine.executeNextTrade show config now e) in
  s' = s \/ s' = TradingEngine.set_isTrading false s.
Proof.
  unfold TradingEngine.executeNextTrade.
  destruct (negb _); [left; reflexivity|].
  destruct (negb _); [right; reflexivity|].
  destruct (TradingEngine.beginTradePair _ _ _ _); [right|left]; reflexivity.
Qed.

Lemma accountKept_same (currency loginId : string) (s s' : TradingState.t) :
  TradingState.accountInfo s' = TradingState.accountInfo s ->
  accountKept currency loginId s -> accountKept currency loginId s'.
Proof. intros E (a & Ha & H). exists a. rewrite E. auto. Qed.

Lemma step_accountKept (show : Q -> string) (currency loginId : string)
    (ev : TradingEngine.event) (e : TradingEngine.t) :
  accountKept currency loginId (TradingEngine.tradingState e) ->
  accountKept currency loginId (TradingEngine.tradingState (TradingEngine.step show ev e)).
Proof.
  intros Hkept.
  destruct ev as [config now| |handle now|callNo hr lr lrf|c x w|amount|balance|quote|market| ];
    cbn [TradingEngine.step].
  - unfold TradingEngine.startAutoTrading.
    destruct (TradingState.isTrading _); cbn [snd]; [exact Hkept|].
    destruct (executeNextTrade_state show config now
                (TradingEngine.set_tradingState
                   (TradingEngine.set_isTrading true (TradingEngine.tradingState e)) e))
      as [-> | ->]; revert Hkept; apply accountKept_same; reflexivity.
  - revert Hkept. apply accountKept_same. reflexivity.
  - destruct (TradingEngine.timers e !! handle) as [[config delay]|]; [|exact Hkept].
    match goal with
    | |- accountKept _ _ (TradingEngine.tradingState (TradingEngine.executeNextTrade _ _ _ ?e0)) =>
        destruct (executeNextTrade_state show config now e0) as [-> | ->];
          revert Hkept; apply accountKept_same; reflexivity
    end.
  - unfold TradingEngine.resumeNextTrade.
    destruct (TradingEngine.inFlight e !! callNo) as [f|]; [|exact Hkept].
    destruct (TradingEngine.promiseAll lrf hr lr) as [err|[h l]];
      revert Hkept; apply accountKept_same; reflexivity.
  - revert Hkept. apply accountKept_same.
    cbn [TradingEngine.tradingState TradingEngine.set_tradingState].
    apply updateTradeResult_accountInfo.
  - destruct Hkept as (a & Ha & Hc & Hl & _).
    unfold accountKept, TradingEngine.setLockedBalance.
    cbn [TradingEngine.tradingState TradingEngine.set_tradingState]. rewrite Ha.
    eexists. split; [reflexivity|]. cbn. split; [exact Hc|]. split; [exact Hl | reflexivity].
  - destruct Hkept as (a & Ha & Hc & Hl & _).
    unfold accountKept, TradingEngine.onBalance.
    cbn [TradingEngine.tradingState TradingEngine.set_tradingState]. rewrite Ha.
    eexists. split; [reflexivity|]. cbn. split; [exact Hc|]. split; [exact Hl | reflexivity].
  - revert Hkept. apply accountKept_same. unfold TradingEngine.onTick. cbn.
    destruct (TradingState.currentMarket (TradingEngine.tradingState e)); reflexivity.
  - revert Hkept. apply accountKept_same. reflexivity.
  - revert Hkept. apply accountKept_same. reflexivity.
Qed.

Lemma run_accountKept (show : Q -> string) (currency loginId : string)
    (evs : list TradingEngine.event) (e : TradingEngine.t) :
  accountKept currency loginId (TradingEngine.tradingState e) ->
  accountKept currency loginId (TradingEngine.tradingState (TradingEngine.run show evs e)).
Proof.
  revert e. induction evs as [|ev evs IH]; intros e Hkept; [exact Hkept|].
  cbn. apply IH. apply step_accountKept. exact Hkept.
Qed.

(** X20.  A successful [initialize] installs the account that [getBalance]
    reports, with the whole balance available and nothing locked, marks the
    session as connected and touches nothing else.  From then on, whatever
    the engine goes through (trading, settlements, locks set by the caller,
    balance pushes), the session has an account, with the same currency and
    login, on which [availableBalance = balance - lockedBalance]. *)
Theorem account_stays_balanced (show : Q -> string) (b : BalanceResponse.t)
    (s : TradingState.t) (evs : list TradingEngine.event) :
  let '(result, s0) := TradingEngine.initialize (inr tt) (inr b) s in
  let account0 :=
    {| AccountInfo.balance := BalanceResponse.balance b;
       AccountInfo.currency := BalanceResponse.currency b;
       AccountInfo.loginId := BalanceResponse.loginid b;
       AccountInfo.availableBalance := BalanceResponse.balance b;
       AccountInfo.lockedBalance := 0 |} in
  result = inr tt
  /\ s0 = TradingEngine.set_isConnected true (TradingEngine.set_accountInfo (Some account0) s)
  /\ TradingState.accountInfo s0 = Some account0
  /\ TradingState.isConnected s0 = true
  /\ exists a,
       TradingState.accountInfo
         (TradingEngine.tradingState (TradingEngine.run show evs (TradingEngine.newEngine s0)))
       = Some a
       /\ AccountInfo.currency a = BalanceResponse.currency b
       /\ AccountInfo.loginId a = BalanceResponse.loginid b
       /\ AccountInfo.availableBalance a == AccountInfo.balance a - AccountInfo.lockedBalance a.
Proof.
  cbn [TradingEngine.initialize]. cbv zeta.
  split; [reflexivity|]. split; [reflexivity|]. split; [reflexivity|]. split; [reflexivity|].
  apply (run_accountKept show (BalanceResponse.currency b) (BalanceResponse.loginid b)).
  eexists. split; [reflexivity|]. cbn. split; [reflexivity|]. split; [reflexivity | ring].
Qed.

(** A lock of 30 and then a pushed balance of 120 on an account opened with
    100: 90 is available. *)
Example account_after_lock_and_push :
  let b := {| BalanceResponse.balance := 100; BalanceResponse.currency := "USD";
              BalanceResponse.loginid := "CR0000001" |} in
  let s0 := snd (TradingEngine.initialize (inr tt) (inr b) TradingEngine.initialState) in
  let e := TradingEngine.run showNumber
             [TradingEngine.SetLockedBalance 30; TradingEngine.BalancePush 120]
             (TradingEngine.newEngine s0) in
  TradingState.accountInfo (TradingEngine.tradingState e)
  = Some {| AccountInfo.balance := 120; AccountInfo.currency := "USD";
            AccountInfo.loginId := "CR0000001";
            AccountInfo.availableBalance := 120 - 30;
            AccountInfo.lockedBalance := 30 |}.
Proof. reflexivity. Qed.

Lemma executeNextTrade_tradeHistory (show : Q -> string) (config : TradeConfig.t) (now : Q)
    (e : TradingEngine.t) :
  TradingState.tradeHistory
    (TradingEngine.tradingState (TradingEngine.executeNextTrade show config now e))
  = TradingState.tradeHistory (TradingEngine.tradingState e).
Proof.
  destruct (executeNextTrade_state show config now e) as [H|H]; cbv zeta in H; rewrite H;
    reflexivity.
Qed.

Lemma step_history (show : Q -> string) (ev : TradingEngine.event) (e : TradingEngine.t) :
  exists new,
    List.map pairTerms
      (TradingState.tradeHistory (TradingEngine.tradingState (TradingEngine.step show ev e)))
    = List.map pairTerms new
      ++ List.map pairTerms (TradingState.tradeHistory (TradingEngine.tradingState e))
    /\ (length new <= 1)%nat.
Proof.
  destruct ev as [config now| |handle now|callNo hr lr lrf|c x w|amount|balance|quote|market| ];
    cbn [TradingEngine.step].
  - exists []. split; [|cbn; lia]. unfold TradingEngine.startAutoTrading.
    destruct (TradingState.isTrading _); cbn [snd]; [reflexivity|].
    rewrite executeNextTrade_tradeHistory. reflexivity.
  - exists []. split; [reflexivity | cbn; lia].
  - exists []. split; [|cbn; lia].
    destruct (TradingEngine.timers e !! handle) as [[config delay]|]; [|reflexivity].
    rewrite executeNextTrade_tradeHistory. reflexivity.
  - unfold TradingEngine.resumeNextTrade.
    destruct (TradingEngine.inFlight e !! callNo) as [f|];
      [|exists []; split; [reflexivity | cbn; lia]].
    destruct (TradingEngine.promiseAll lrf hr lr) as [err|[h l]].
    + exists []. split; [reflexivity | cbn; lia].
    + eexists [_]. split; [reflexivity | cbn; lia].
  - exists []. split; [|cbn; lia].
    cbn [TradingEngine.tradingState TradingEngine.set_tradingState].
    rewrite updateTradeResult_tradeHistory.
    pose proof (forEachPair_terms c x w (TradingState.tradeHistory (TradingEngine.tradingState e))
                  (TradingEngine.tradingState e)) as H.
    exact H.
  - exists []. split; [|cbn; lia]. unfold TradingEngine.setLockedBalance. cbn.
    destruct (TradingState.accountInfo _); reflexivity.
  - exists []. split; [|cbn; lia]. unfold TradingEngine.onBalance. cbn.
    destruct (TradingState.accountInfo _); reflexivity.
  - exists []. split; [|cbn; lia]. unfold TradingEngine.onTick. cbn.
    destruct (TradingState.currentMarket _); reflexivity.
  - exists []. split; [reflexivity | cbn; lia].
  - exists []. split; [reflexivity | cbn; lia].
Qed.

(** X21.  The trade history only grows at its front: whatever events the
    engine handles, the pairs recorded before are all still there, in the
    same order and with the same terms, behind at most one new pair per
    event. *)
Theorem history_only_grows (show : Q -> string) (evs : list TradingEngine.event)
    (e : TradingEngine.t) :
  exists new,
    List.map pairTerms
      (TradingState.tradeHistory (TradingEngine.tradingState (TradingEngine.run show evs e)))
    = List.map pairTerms new
      ++ List.map pairTerms (TradingState.tradeHistory (TradingEngine.tradingState e))
    /\ (length new <= length evs)%nat.
Proof.
  revert e. induction evs as [|ev evs IH]; intros e.
  - exists []. split; [reflexivity | cbn; lia].
  - cbn [TradingEngine.run fold_left].
    destruct (IH (TradingEngine.step show ev e)) as [later [Hlater Hn]].
    destruct (step_history show ev e) as [new [Hnew Hone]].
    exists (later ++ new). split.
    + unfold TradingEngine.run in Hlater. rewrite Hlater, Hnew.
      rewrite List.map_app, <- List.app_assoc. reflexivity.
    + rewrite List.length_app. cbn [length]. lia.
Qed.

(** X22.  [startAutoTrading] does not look at [isConnected]: on an engine
    that [disconnect] has just shut down it succeeds, and with a market,
    an account and enough money it submits a pair at once, the session
    still being marked as not connected. *)
Theorem startAutoTrading_after_disconnect (show : Q -> string) (config : TradeConfig.t)
    (now : Q) (e : TradingEngine.t) (market : MarketData.t) :
  TradingState.currentMarket (TradingEngine.tradingState e) = Some market ->
  TradingEngine.canExecuteTrade (TradingEngine.tradingState e) config = true ->
  let '(result, e') :=
    TradingEngine.startAutoTrading show config now (TradingEngine.disconnect e) in
  result = inr tt
  /\ TradingState.isConnected (TradingEngine.tradingState e') = false
  /\ TradingState.isTrading (TradingEngine.tradingState e') = true
  /\ TradingEngine.pairsSubmitted e' = S (TradingEngine.pairsSubmitted e).
Proof.
  intros Hm Hcan.
  unfold TradingEngine.startAutoTrading, TradingEngine.disconnect, TradingEngine.stopAutoTrading.
  cbn. split; [reflexivity|].
  unfold TradingEngine.executeNextTrade. cbn.
  unfold TradingEngine.canExecuteTrade in *. cbn.
  destruct (TradingState.accountInfo (TradingEngine.tradingState e)) as [acc|] eqn:Ha;
    [|discriminate Hcan].
  unfold TradingEngine.calculateStakeWithMartingale in *. cbn. rewrite Hcan. cbn.
  unfold TradingEngine.beginTradePair. cbn. rewrite Hm, Ha.
  destruct (TradingEngine.calculateBarriers _ _ _) as [pb nb]. cbn. auto.
Qed.

Lemma startAutoTrading_after_disconnect_witness :
  let e := TradingEngine.newEngine (sampleState [] 0) in
  TradingState.currentMarket (TradingEngine.tradingState e) = Some sampleMarket
  /\ TradingEngine.canExecuteTrade (TradingEngine.tradingState e) sampleConfig = true
  /\ fst (TradingEngine.startAutoTrading showNumber sampleConfig 1000
            (TradingEngine.disconnect e)) = inr tt.
Proof.
  intros e.
  assert (TradingState.currentMarket (TradingEngine.tradingState e) = Some sampleMarket) as Hm
    by reflexivity.
  assert (TradingEngine.canExecuteTrade (TradingEngine.tradingState e) sampleConfig = true) as Hc
    by (vm_compute; reflexivity).
  split; [exact Hm|]. split; [exact Hc|].
  pose proof (startAutoTrading_after_disconnect showNumber sampleConfig 1000 e sampleMarket Hm Hc)
    as H.
  destruct (TradingEngine.startAutoTrading showNumber sampleConfig 1000
              (TradingEngine.disconnect e)) as [result e'].
  exact (proj1 H).
Defined.

(** X23.  Stopping and disconnecting are idempotent, and a disconnect
    after a disconnect or a stop after a disconnect changes nothing. *)
Theorem disconnect_idempotent (e : TradingEngine.t) :
  TradingEngine.stopAutoTrading (TradingEngine.stopAutoTrading e) = TradingEngine.stopAutoTrading e
  /\ TradingEngine.disconnect (TradingEngine.disconnect e) = TradingEngine.disconnect e
  /\ TradingEngine.stopAutoTrading (TradingEngine.disconnect e) = TradingEngine.disconnect e.
Proof.
  unfold TradingEngine.disconnect, TradingEngine.stopAutoTrading. cbn.
  repeat split; reflexivity.
Qed.



(** ** Protocol client *)

Lemma protocolStep_quiet (effs : list DerivAPI.effect) (a a' : DerivAPI.t) :
  transmitted effs = [] -> settled effs = [] ->
  DerivAPI.log a' = DerivAPI.log a ++ effs ->
  DerivAPI.callbacks a' ⊆ DerivAPI.callbacks a ->
  DerivAPI.requestId a' = DerivAPI.requestId a ->
  protocolStep a a'.
Proof. intros Ht Hs Hl Hc Hr. left. exists effs. auto. Qed.

Lemma protocolStep_same (a a' : DerivAPI.t) :
  DerivAPI.log a' = DerivAPI.log a ->
  DerivAPI.callbacks a' = DerivAPI.callbacks a ->
  DerivAPI.requestId a' = DerivAPI.requestId a ->
  protocolStep a a'.
Proof.
  intros Hl Hc Hr. apply (protocolStep_quiet [] a a'); try reflexivity.
  - rewrite app_nil_r. exact Hl.
  - rewrite Hc. reflexivity.
  - exact Hr.
Qed.

Lemma protocolStep_send (a b : DerivAPI.t) :
  DerivAPI.log b = DerivAPI.log a -> DerivAPI.callbacks b = DerivAPI.callbacks a ->
  DerivAPI.requestId b = DerivAPI.requestId a ->
  protocolStep a (DerivAPI.send b).
Proof.
  intros Hl Hc Hr.
  destruct (send_cases b) as [(Hl' & Hc' & Hr')|(Hl' & Hc' & Hr')].
  - right. left. rewrite Hl', Hc', Hr', Hl, Hc, Hr. repeat split.
  - apply (protocolStep_quiet [DerivAPI.RejectUnsent "WebSocket not connected"]);
      try reflexivity.
    + rewrite Hl', Hl. reflexivity.
    + rewrite Hc', Hc. reflexivity.
    + rewrite Hr', Hr. reflexivity.
Qed.

Lemma step_protocol (ev : DerivAPI.event) (a : DerivAPI.t) :
  protocolStep a (DerivAPI.step ev a).
Proof.
  destruct ev as [ | |kind| |sock|sock|data|r|handle|handle]; cbn [DerivAPI.step].
  - apply (protocolStep_quiet [DerivAPI.NewSocket (DerivAPI.nextSocket a)]); reflexivity.
  - apply protocolStep_send; reflexivity.
  - unfold DerivAPI.subscribe. apply protocolStep_send; reflexivity.
  - unfold DerivAPI.disconnect. destruct (DerivAPI.ws a) as [sock|].
    + apply (protocolStep_quiet [DerivAPI.CloseSocket sock]); try reflexivity.
      cbn. apply empty_subseteq.
    + apply (protocolStep_quiet []); try reflexivity; cbn.
      * rewrite app_nil_r. reflexivity.
      * apply empty_subseteq.
  - destruct (bool_decide _); apply protocolStep_same; reflexivity.
  - destruct (DerivAPI.sockets a !! sock) as [[ | | | ]|];
      try (apply protocolStep_same; reflexivity);
      unfold DerivAPI.handleReconnection;
      (destruct (Nat.ltb _ _);
       [apply (protocolStep_quiet
                 [DerivAPI.ScheduleReconnect (S (DerivAPI.reconnectAttempts a))
                    (Js.Math_pow 2 (S (DerivAPI.reconnectAttempts a)) * 1000)]);
        reflexivity
       |apply (protocolStep_quiet [DerivAPI.ConsoleError "Max reconnection attempts reached"]);
        reflexivity]).
  - destruct (handleMessage_cases data a)
      as [Hr [(kind & Hl & Hc)|[(Hl & Hc)|(r & eff & Hid & Hin & Hl & Heff & Hc)]]].
    + apply (protocolStep_quiet [DerivAPI.Deliver kind]); try reflexivity;
        [exact Hl | | exact Hr].
      rewrite Hc. reflexivity.
    + apply protocolStep_same; assumption.
    + right. right. exists r, eff. split; [exact Hin|]. split; [exact Hl|].
      split; [destruct Heff as [->|[reason ->]]; reflexivity|].
      split; [destruct Heff as [->|[reason ->]]; reflexivity|].
      split; [exact Hc | exact Hr].
  - unfold DerivAPI.requestTimeout.
    destruct (bool_decide (r ∈ DerivAPI.callbacks a)) eqn:Hin.
    + apply bool_decide_eq_true in Hin. right. right.
      exists r, (DerivAPI.Reject r "Request timeout").
      split; [exact Hin|]. repeat split.
    + apply protocolStep_same; reflexivity.
  - destruct (bool_decide _).
    + apply (protocolStep_quiet [DerivAPI.NewSocket (DerivAPI.nextSocket a)]); reflexivity.
    + apply protocolStep_same; reflexivity.
  - destruct (bool_decide _).
    + unfold DerivAPI.heartbeat. destruct (DerivAPI.isOpen a) eqn:Hopen.
      * apply protocolStep_send; reflexivity.
      * apply protocolStep_same; reflexivity.
    + apply protocolStep_same; reflexivity.
Qed.

Lemma step_requestsInOrder (ev : DerivAPI.event) (a : DerivAPI.t) :
  requestsInOrder a -> requestsInOrder (DerivAPI.step ev a).
Proof.
  intros (Hpos & Htx & Hnd & Hset & Hcb). unfold requestsInOrder.
  destruct (step_protocol ev a)
    as [(effs & Hl & Ht & Hs & Hc & Hr)
       |[(Hl & Hc & Hr)|(r & eff & Hin & Hl & Hse & Hte & Hc & Hr)]];
    rewrite Hl, Hr; unfold transmitted, settled in *; rewrite !omap_app.
  - rewrite Ht, Hs, !app_nil_r. split; [exact Hpos|]. split; [exact Htx|].
    split; [exact Hnd|]. split.
    + intros r Hr'. destruct (Hset r Hr') as [Hb Hout]. split; [exact Hb|].
      intros Hin. apply Hout, Hc, Hin.
    + intros r Hr'. apply Hcb, Hc, Hr'.
  - cbn [omap list_omap transmittedId settledId]. rewrite app_nil_r, Hc.
    split; [lia|]. split.
    + rewrite Htx. replace (S (DerivAPI.requestId a) - 1)%nat
        with (S (DerivAPI.requestId a - 1)) by lia.
      rewrite seq_S. repeat f_equal. lia.
    + split; [exact Hnd|]. split.
      * intros r Hr'. destruct (Hset r Hr') as [Hb Hout]. split; [lia|].
        rewrite elem_of_union, elem_of_singleton. intros [->|Hin]; [lia | exact (Hout Hin)].
      * intros r. rewrite elem_of_union, elem_of_singleton.
        intros [->|Hin]; [lia | specialize (Hcb r Hin); lia].
  - cbn [omap list_omap]. rewrite Hse, Hte. cbn. rewrite app_nil_r, Hc.
    split; [exact Hpos|]. split; [exact Htx|]. split.
    + apply NoDup_app. split; [exact Hnd|]. split; [|apply NoDup_singleton].
      intros r' Hr' Hone. apply list_elem_of_singleton in Hone. subst r'.
      destruct (Hset r Hr') as [_ Hout]. exact (Hout Hin).
    + split.
      * intros r'. rewrite elem_of_app, list_elem_of_singleton.
        intros [Hr'| ->].
        -- destruct (Hset r' Hr') as [Hb Hout]. split; [exact Hb|].
           rewrite elem_of_difference. intros [Hin' _]. exact (Hout Hin').
        -- split; [apply Hcb, Hin|]. rewrite elem_of_difference, elem_of_singleton. tauto.
      * intros r'. rewrite elem_of_difference. intros [Hin' _]. apply Hcb, Hin'.
Qed.

Lemma run_requestsInOrder (evs : list DerivAPI.event) (a : DerivAPI.t) :
  requestsInOrder a -> requestsInOrder (DerivAPI.run evs a).
Proof.
  revert a. induction evs as [|ev evs IH]; intros a Ha; [exact Ha|].
  cbn. apply IH, step_requestsInOrder, Ha.
Qed.

(** X25.  Whatever a new client goes through, the requests it has put on
    the wire carry the identifiers 1, 2, 3, ... in this order, none twice;
    no promise is settled twice; a promise is settled only for a request
    that was put on the wire; and a request whose callback is still
    registered has not been settled. *)
Theorem request_ids_are_sequential_and_settled_once (evs : list DerivAPI.event) :
  let a := DerivAPI.run evs DerivAPI.newApi in
  transmitted (DerivAPI.log a) = seq 1 (length (transmitted (DerivAPI.log a)))
  /\ DerivAPI.requestId a = S (length (transmitted (DerivAPI.log a)))
  /\ NoDup (settled (DerivAPI.log a))
  /\ (forall r, r ∈ settled (DerivAPI.log a) -> r ∈ transmitted (DerivAPI.log a))
  /\ (forall r, r ∈ DerivAPI.callbacks a ->
                r ∈ transmitted (DerivAPI.log a) /\ r ∉ settled (DerivAPI.log a)).
Proof.
  intros a.
  assert (requestsInOrder DerivAPI.newApi) as H0.
  { unfold requestsInOrder. cbn. split; [lia|]. split; [reflexivity|].
    split; [apply NoDup_nil_2|]. split; intros r Hr; [inversion Hr | set_solver]. }
  destruct (run_requestsInOrder evs _ H0) as (Hpos & Htx & Hnd & Hset & Hcb).
  fold a in Hpos, Htx, Hnd, Hset, Hcb.
  assert (length (transmitted (DerivAPI.log a)) = (DerivAPI.requestId a - 1)%nat) as Hlen
    by (rewrite Htx; apply length_seq).
  assert (forall r, (1 <= r < DerivAPI.requestId a)%nat -> r ∈ transmitted (DerivAPI.log a))
    as Hsent.
  { intros r Hr. rewrite Htx. apply elem_of_seq. lia. }
  split; [rewrite Hlen; exact Htx|]. split; [lia|]. split; [exact Hnd|]. split.
  - intros r Hr. apply Hsent, (Hset r Hr).
  - intros r Hr. split; [apply Hsent, Hcb, Hr|].
    intros Hin. destruct (Hset r Hin) as [_ Hout]. exact (Hout Hr).
Qed.

(** X26.  The answer to a subscription request does not settle the
    request when it has the message type of the subscription: on an open
    socket, after [subscribeToTicks], [subscribeToBalance] or
    [subscribeToPortfolio], a message of that type that carries the
    identifier of the request goes to the subscription handler, the
    callback of the request stays registered, and the promise is rejected
    with a timeout when the 30 s timer fires. *)
Theorem subscription_reply_times_out (a : DerivAPI.t) (kind : string)
    (data : DerivAPI.message) :
  In kind pushKinds ->
  DerivAPI.isOpen a = true ->
  DerivAPI.msg_type data = kind ->
  DerivAPI.req_id data = Some (DerivAPI.requestId a) ->
  let r := DerivAPI.requestId a in
  let a1 := DerivAPI.step (DerivAPI.MessageReceived data) (DerivAPI.subscribe kind a) in
  DerivAPI.log a1 = DerivAPI.log a ++ [DerivAPI.Transmit r; DerivAPI.Deliver kind]
  /\ r ∈ DerivAPI.callbacks a1
  /\ DerivAPI.log (DerivAPI.step (DerivAPI.RequestTimer r) a1)
     = DerivAPI.log a1 ++ [DerivAPI.Reject r "Request timeout"].
Proof.
  intros Hkind Hopen Htype Hid r a1. subst r a1.
  assert (DerivAPI.subscribe kind a
          = DerivAPI.emit (DerivAPI.Transmit (DerivAPI.requestId a))
              {| DerivAPI.ws := DerivAPI.ws a; DerivAPI.sockets := DerivAPI.sockets a;
                 DerivAPI.nextSocket := DerivAPI.nextSocket a;
                 DerivAPI.requestId := S (DerivAPI.requestId a);
                 DerivAPI.callbacks := {[DerivAPI.requestId a]} ∪ DerivAPI.callbacks a;
                 DerivAPI.subscriptions := {[kind]} ∪ DerivAPI.subscriptions a;
                 DerivAPI.reconnectAttempts := DerivAPI.reconnectAttempts a;
                 DerivAPI.reconnectTimeout := DerivAPI.reconnectTimeout a;
                 DerivAPI.reconnectTimers := DerivAPI.reconnectTimers a;
                 DerivAPI.heartbeats := DerivAPI.heartbeats a;
                 DerivAPI.nextHandle := DerivAPI.nextHandle a;
                 DerivAPI.log := DerivAPI.log a |}) as ->.
  { unfold DerivAPI.subscribe, DerivAPI.send.
    change (DerivAPI.isOpen _) with (DerivAPI.isOpen a). rewrite Hopen. reflexivity. }
  cbn [DerivAPI.step].
  assert (kind ∈ ({[kind]} ∪ DerivAPI.subscriptions a : gset string)) as Hsub
    by (apply elem_of_union_l, elem_of_singleton; reflexivity).
  assert (forall b : DerivAPI.t,
             DerivAPI.subscriptions b = {[kind]} ∪ DerivAPI.subscriptions a ->
             DerivAPI.handleMessage data b = DerivAPI.emit (DerivAPI.Deliver kind) b) as Hpush.
  { intros b Hb. unfold DerivAPI.handleMessage, DerivAPI.isPush. rewrite Htype, Hb.
    unfold pushKinds in Hkind. cbn [In] in Hkind.
    destruct Hkind as [<-|[<-|[<-|[]]]];
      repeat match goal with
             | |- context [String.eqb ?x ?y] =>
                 let v := eval vm_compute in (String.eqb x y) in
                 change (String.eqb x y) with v
             end;
      cbn [andb]; rewrite (bool_decide_eq_true_2 _ Hsub); reflexivity. }
  rewrite Hpush by reflexivity. cbn.
  split; [rewrite <- app_assoc; reflexivity|].
  split; [apply elem_of_union_l, elem_of_singleton; reflexivity|].
  unfold DerivAPI.requestTimeout. cbn.
  rewrite bool_decide_eq_true_2
    by (apply elem_of_union_l, elem_of_singleton; reflexivity).
  reflexivity.
Qed.

Lemma subscription_reply_times_out_witness :
  let data := {| DerivAPI.msg_type := "tick"; DerivAPI.req_id := Some 1%nat;
                 DerivAPI.error := None |} in
  let a1 := DerivAPI.step (DerivAPI.MessageReceived data) (DerivAPI.subscribe "tick" connected) in
  In "tick"%string pushKinds
  /\ DerivAPI.isOpen connected = true
  /\ DerivAPI.log a1
     = DerivAPI.log connected ++ [DerivAPI.Transmit 1; DerivAPI.Deliver "tick"]
  /\ DerivAPI.log (DerivAPI.step (DerivAPI.RequestTimer 1) a1)
     = DerivAPI.log a1 ++ [DerivAPI.Reject 1 "Request timeout"].
Proof.
  intros data a1.
  assert (In "tick"%string pushKinds) as Hk by (left; reflexivity).
  assert (DerivAPI.isOpen connected = true) as Ho by reflexivity.
  split; [exact Hk|]. split; [exact Ho|].
  destruct (subscription_reply_times_out connected "tick" data Hk Ho eq_refl eq_refl)
    as (H1 & _ & H2).
  split; [exact H1 | exact H2].
Defined.

(** X27.  [disconnect] abandons the calls that are pending: whatever
    happens afterwards (late replies, the 30 s timers, new connections),
    none of the requests issued before it is ever resolved or rejected. *)
Theorem disconnect_abandons_pending_calls (a : DerivAPI.t) (r : nat)
    (evs : list DerivAPI.event) :
  (r < DerivAPI.requestId a)%nat ->
  exists effs,
    DerivAPI.log (DerivAPI.run evs (DerivAPI.disconnect a)) = DerivAPI.log a ++ effs
    /\ unsettled r effs.
Proof.
  intros Hlt.
  assert (exists effs0, DerivAPI.log (DerivAPI.disconnect a) = DerivAPI.log a ++ effs0
                        /\ unsettled r effs0
                        /\ DerivAPI.callbacks (DerivAPI.disconnect a) = ∅
                        /\ DerivAPI.requestId (DerivAPI.disconnect a) = DerivAPI.requestId a)
    as (effs0 & Hl0 & Hu0 & Hc0 & Hr0).
  { unfold DerivAPI.disconnect. destruct (DerivAPI.ws a) as [sock|].
    - exists [DerivAPI.CloseSocket sock]. repeat split.
    - exists []. cbn. rewrite app_nil_r. repeat split. }
  destruct (run_forgotten r evs (DerivAPI.disconnect a)) as (effs & Hl & Hu & _).
  - rewrite Hc0. apply not_elem_of_empty.
  - rewrite Hr0. exact Hlt.
  - exists (effs0 ++ effs). split.
    + rewrite Hl, Hl0, <- app_assoc. reflexivity.
    + unfold unsettled in *. rewrite forallb_app, Hu0, Hu. reflexivity.
Qed.

Lemma disconnect_abandons_pending_calls_witness :
  let a := DerivAPI.step DerivAPI.Send connected in
  (1 < DerivAPI.requestId a)%nat
  /\ 1%nat ∈ DerivAPI.callbacks a
  /\ exists effs,
       DerivAPI.log (DerivAPI.run [DerivAPI.MessageReceived lateReply; DerivAPI.RequestTimer 1]
                       (DerivAPI.disconnect a))
       = DerivAPI.log a ++ effs
       /\ unsettled 1 effs.
Proof.
  intros a.
  assert (1 < DerivAPI.requestId a)%nat as H by (vm_compute; lia).
  split; [exact H|].
  split; [apply (bool_decide_unpack _); vm_compute; exact I|].
  exact (disconnect_abandons_pending_calls a 1
           [DerivAPI.MessageReceived lateReply; DerivAPI.RequestTimer 1] H).
Defined.

(** X28.  A deliberate [disconnect] is answered by a reconnection: when
    the close event of the socket it has closed arrives and fewer than
    five attempts have been made, the client schedules an attempt, and the
    timer opens a new socket, which becomes the current one. *)
Theorem disconnect_is_followed_by_reconnection (a : DerivAPI.t) (sock : nat) :
  DerivAPI.ws a = Some sock ->
  live a sock = true ->
  (DerivAPI.reconnectAttempts a < DerivAPI.maxReconnectAttempts)%nat ->
  let n := S (DerivAPI.reconnectAttempts a) in
  let a' := DerivAPI.run [DerivAPI.Disconnect; DerivAPI.SocketClosed sock;
                          DerivAPI.ReconnectTimer (DerivAPI.nextHandle a)] a in
  DerivAPI.log a'
  = DerivAPI.log a ++ [DerivAPI.CloseSocket sock;
                       DerivAPI.ScheduleReconnect n (Js.Math_pow 2 n * 1000);
                       DerivAPI.NewSocket (DerivAPI.nextSocket a)]
  /\ DerivAPI.ws a' = Some (DerivAPI.nextSocket a).
Proof.
  intros Hws Hlive Hlt n a'. subst n a'.
  cbn [DerivAPI.run fold_left DerivAPI.step].
  assert (exists m, DerivAPI.disconnect a
            = DerivAPI.emit (DerivAPI.CloseSocket sock)
                {| DerivAPI.ws := None; DerivAPI.sockets := m;
                   DerivAPI.nextSocket := DerivAPI.nextSocket a;
                   DerivAPI.requestId := DerivAPI.requestId a;
                   DerivAPI.callbacks := ∅; DerivAPI.subscriptions := ∅;
                   DerivAPI.reconnectAttempts := DerivAPI.reconnectAttempts a;
                   DerivAPI.reconnectTimeout := DerivAPI.reconnectTimeout a;
                   DerivAPI.reconnectTimers :=
                     match DerivAPI.reconnectTimeout a with
                     | Some h => DerivAPI.reconnectTimers a ∖ {[h]}
                     | None => DerivAPI.reconnectTimers a
                     end;
                   DerivAPI.heartbeats := DerivAPI.heartbeats a;
                   DerivAPI.nextHandle := DerivAPI.nextHandle a;
                   DerivAPI.log := DerivAPI.log a |}
            /\ m !! sock = Some DerivAPI.CLOSING) as (m & -> & Hm).
  { unfold DerivAPI.disconnect. rewrite Hws. eexists. split; [reflexivity|].
    unfold live in Hlive. unfold DerivAPI.closing.
    destruct (DerivAPI.sockets a !! sock) as [[ | | | ]|] eqn:Hs;
      try discriminate Hlive; try apply lookup_insert_eq. exact Hs. }
  cbn [DerivAPI.sockets DerivAPI.emit]. rewrite Hm.
  unfold DerivAPI.handleReconnection.
  cbn [DerivAPI.reconnectAttempts DerivAPI.set_sockets DerivAPI.emit].
  apply Nat.ltb_lt in Hlt. rewrite Hlt. cbn.
  rewrite bool_decide_eq_true_2
    by (apply elem_of_union_l, elem_of_singleton; reflexivity).
  cbn. split; [|reflexivity].
  rewrite <- !app_assoc. reflexivity.
Qed.

Lemma disconnect_is_followed_by_reconnection_witness :
  DerivAPI.ws connected = Some 0%nat
  /\ live connected 0 = true
  /\ DerivAPI.ws
       (DerivAPI.run [DerivAPI.Disconnect; DerivAPI.SocketClosed 0;
                      DerivAPI.ReconnectTimer (DerivAPI.nextHandle connected)] connected)
     = Some (DerivAPI.nextSocket connected).
Proof.
  assert (DerivAPI.ws connected = Some 0%nat) as Hws by reflexivity.
  assert (live connected 0 = true) as Hlive by reflexivity.
  assert (DerivAPI.reconnectAttempts connected < DerivAPI.maxReconnectAttempts)%nat as Hlt
    by (vm_compute; lia).
  split; [exact Hws|]. split; [exact Hlive|].
  exact (proj2 (disconnect_is_followed_by_reconnection connected 0 Hws Hlive Hlt)).
Defined.

Lemma backoff_delay_bounds (n : nat) :
  (1 <= n <= DerivAPI.maxReconnectAttempts)%nat ->
  2000 <= Js.Math_pow 2 n * 1000 <= 32000.
Proof.
  unfold DerivAPI.maxReconnectAttempts. intros Hn.
  do 6 (destruct n as [|n]; [try lia; cbn [Js.Math_pow]; lra|]). lia.
Qed.

Lemma send_backoff (a b : DerivAPI.t) :
  DerivAPI.reconnectAttempts b = DerivAPI.reconnectAttempts a ->
  DerivAPI.log b = DerivAPI.log a ->
  (DerivAPI.reconnectAttempts a <= DerivAPI.maxReconnectAttempts)%nat ->
  Forall boundedBackoff (DerivAPI.log a) ->
  (DerivAPI.reconnectAttempts (DerivAPI.send b) <= DerivAPI.maxReconnectAttempts)%nat
  /\ Forall boundedBackoff (DerivAPI.log (DerivAPI.send b)).
Proof.
  intros Hn Hl Hmax Hlog. unfold DerivAPI.send.
  destruct (DerivAPI.isOpen b); cbn; rewrite Hn, Hl;
    (split; [exact Hmax|]); apply Forall_app; (split; [exact Hlog|]);
    repeat constructor.
Qed.

Lemma step_backoff (ev : DerivAPI.event) (a : DerivAPI.t) :
  (DerivAPI.reconnectAttempts a <= DerivAPI.maxReconnectAttempts)%nat ->
  Forall boundedBackoff (DerivAPI.log a) ->
  (DerivAPI.reconnectAttempts (DerivAPI.step ev a) <= DerivAPI.maxReconnectAttempts)%nat
  /\ Forall boundedBackoff (DerivAPI.log (DerivAPI.step ev a)).
Proof.
  intros Hmax Hlog.
  assert (forall eff, boundedBackoff eff ->
                      Forall boundedBackoff (DerivAPI.log a ++ [eff])) as Hadd.
  { intros eff Heff. apply Forall_app. split; [exact Hlog|]. repeat constructor. exact Heff. }
  destruct ev as [ | |kind| |sock|sock|data|r|handle|handle]; cbn [DerivAPI.step].
  - split; [exact Hmax|]. apply Hadd. exact I.
  - apply (send_backoff a a); auto.
  - unfold DerivAPI.subscribe. apply (send_backoff a); auto.
  - unfold DerivAPI.disconnect. destruct (DerivAPI.ws a) as [sock|].
    + split; [exact Hmax|]. apply Hadd. exact I.
    + split; [exact Hmax | exact Hlog].
  - destruct (bool_decide _); [|split; [exact Hmax | exact Hlog]].
    split; [cbn; lia | exact Hlog].
  - destruct (DerivAPI.sockets a !! sock) as [[ | | | ]|];
      try (split; [exact Hmax | exact Hlog]);
      unfold DerivAPI.handleReconnection;
      cbn [DerivAPI.reconnectAttempts DerivAPI.set_sockets];
      (destruct (Nat.ltb (DerivAPI.reconnectAttempts a) DerivAPI.maxReconnectAttempts) eqn:Hlt;
       [apply Nat.ltb_lt in Hlt; split; [cbn; lia|]; apply Hadd;
        split; [lia|]; split; [reflexivity|]; apply backoff_delay_bounds; lia
       |split; [exact Hmax|]; apply Hadd; exact I]).
  - destruct (handleMessage_frame data a) as (Hn & _ & _ & _).
    rewrite Hn. split; [exact Hmax|].
    destruct (handleMessage_cases data a)
      as [_ [(kind & Hl & _)|[(Hl & _)|(r & eff & _ & _ & Hl & Heff & _)]]]; rewrite Hl.
    + apply Hadd. exact I.
    + exact Hlog.
    + apply Hadd. destruct Heff as [->|[reason ->]]; exact I.
  - unfold DerivAPI.requestTimeout. destruct (bool_decide _).
    + split; [exact Hmax|]. apply Hadd. exact I.
    + split; [exact Hmax | exact Hlog].
  - destruct (bool_decide _).
    + split; [exact Hmax|]. apply Hadd. exact I.
    + split; [exact Hmax | exact Hlog].
  - destruct (bool_decide _); [|split; [exact Hmax | exact Hlog]].
    unfold DerivAPI.heartbeat. destruct (DerivAPI.isOpen a) eqn:Hopen.
    + apply (send_backoff a a); auto.
    + split; [exact Hmax | exact Hlog].
Qed.

(** X29.  In every run of a new client the attempt counter stays at five
    or below, and every reconnection it schedules is for an attempt from 1
    to 5, after [2^attempt] seconds, that is between 2 and 32 seconds. *)
Theorem reconnection_delays_are_bounded (evs : list DerivAPI.event) :
  let a := DerivAPI.run evs DerivAPI.newApi in
  (DerivAPI.reconnectAttempts a <= DerivAPI.maxReconnectAttempts)%nat
  /\ Forall boundedBackoff (DerivAPI.log a).
Proof.
  cbv zeta.
  assert (forall a : DerivAPI.t,
             (DerivAPI.reconnectAttempts a <= DerivAPI.maxReconnectAttempts)%nat ->
             Forall boundedBackoff (DerivAPI.log a) ->
             (DerivAPI.reconnectAttempts (DerivAPI.run evs a) <= DerivAPI.maxReconnectAttempts)%nat
             /\ Forall boundedBackoff (DerivAPI.log (DerivAPI.run evs a))) as Hrun.
  { induction evs as [|ev evs IH]; intros a Hmax Hlog; [split; assumption|].
    cbn [DerivAPI.run fold_left].
    destruct (step_backoff ev a Hmax Hlog) as [Hmax' Hlog']. exact (IH _ Hmax' Hlog'). }
  apply Hrun; [unfold DerivAPI.maxReconnectAttempts; cbn; lia | constructor].
Qed.

Lemma send_heartbeats (a : DerivAPI.t) :
  DerivAPI.heartbeats (DerivAPI.send a) = DerivAPI.heartbeats a.
Proof. unfold DerivAPI.send. destruct (DerivAPI.isOpen a); reflexivity. Qed.

Lemma handleMessage_heartbeats (data : DerivAPI.message) (a : DerivAPI.t) :
  DerivAPI.heartbeats (DerivAPI.handleMessage data a) = DerivAPI.heartbeats a.
Proof.
  unfold DerivAPI.handleMessage.
  repeat match goal with
         | |- context [if DerivAPI.isPush ?d ?k ?x then _ else _] =>
             destruct (DerivAPI.isPush d k x); [reflexivity|]
         end.
  destruct (DerivAPI.req_id data) as [[|k]|]; try reflexivity.
  destruct (bool_decide _); [|reflexivity].
  unfold DerivAPI.callback. destruct (DerivAPI.error data); reflexivity.
Qed.

(** X30.  Nothing stops a heartbeat but its own tick on a socket that is
    not open: no call of the client ([disconnect] included) and no other
    event clears the interval that [startHeartbeat] has set, so that a
    heartbeat started on one socket goes on pinging on the next. *)
Theorem heartbeat_stops_only_at_its_own_tick (h : nat) (ev : DerivAPI.event)
    (a : DerivAPI.t) :
  h ∈ DerivAPI.heartbeats a ->
  (ev = DerivAPI.HeartbeatTimer h -> DerivAPI.isOpen a = true) ->
  h ∈ DerivAPI.heartbeats (DerivAPI.step ev a).
Proof.
  intros Hin Htick.
  destruct ev as [ | |kind| |sock|sock|data|r|handle|handle]; cbn [DerivAPI.step].
  - exact Hin.
  - rewrite send_heartbeats. exact Hin.
  - unfold DerivAPI.subscribe. rewrite send_heartbeats. exact Hin.
  - unfold DerivAPI.disconnect. destruct (DerivAPI.ws a); exact Hin.
  - destruct (bool_decide _); [|exact Hin]. cbn. apply elem_of_union_r. exact Hin.
  - destruct (DerivAPI.sockets a !! sock) as [[ | | | ]|]; try exact Hin;
      unfold DerivAPI.handleReconnection; destruct (Nat.ltb _ _); exact Hin.
  - rewrite handleMessage_heartbeats. exact Hin.
  - unfold DerivAPI.requestTimeout. destruct (bool_decide _); exact Hin.
  - destruct (bool_decide _); exact Hin.
  - destruct (bool_decide _); [|exact Hin]. unfold DerivAPI.heartbeat.
    destruct (DerivAPI.isOpen a) eqn:Hopen; [rewrite send_heartbeats; exact Hin|].
    cbn. apply elem_of_difference. split; [exact Hin|].
    rewrite elem_of_singleton. intros ->.
    specialize (Htick eq_refl). discriminate Htick.
Qed.

Lemma heartbeat_stops_only_at_its_own_tick_witness :
  let old := DerivAPI.nextHandle DerivAPI.newApi in
  let reconnected :=
    DerivAPI.run [DerivAPI.SocketClosed 0; DerivAPI.ReconnectTimer 2; DerivAPI.SocketOpened 1]
      connected in
  old ∈ DerivAPI.heartbeats reconnected
  /\ DerivAPI.isOpen reconnected = true
  /\ old ∈ DerivAPI.heartbeats (DerivAPI.step (DerivAPI.HeartbeatTimer old) reconnected)
  /\ DerivAPI.log (DerivAPI.step (DerivAPI.HeartbeatTimer old) reconnected)
     = DerivAPI.log reconnected ++ [DerivAPI.Transmit 1].
Proof.
  intros old reconnected.
  assert (old ∈ DerivAPI.heartbeats reconnected) as Hin
    by (apply (bool_decide_unpack _); vm_compute; exact I).
  assert (DerivAPI.isOpen reconnected = true) as Hopen by (vm_compute; reflexivity).
  split; [exact Hin|]. split; [exact Hopen|].
  split; [|vm_compute; reflexivity].
  exact (heartbeat_stops_only_at_its_own_tick old (DerivAPI.HeartbeatTimer old) reconnected
           Hin (fun _ => Hopen)).
Defined.
